(** * Receipt processor: validation, scoring, store and handlers

    A shallow embedding of [app/models.py] and [app/main.py].

    - Python [str] values are Rocq strings whose characters are read as the
      code points U+0000..U+00FF; the character classes below are CPython's
      for that range.
    - Python [int] is [Z].  Python [float] is IEEE 754 binary64 with
      round-to-nearest-even, modelled exactly on the values the program can
      produce (non-negative finite values, +inf and nan).
    - A request body is a decoded JSON object; what the validation library
      makes of a missing field or of a value of another type than the field's
      is a parameter of the model.
    - Exceptions are a [result] type; code that raises returns [Raise].
      The messages of the exceptions the libraries raise are shortened: no
      code path reads them.
    - The dictionary [receipts] is a [gmap string Z] passed explicitly. *)

From Stdlib Require Import Ascii String ZArith List Bool Lia.
From Stdlib Require Import DecimalString DecimalNat.
From stdpp Require Import base gmap strings list.
Import ListNotations.

Local Open Scope string_scope.
Local Open Scope Z_scope.

(** ** Exceptions *)

Inductive exn : Type :=
  | ValueError (msg : string)
  | OverflowError (msg : string).

Inductive result (A : Type) : Type :=
  | Ok (a : A)
  | Raise (e : exn).
Arguments Ok {A} a.
Arguments Raise {A} e.

#[global] Instance result_ret : MRet result := fun A a => Ok a.
#[global] Instance result_bind : MBind result := fun A B f m =>
  match m with
  | Ok a => f a
  | Raise e => Raise e
  end.

Definition returns {A} (m : result A) : bool :=
  match m with Ok _ => true | Raise _ => false end.

(** ** Python strings *)

Module PyStr.

Definition ord (c : ascii) : Z := Z.of_N (Ascii.N_of_ascii c).

Definition between (lo hi x : Z) : bool := (lo <=? x) && (x <=? hi).

(** [str.isspace] on one character. *)
Definition isspace (c : ascii) : bool :=
  let n := ord c in
  between 9 13 n || between 28 32 n || (n =? 133) || (n =? 160).

(** The class [\d] of [re] on a [str] pattern, and [str.isdecimal]. *)
Definition isdecimal (c : ascii) : bool := between 48 57 (ord c).

(** [str.isalnum] on one character. *)
Definition isalnum (c : ascii) : bool :=
  let n := ord c in
  between 48 57 n || between 65 90 n || between 97 122 n
  || (n =? 170) || (n =? 178) || (n =? 179) || (n =? 181) || (n =? 185)
  || (n =? 186) || between 188 190 n || between 192 214 n
  || between 216 246 n || between 248 255 n.

Fixpoint lstrip (s : string) : string :=
  match s with
  | EmptyString => EmptyString
  | String c s' => if isspace c then lstrip s' else s
  end.

Fixpoint rstrip (s : string) : string :=
  match s with
  | EmptyString => EmptyString
  | String c s' =>
      match rstrip s' with
      | EmptyString => if isspace c then EmptyString else String c EmptyString
      | r => String c r
      end
  end.

(** [s.strip()] *)
Definition strip (s : string) : string := rstrip (lstrip s).

(** A text made of white space only; the empty text is one. *)
Definition all_space (s : string) : bool :=
  forallb isspace (list_ascii_of_string s).

(** [len(s)] *)
Definition len (s : string) : Z := Z.of_nat (String.length s).

(** [not s] for a string: true exactly on the empty string. *)
Definition is_empty (s : string) : bool :=
  match s with EmptyString => true | _ => false end.

(** [sum(c.isalnum() for c in s)] *)
Fixpoint sum_isalnum (s : string) : Z :=
  match s with
  | EmptyString => 0
  | String c s' => (if isalnum c then 1 else 0) + sum_isalnum s'
  end.

Definition digit_val (c : ascii) : Z := ord c - 48.

(** The value of a run of decimal digits read after [acc]. *)
Definition digits_value (l : list ascii) (acc : Z) : Z :=
  fold_left (fun acc c => 10 * acc + digit_val c) l acc.

(** [int(s)] on a string of decimal digits. *)
Definition int_of_digits (s : string) : Z :=
  digits_value (list_ascii_of_string s) 0.

Definition digit_char (d : Z) : ascii :=
  Ascii.ascii_of_N (Z.to_N (48 + d mod 10)).

Fixpoint digits_from (fuel : nat) (n : Z) (acc : string) : string :=
  match fuel with
  | O => acc
  | S fuel' =>
      let acc' := String (digit_char n) acc in
      if n <? 10 then acc' else digits_from fuel' (n / 10) acc'
  end.

(** [str(n)] for an [int] [n >= 0]. *)
Definition str_of_int (n : Z) : string :=
  digits_from (S (Z.to_nat (Z.log2 n))) n EmptyString.

(** [sep.join(parts)] *)
Fixpoint join (sep : string) (parts : list string) : string :=
  match parts with
  | [] => EmptyString
  | [p] => p
  | p :: ps => p +:+ sep +:+ join sep ps
  end.

End PyStr.

(** ** IEEE 754 binary64, on the non-negative values the program computes *)

Module Float64.

(** [Finite m e] is the number [m * 2^e] with [0 <= m]. *)
Inductive float : Type :=
  | Finite (m e : Z)
  | Inf
  | NaN.

(** The pair [(a, b)] with [a / b = (n / d) / 2^e]. *)
Definition scale (n d e : Z) : Z * Z :=
  if 0 <=? e then (n, d * 2 ^ e) else (n * 2 ^ (- e), d).

(** [2^k <= n / d], for [0 < n] and [0 < d]. *)
Definition pow2_le (k n d : Z) : bool :=
  let '(a, b) := scale n d k in b <=? a.

(** [floor (log2 (n / d))] for [0 < n] and [0 < d]. *)
Definition binade (n d : Z) : Z :=
  let l := Z.log2 n - Z.log2 d in
  if pow2_le l n d then l else l - 1.

(** Round the rational [n / d >= 0] to the nearest binary64 value, ties to
    the even significand; values that round to [2^1024] or more overflow
    to infinity. *)
Definition round_ne (n d : Z) : float :=
  if n =? 0 then Finite 0 0 else
  let e := Z.max (binade n d - 52) (-1074) in
  let '(a, b) := scale n d e in
  let q := a / b in
  let r := a mod b in
  let m := match 2 * r ?= b with
           | Lt => q
           | Gt => q + 1
           | Eq => if Z.even q then q else q + 1
           end in
  if (0 <=? e) && (2 ^ 1024 <=? m * 2 ^ e) then Inf else Finite m e.

Definition is_zero (x : float) : bool :=
  match x with Finite m _ => m =? 0 | _ => false end.

(** [x * y] *)
Definition mul (x y : float) : float :=
  match x, y with
  | Finite m1 e1, Finite m2 e2 =>
      let e := e1 + e2 in
      if 0 <=? e then round_ne (m1 * m2 * 2 ^ e) 1
      else round_ne (m1 * m2) (2 ^ (- e))
  | Inf, Inf => Inf
  | Inf, Finite _ _ => if is_zero y then NaN else Inf
  | Finite _ _, Inf => if is_zero x then NaN else Inf
  | _, _ => NaN
  end.

(** [x.is_integer()] *)
Definition is_integer (x : float) : bool :=
  match x with
  | Finite m e => if 0 <=? e then true else m mod 2 ^ (- e) =? 0
  | _ => false
  end.

(** [x % y] for [0 <= x] and [0 < y]; the remainder is exact. *)
Definition fmod (x y : float) : float :=
  match x, y with
  | Finite m1 e1, Finite m2 e2 =>
      let e := Z.min e1 e2 in
      Finite ((m1 * 2 ^ (e1 - e)) mod (m2 * 2 ^ (e2 - e))) e
  | Finite _ _, Inf => x
  | _, _ => NaN
  end.

(** [x == 0] *)
Definition eq_zero (x : float) : bool := is_zero x.

(** [math.ceil(x)] *)
Definition ceil (x : float) : result Z :=
  match x with
  | Finite m e =>
      Ok (if 0 <=? e then m * 2 ^ e else - ((- m) / 2 ^ (- e)))
  | Inf => Raise (OverflowError "cannot convert float infinity to integer")
  | NaN => Raise (ValueError "cannot convert float NaN to integer")
  end.

(** The literals [0.2] and [0.25]. *)
Definition lit_0_2 : float := round_ne 2 10.
Definition lit_0_25 : float := round_ne 25 100.

(** The text before and after the first decimal point. *)
Fixpoint split_point (s : string) : option (string * string) :=
  match s with
  | EmptyString => None
  | String c s' =>
      if Ascii.eqb c "."%char then Some (EmptyString, s')
      else match split_point s' with
           | Some (i, f) => Some (String c i, f)
           | None => None
           end
  end.

Definition all_decimal (s : string) : bool :=
  forallb PyStr.isdecimal (list_ascii_of_string s).

(** [float(s)] on a decimal literal [digits.digits]: the nearest binary64
    number to its decimal value.  The other literals [float] accepts (a
    sign, no point, exponents, [inf], [nan], underscores, surrounding white
    space) do not occur in a validated receipt and are not modelled: on them
    this function raises where [float] returns a number, so what is stated
    of the score of a receipt that did not pass validation holds of the
    code only where it does not rest on this function raising. *)
Definition of_str (s : string) : result float :=
  match split_point s with
  | Some (i, f) =>
      if all_decimal i && all_decimal f && negb (PyStr.is_empty (i +:+ f))
      then Ok (round_ne (PyStr.int_of_digits (i +:+ f))
                        (10 ^ PyStr.len f))
      else Raise (ValueError "could not convert string to float")
  | None => Raise (ValueError "could not convert string to float")
  end.

End Float64.

(** ** Regular expressions of [re], as backtracking matchers

    A matcher maps the text at the current position to every way of matching
    a prefix of it, as pairs (matched text, remaining text), in the order in
    which the backtracking engine tries them. *)

Module Re.

Definition matcher : Type := string -> list (string * string).

Definition chr (p : ascii -> bool) : matcher := fun s =>
  match s with
  | String c s' => if p c then [(String c EmptyString, s')] else []
  | EmptyString => []
  end.

Definition lit (c : ascii) : matcher := chr (Ascii.eqb c).

(** [[lo-hi]] *)
Definition range (lo hi : ascii) : matcher :=
  chr (fun c => PyStr.between (PyStr.ord lo) (PyStr.ord hi) (PyStr.ord c)).

(** [\d] *)
Definition digit : matcher := chr PyStr.isdecimal.

Definition seq (r1 r2 : matcher) : matcher := fun s =>
  flat_map (fun '(m1, s1) =>
    map (fun '(m2, s2) => (m1 +:+ m2, s2)) (r2 s1)) (r1 s).

Definition alt (r1 r2 : matcher) : matcher := fun s => (r1 s ++ r2 s)%list.

(** [c+] for a character class, greedy: longest repetition first. *)
Fixpoint plus_chr (p : ascii -> bool) (s : string) : list (string * string) :=
  match s with
  | String c s' =>
      if p c
      then (map (fun '(m, r) => (String c m, r)) (plus_chr p s')
            ++ [(String c EmptyString, s')])%list
      else []
  | EmptyString => []
  end.

(** [$]: at the end of the text, or just before a final newline. *)
Definition eol : matcher := fun s =>
  match s with
  | EmptyString => [(EmptyString, s)]
  | String c EmptyString =>
      if Ascii.eqb c "010"%char then [(EmptyString, s)] else []
  | _ => []
  end.

(** [re.fullmatch(r, s)] succeeds when some way of matching consumes all
    of [s]. *)
Definition fullmatch (r : matcher) (s : string) : bool :=
  existsb (fun '(_, rest) => PyStr.is_empty rest) (r s).

Infix "+>" := seq (at level 61, left associativity).
Infix "<|>" := alt (at level 62, left associativity).

End Re.

(** ** [datetime]: [strptime], [strftime], [time] comparison *)

Module Datetime.
Import Re.

Record datetime : Type := mk_datetime
  { year : Z; month : Z; day : Z; hour : Z; minute : Z }.

Record time : Type := mk_time { t_hour : Z; t_minute : Z }.

(** [dt.time()] *)
Definition time_of (dt : datetime) : time :=
  mk_time (hour dt) (minute dt).

(** [a < b] on [time] values (seconds and microseconds are zero). *)
Definition time_lt (a b : time) : bool :=
  (t_hour a <? t_hour b)
  || ((t_hour a =? t_hour b) && (t_minute a <? t_minute b)).

(** The regular expressions [_strptime] substitutes for the directives. *)
Definition re_Y : matcher := digit +> digit +> digit +> digit.
Definition re_m : matcher :=
  (lit "1" +> range "0" "2") <|> (lit "0" +> range "1" "9") <|> range "1" "9".
Definition re_d : matcher :=
  (lit "3" +> range "0" "1") <|> (range "1" "2" +> digit)
  <|> (lit "0" +> range "1" "9") <|> range "1" "9"
  <|> (lit " " +> range "1" "9").
Definition re_H : matcher :=
  (lit "2" +> range "0" "3") <|> (range "0" "1" +> digit) <|> digit.
Definition re_M : matcher := (range "0" "5" +> digit) <|> digit.

(** [int(found_dict[...])] *)
Definition int_of_group (s : string) : Z :=
  PyStr.int_of_digits (PyStr.strip s).

(** The fields collected from the groups, with [_strptime]'s defaults. *)
Definition defaults : datetime := mk_datetime 1900 1 1 0 0.

Definition set_field (d : ascii) (v : Z) (t : datetime) : datetime :=
  if Ascii.eqb d "Y" then mk_datetime v (month t) (day t) (hour t) (minute t)
  else if Ascii.eqb d "m" then mk_datetime (year t) v (day t) (hour t) (minute t)
  else if Ascii.eqb d "d" then mk_datetime (year t) (month t) v (hour t) (minute t)
  else if Ascii.eqb d "H" then mk_datetime (year t) (month t) (day t) v (minute t)
  else mk_datetime (year t) (month t) (day t) (hour t) v.

(** The directives the program uses: [%Y %m %d %H %M]. *)
Definition directive (d : ascii) : option matcher :=
  if Ascii.eqb d "Y" then Some re_Y
  else if Ascii.eqb d "m" then Some re_m
  else if Ascii.eqb d "d" then Some re_d
  else if Ascii.eqb d "H" then Some re_H
  else if Ascii.eqb d "M" then Some re_M
  else None.

(** Matching the text against the regular expression of a format: every
    other character of the format stands for itself. *)
Fixpoint match_format (fmt : string) (acc : datetime) (s : string)
  : list (datetime * string) :=
  match fmt with
  | EmptyString => [(acc, s)]
  | String "%" (String d fmt') =>
      match directive d with
      | Some r =>
          flat_map (fun '(g, s') =>
            match_format fmt' (set_field d (int_of_group g) acc) s') (r s)
      | None => []
      end
  | String c fmt' =>
      flat_map (fun '(_, s') => match_format fmt' acc s') (lit c s)
  end.

Definition is_leap (y : Z) : bool :=
  (y mod 4 =? 0) && (negb (y mod 100 =? 0) || (y mod 400 =? 0)).

Definition days_in_month (y m : Z) : Z :=
  if m =? 2 then (if is_leap y then 29 else 28)
  else if (m =? 4) || (m =? 6) || (m =? 9) || (m =? 11) then 30
  else 31.

(** The range checks of the [date] constructor. *)
Definition check_date (t : datetime) : result datetime :=
  if negb (PyStr.between 1 9999 (year t))
  then Raise (ValueError "year is out of range")
  else if negb (PyStr.between 1 12 (month t))
  then Raise (ValueError "month must be in 1..12")
  else if negb (PyStr.between 1 (days_in_month (year t) (month t)) (day t))
  then Raise (ValueError "day is out of range for month")
  else Ok t.

(** [datetime.strptime(data, fmt)]: the first match of the format's
    regular expression must end at the end of the text. *)
Definition strptime (data fmt : string) : result datetime :=
  match match_format fmt defaults data with
  | [] => Raise (ValueError "time data does not match format")
  | (t, rest) :: _ =>
      if negb (PyStr.is_empty rest)
      then Raise (ValueError "unconverted data remains")
      else check_date t
  end.

Definition pad2 (n : Z) : string :=
  String (PyStr.digit_char (n / 10)) (String (PyStr.digit_char n) EmptyString).

(** Four digits, zero filled: the documented rendering of [%Y]. *)
Definition pad4 (n : Z) : string :=
  String (PyStr.digit_char (n / 1000)) (String (PyStr.digit_char (n / 100))
    (pad2 n)).

(** [dt.strftime(fmt)] for the directives [%Y %m %d].  The C library
    renders [%Y]; how it writes a year below 1000 differs between
    platforms, so the rendering is a parameter. *)
Fixpoint strftime (fmt_year : Z -> string) (dt : datetime) (fmt : string)
  : string :=
  match fmt with
  | EmptyString => EmptyString
  | String "%" (String d fmt') =>
      (if Ascii.eqb d "Y" then fmt_year (year dt)
       else if Ascii.eqb d "m" then pad2 (month dt)
       else if Ascii.eqb d "d" then pad2 (day dt)
       else EmptyString)
      +:+ strftime fmt_year dt fmt'
  | String c fmt' => String c (strftime fmt_year dt fmt')
  end.

(** The two date formats of [valid_date], by their separator. *)
Definition fmt_Ymd (sep : ascii) : string :=
  String "%" (String "Y" (String sep (String "%" (String "m"
    (String sep (String "%" (String "d" EmptyString))))))).

End Datetime.

(** ** [app/models.py] *)

Module Models.
Import Re.

Record Item : Type := mk_Item
  { shortDescription : string; price : string }.

Record Receipt : Type := mk_Receipt
  { retailer : string;
    purchaseDate : string;
    purchaseTime : string;
    items : list Item;
    total : string }.

(** The receipt [r] with the items [its] in place of its own. *)
Definition with_items (r : Receipt) (its : list Item) : Receipt :=
  mk_Receipt (retailer r) (purchaseDate r) (purchaseTime r) its (total r).

(** *** The validators *)

(** [Item.description_not_empty] *)
Definition description_not_empty (v : string) : result string :=
  if PyStr.is_empty (PyStr.strip v)
  then Raise (ValueError "shortDescription cannot be empty or whitespace")
  else Ok v.

(** [^\d+\.\d{2}$]; the match starts at position 0, where [^] holds. *)
Definition money_pattern : matcher :=
  plus_chr PyStr.isdecimal +> lit "." +> digit +> digit +> eol.

(** [Item.valid_price] *)
Definition valid_price (v : string) : result string :=
  if negb (fullmatch money_pattern v)
  then Raise (ValueError "Price must be in XX.XX format")
  else Ok v.

(** [Receipt.retailer_not_empty] *)
Definition retailer_not_empty (v : string) : result string :=
  if PyStr.is_empty (PyStr.strip v)
  then Raise (ValueError "Retailer cannot be empty or whitespace")
  else Ok v.

(** The loop of [Receipt.valid_date] over [date_formats]. *)
Fixpoint valid_date_loop (fmt_year : Z -> string) (date_formats : list string)
    (v : string) : result string :=
  match date_formats with
  | [] =>
      Raise (ValueError
        "purchaseDate must be a valid date in YYYY-MM-DD or YYYY/MM/DD format")
  | date_format :: rest =>
      match Datetime.strptime v date_format with
      | Ok parsed_date => Ok (Datetime.strftime fmt_year parsed_date "%Y-%m-%d")
      | Raise (ValueError _) => valid_date_loop fmt_year rest v
      | Raise e => Raise e
      end
  end.

(** [Receipt.valid_date] *)
Definition valid_date (fmt_year : Z -> string) (v : string) : result string :=
  valid_date_loop fmt_year ["%Y-%m-%d"; "%Y/%m/%d"] v.

(** [Receipt.valid_time] *)
Definition valid_time (v : string) : result string :=
  match Datetime.strptime v "%H:%M" with
  | Ok _ => Ok v
  | Raise (ValueError _) =>
      Raise (ValueError "purchaseTime must be a valid time in HH:MM format")
  | Raise e => Raise e
  end.

(** [Receipt.valid_total] *)
Definition valid_total (v : string) : result string :=
  if negb (fullmatch money_pattern v)
  then Raise (ValueError "Total must be in XX.XX format")
  else Ok v.

(** *** Validation of a submission by the model classes

    What the installed libraries contribute and the source does not fix:
    the C library's rendering of [%Y], the message of a failed
    [min_length] constraint, and how the message of a [ValueError] raised
    by a validator is reported. *)

Record Platform : Type := mk_Platform
  { fmt_year : Z -> string;
    min_length_msg : string;
    value_error_msg : string -> string }.

(** A submission whose JSON gives every field as a string. *)
Record RawItem : Type := mk_RawItem
  { raw_shortDescription : string; raw_price : string }.

Record RawReceipt : Type := mk_RawReceipt
  { raw_retailer : string;
    raw_purchaseDate : string;
    raw_purchaseTime : string;
    raw_items : list RawItem;
    raw_total : string }.

(** The submission that gives the fields of a receipt as they are. *)
Definition raw_of_Item (item : Item) : RawItem :=
  mk_RawItem (shortDescription item) (price item).

Definition raw_of_Receipt (r : Receipt) : RawReceipt :=
  mk_RawReceipt (retailer r) (purchaseDate r) (purchaseTime r)
    (map raw_of_Item (items r)) (total r).

Inductive loc_part : Type :=
  | LStr (s : string)
  | LInt (i : Z).

Record error : Type := mk_error { loc : list loc_part; msg : string }.

Definition at_loc (p : loc_part) (e : error) : error :=
  mk_error (p :: loc e) (msg e).

Section Validation.
Variable pf : Platform.

(** One field: its validator runs and a [ValueError] becomes the field's
    message (the validators above raise nothing else). *)
Definition run_validator (f : string -> result string) (v : string)
  : string + string :=
  match f v with
  | Ok v' => inl v'
  | Raise (ValueError m) => inr (value_error_msg pf m)
  | Raise (OverflowError m) => inr m
  end.

(** [Field(..., min_length=n)]: the constraint is checked first, and the
    validator runs only on a value that meets it. *)
Definition constrained (min_length : Z) (f : string -> result string)
    (v : string) : string + string :=
  if PyStr.len v <? min_length then inr (min_length_msg pf)
  else run_validator f v.

Definition field_errors (name : string) (r : string + string) : list error :=
  match r with
  | inl _ => []
  | inr m => [mk_error [LStr name] m]
  end.

Definition validate_Item (raw : RawItem) : Item + list error :=
  let d := constrained 1 description_not_empty (raw_shortDescription raw) in
  let p := run_validator valid_price (raw_price raw) in
  match d, p with
  | inl d', inl p' => inl (mk_Item d' p')
  | _, _ => inr (field_errors "shortDescription" d ++ field_errors "price" p)%list
  end.

(** [List[Item]]: every element is validated; the errors of element [i]
    are located under index [i]. *)
Fixpoint validate_items (i : Z) (raws : list RawItem)
  : list Item * list error :=
  match raws with
  | [] => ([], [])
  | raw :: rest =>
      let '(vs, es) := validate_items (i + 1) rest in
      match validate_Item raw with
      | inl item => (item :: vs, es)
      | inr e => (vs, (map (at_loc (LInt i)) e ++ es)%list)
      end
  end.

Definition validate_Receipt (raw : RawReceipt) : Receipt + list error :=
  let r := constrained 1 retailer_not_empty (raw_retailer raw) in
  let d := run_validator (valid_date (fmt_year pf)) (raw_purchaseDate raw) in
  let t := run_validator valid_time (raw_purchaseTime raw) in
  let '(its, item_errors) := validate_items 0 (raw_items raw) in
  let tot := run_validator valid_total (raw_total raw) in
  match r, d, t, item_errors, tot with
  | inl r', inl d', inl t', [], inl tot' =>
      inl (mk_Receipt r' d' t' its tot')
  | _, _, _, _, _ =>
      inr (field_errors "retailer" r
           ++ field_errors "purchaseDate" d
           ++ field_errors "purchaseTime" t
           ++ map (at_loc (LStr "items")) item_errors
           ++ field_errors "total" tot)%list
  end.

(** The errors of a submission, field by field, as [validate_Receipt]
    reports them when there are any. *)
Definition errors_of (body : RawReceipt) : list error :=
  (field_errors "retailer"
     (constrained 1 retailer_not_empty (raw_retailer body))
   ++ field_errors "purchaseDate"
        (run_validator (valid_date (fmt_year pf)) (raw_purchaseDate body))
   ++ field_errors "purchaseTime"
        (run_validator valid_time (raw_purchaseTime body))
   ++ map (at_loc (LStr "items")) (snd (validate_items 0 (raw_items body)))
   ++ field_errors "total"
        (run_validator valid_total (raw_total body)))%list.

End Validation.

(** *** Validation of a decoded JSON body

    The framework decodes the body with [json.loads] and hands the fields
    of the JSON object to the model class.  A field may be missing, or hold
    a value of another type than the field's. *)

(** The values [json.loads] returns; a float is given by its [repr]. *)
#[warnings="-register-all"]
Inductive value : Type :=
  | VNone
  | VBool (b : bool)
  | VInt (n : Z)
  | VFloat (repr : string)
  | VStr (s : string)
  | VList (l : list value)
  | VDict (d : list (string * value)).

(** [d.get(key)] on the dict [json.loads] builds from the members of an
    object in their order: the last member of that name. *)
Fixpoint dict_get (key : string) (d : list (string * value)) : option value :=
  match d with
  | [] => None
  | (k, v) :: rest =>
      match dict_get key rest with
      | Some v' => Some v'
      | None => if String.eqb key k then Some v else None
      end
  end.

(** What the validation library contributes here and the source does not
    fix: the message for a missing field, and what the field types [str],
    [List] and a model class make of a value that is not a [str], a [list]
    or a [dict]: a coerced value, or the message of a type error. *)
Record Library : Type := mk_Library
  { missing_msg : string;
    as_str : value -> string + string;
    as_list : value -> list value + string;
    as_dict : value -> list (string * value) + string }.

Section JsonValidation.
Variable lib : Library.
Variable pf : Platform.

Definition read_str (v : value) : string + string :=
  match v with VStr s => inl s | _ => as_str lib v end.

Definition read_list (v : value) : list value + string :=
  match v with VList l => inl l | _ => as_list lib v end.

Definition read_dict (v : value) : list (string * value) + string :=
  match v with VDict d => inl d | _ => as_dict lib v end.

(** A required [str] field: the constraint and the validator [check] run
    on a value that is there and is a [str]. *)
Definition str_field (check : string -> string + string) (o : option value)
  : string + string :=
  match o with
  | None => inr (missing_msg lib)
  | Some v =>
      match read_str v with
      | inl s => check s
      | inr m => inr m
      end
  end.

(** [Item], on the members of an object. *)
Definition validate_Item_json (d : list (string * value))
  : Item + list error :=
  let dsc := str_field (constrained pf 1 description_not_empty)
               (dict_get "shortDescription" d) in
  let p := str_field (run_validator pf valid_price) (dict_get "price" d) in
  match dsc, p with
  | inl d', inl p' => inl (mk_Item d' p')
  | _, _ => inr (field_errors "shortDescription" dsc ++ field_errors "price" p)%list
  end.

(** One element of [items]: an error of the element itself has the empty
    location, to be put under the index. *)
Definition validate_element (v : value) : Item + list error :=
  match read_dict v with
  | inl d => validate_Item_json d
  | inr m => inr [mk_error [] m]
  end.

Fixpoint validate_elements (i : Z) (l : list value)
  : list Item * list error :=
  match l with
  | [] => ([], [])
  | v :: rest =>
      let '(vs, es) := validate_elements (i + 1) rest in
      match validate_element v with
      | inl item => (item :: vs, es)
      | inr e => (vs, (map (at_loc (LInt i)) e ++ es)%list)
      end
  end.

(** The field [items: List[Item]]. *)
Definition items_field (o : option value) : list Item * list error :=
  match o with
  | None => ([], [mk_error [LStr "items"] (missing_msg lib)])
  | Some v =>
      match read_list v with
      | inl l =>
          let '(its, es) := validate_elements 0 l in
          (its, map (at_loc (LStr "items")) es)
      | inr m => ([], [mk_error [LStr "items"] m])
      end
  end.

(** [Receipt], on the members of the body. *)
Definition validate_json (body : list (string * value))
  : Receipt + list error :=
  let r := str_field (constrained pf 1 retailer_not_empty)
             (dict_get "retailer" body) in
  let d := str_field (run_validator pf (valid_date (fmt_year pf)))
             (dict_get "purchaseDate" body) in
  let t := str_field (run_validator pf valid_time)
             (dict_get "purchaseTime" body) in
  let '(its, item_errors) := items_field (dict_get "items" body) in
  let tot := str_field (run_validator pf valid_total)
               (dict_get "total" body) in
  match r, d, t, item_errors, tot with
  | inl r', inl d', inl t', [], inl tot' =>
      inl (mk_Receipt r' d' t' its tot')
  | _, _, _, _, _ =>
      inr (field_errors "retailer" r
           ++ field_errors "purchaseDate" d
           ++ field_errors "purchaseTime" t
           ++ item_errors
           ++ field_errors "total" tot)%list
  end.

End JsonValidation.

(** The body that gives every field of a submission as a string. *)
Definition json_of_RawItem (raw : RawItem) : value :=
  VDict [("shortDescription", VStr (raw_shortDescription raw));
         ("price", VStr (raw_price raw))].

Definition json_of_RawReceipt (raw : RawReceipt) : list (string * value) :=
  [("retailer", VStr (raw_retailer raw));
   ("purchaseDate", VStr (raw_purchaseDate raw));
   ("purchaseTime", VStr (raw_purchaseTime raw));
   ("items", VList (map json_of_RawItem (raw_items raw)));
   ("total", VStr (raw_total raw))].

(** A raw item and the item validation makes of it. *)
Definition item_ok (raw : RawItem) (item : Item) : Prop :=
  1 <= PyStr.len (raw_shortDescription raw)
  /\ description_not_empty (raw_shortDescription raw) = Ok (shortDescription item)
  /\ valid_price (raw_price raw) = Ok (price item).

End Models.

(** ** [app/main.py] *)

Module Main.
Import Models.

(** JSON values of the response bodies. *)
#[warnings="-register-all"]
Inductive json : Type :=
  | JStr (s : string)
  | JInt (n : Z)
  | JList (l : list json)
  | JObj (fields : list (string * json)).

Record Response : Type := JSONResponse
  { status_code : Z; content : json }.

(** *** [calculate_points] *)

(** The body of the loop over [receipt.items]. *)
Definition item_step (points : Z) (item : Item) : result Z :=
  let trimmed_length := PyStr.len (PyStr.strip (shortDescription item)) in
  if trimmed_length mod 3 =? 0
  then
    p ← Float64.of_str (price item);
    c ← Float64.ceil (Float64.mul p Float64.lit_0_2);
    Ok (points + c)
  else Ok points.

Fixpoint for_items (its : list Item) (points : Z) : result Z :=
  match its with
  | [] => Ok points
  | item :: rest => points' ← item_step points item; for_items rest points'
  end.

Definition calculate_points (receipt : Receipt) : result Z :=
  let points := 0 in
  let points := points + PyStr.sum_isalnum (retailer receipt) in
  total_float ← Float64.of_str (total receipt);
  let points :=
    if Float64.is_integer total_float then points + 50 else points in
  let points :=
    if Float64.eq_zero (Float64.fmod total_float Float64.lit_0_25)
    then points + 25 else points in
  let points := points + (Z.of_nat (length (items receipt)) / 2) * 5 in
  points ← for_items (items receipt) points;
  purchase_date ← Datetime.strptime (purchaseDate receipt) "%Y-%m-%d";
  let points :=
    if negb (Datetime.day purchase_date mod 2 =? 0) then points + 6
    else points in
  purchase_dt ← Datetime.strptime (purchaseTime receipt) "%H:%M";
  let purchase_time := Datetime.time_of purchase_dt in
  let start_time := Datetime.mk_time 14 0 in
  let end_time := Datetime.mk_time 16 0 in
  let points :=
    if Datetime.time_lt start_time purchase_time
       && Datetime.time_lt purchase_time end_time
    then points + 10 else points in
  Ok points.

(** *** The store and the two endpoints *)

(** [process_receipt]; [uuid] is the text of the identifier [uuid4()]
    draws.  The right-hand side of the assignment is evaluated first, so
    when [calculate_points] raises nothing is stored. *)
Definition process_receipt (uuid : string) (receipt : Receipt)
    (receipts : gmap string Z) : result (Response * gmap string Z) :=
  let receipt_id := PyStr.strip uuid in
  points ← calculate_points receipt;
  Ok (JSONResponse 200 (JObj [("id", JStr receipt_id)]),
      <[receipt_id := points]> receipts).

(** [get_points] reads the store and never writes it. *)
Definition get_points (receipt_id : string) (receipts : gmap string Z)
  : Response :=
  match receipts !! receipt_id with
  | None =>
      JSONResponse 404 (JObj [("error", JStr "No receipt found for that ID.")])
  | Some points => JSONResponse 200 (JObj [("points", JInt points)])
  end.

(** [str(x)] for a component of an error location. *)
Definition str_of_loc_part (p : loc_part) : string :=
  match p with
  | LStr s => s
  | LInt i => PyStr.str_of_int i
  end.

(** One entry of [error_messages]. *)
Definition error_message (e : error) : string :=
  PyStr.join "." (map str_of_loc_part (tail (loc e))) +:+ ": " +:+ msg e.

(** [validation_exception_handler], on [exc.errors()]. *)
Definition validation_exception_handler (errors : list error) : Response :=
  let error_messages := map error_message errors in
  JSONResponse 400 (JObj [("error", JList (map JStr error_messages))]).

(** The framework locates the errors of the request body under ["body"]. *)
Definition located (e : error) : error := at_loc (LStr "body") e.

(** [POST /receipts/process] as the framework serves it: the body is
    validated as a [Receipt]; its errors, located under ["body"], go to the
    exception handler, and a valid receipt goes to [process_receipt]. *)
Definition post_receipts_process (pf : Platform) (uuid : string)
    (body : RawReceipt) (receipts : gmap string Z)
  : result (Response * gmap string Z) :=
  match validate_Receipt pf body with
  | inr errors =>
      Ok (validation_exception_handler (map (at_loc (LStr "body")) errors),
          receipts)
  | inl receipt => process_receipt uuid receipt receipts
  end.

(** The same on the decoded JSON object of the body, where a field may
    be missing or of another type. *)
Definition post_receipts_process_json (lib : Library) (pf : Platform)
    (uuid : string) (body : list (string * value)) (receipts : gmap string Z)
  : result (Response * gmap string Z) :=
  match validate_json lib pf body with
  | inr errors =>
      Ok (validation_exception_handler (map (at_loc (LStr "body")) errors),
          receipts)
  | inl receipt => process_receipt uuid receipt receipts
  end.

(** [GET /receipts/{receipt_id}/points] *)
Definition get_receipts_points (receipt_id : string)
    (receipts : gmap string Z) : Response * gmap string Z :=
  (get_points receipt_id receipts, receipts).

(** Requests served one after another.  A request whose handler raises is
    answered by the server with status 500 and leaves the store as it
    was. *)
Inductive request : Type :=
  | Submit (uuid : string) (body : RawReceipt)
  | Retrieve (receipt_id : string).

Definition internal_server_error : Response :=
  JSONResponse 500 (JStr "Internal Server Error").

Definition serve (pf : Platform) (req : request) (receipts : gmap string Z)
  : Response * gmap string Z :=
  match req with
  | Submit uuid body =>
      match post_receipts_process pf uuid body receipts with
      | Ok out => out
      | Raise _ => (internal_server_error, receipts)
      end
  | Retrieve receipt_id => get_receipts_points receipt_id receipts
  end.

Fixpoint serve_all (pf : Platform) (reqs : list request)
    (receipts : gmap string Z) : list Response * gmap string Z :=
  match reqs with
  | [] => ([], receipts)
  | req :: rest =>
      let '(resp, receipts') := serve pf req receipts in
      let '(resps, receipts'') := serve_all pf rest receipts' in
      (resp :: resps, receipts'')
  end.

(** The identifier a response to a submission carries, if any. *)
Definition issued_id (resp : Response) : option string :=
  match resp with
  | JSONResponse 200 (JObj [(key, JStr receipt_id)]) =>
      if String.eqb key "id" then Some receipt_id else None
  | _ => None
  end.

(** The identifiers returned by the successful submissions of a run. *)
Definition issued (resps : list Response) : list string :=
  omap issued_id resps.

End Main.

(** ** A reference platform and the examples of the specification *)

Module Examples.
Import Models Main.

(** Zero-filled years and validator messages reported as raised. *)
Definition documented : Platform :=
  mk_Platform Datetime.pad4 "ensure this value has at least 1 characters"
    (fun m => m).

(** [str(n)] for an [int]. *)
Definition str_of_Z (n : Z) : string :=
  if n <? 0 then "-" +:+ PyStr.str_of_int (- n) else PyStr.str_of_int n.

(** The field types as pydantic 1 reads the values of a JSON body: where
    a [str] is expected a number or a boolean is coerced to its text;
    [None], and a value of any other type, is refused.  Where a model is
    expected pydantic 1 tries [dict(value)]: the empty string and the empty
    array give an object without members, every other string and every
    scalar is refused; a non-empty array is refused in this example, which
    leaves out that [dict] reads an array of pairs. *)
Definition documented_types : Library :=
  mk_Library "field required"
    (fun v =>
       match v with
       | VNone => inr "none is not an allowed value"
       | VBool b => inl (if b then "True" else "False")
       | VInt n => inl (str_of_Z n)
       | VFloat repr => inl repr
       | VStr s => inl s
       | VList _ | VDict _ => inr "str type expected"
       end)
    (fun v =>
       match v with
       | VNone => inr "none is not an allowed value"
       | VList l => inl l
       | _ => inr "value is not a valid list"
       end)
    (fun v =>
       match v with
       | VNone => inr "none is not an allowed value"
       | VDict d => inl d
       | VStr EmptyString | VList [] => inl []
       | _ => inr "value is not a valid dict"
       end).

(** A body with a field that is [null], a missing field, a number where a
    text is expected, an element of [items] that is no object and fields
    that break the rules. *)
Definition broken_body : list (string * value) :=
  [ ("retailer", VNone);
    ("purchaseTime", VStr "25:00");
    ("items",
     VList [ VDict [("shortDescription", VStr "  "); ("price", VStr "1.5")];
             VStr "oops";
             VDict [("shortDescription", VList [VStr "x"])] ]);
    ("total", VInt 9) ].

Definition target_body : RawReceipt :=
  mk_RawReceipt "Target" "2022-01-01" "13:01"
    [ mk_RawItem "Mountain Dew 12PK" "6.49";
      mk_RawItem "Emils Cheese Pizza" "12.25";
      mk_RawItem "Knorr Creamy Chicken" "1.26";
      mk_RawItem "Doritos Nacho Cheese" "3.35";
      mk_RawItem "   Klarbrunn 12-PK 12 FL OZ  " "12.00" ]
    "35.35".

Definition target : Receipt :=
  mk_Receipt "Target" "2022-01-01" "13:01"
    [ mk_Item "Mountain Dew 12PK" "6.49";
      mk_Item "Emils Cheese Pizza" "12.25";
      mk_Item "Knorr Creamy Chicken" "1.26";
      mk_Item "Doritos Nacho Cheese" "3.35";
      mk_Item "   Klarbrunn 12-PK 12 FL OZ  " "12.00" ]
    "35.35".

Definition corner_market : Receipt :=
  mk_Receipt "M&M Corner Market" "2022-03-20" "14:33"
    [ mk_Item "Gatorade" "2.25"; mk_Item "Gatorade" "2.25";
      mk_Item "Gatorade" "2.25"; mk_Item "Gatorade" "2.25" ]
    "9.00".

(** A platform whose C library writes a year below 1000 without filling. *)
Definition unfilled_year : Platform :=
  mk_Platform PyStr.str_of_int "ensure this value has at least 1 characters"
    (fun m => m).

Definition zeros (n : nat) : string := string_of_list_ascii (repeat "0"%char n).

(** The amount of [10^309] dollars and no cents: 310 digits, a point and
    two zeros. *)
Definition huge_amount : string := "1" +:+ zeros 309 +:+ ".00".

(** An item of [10^15] dollars and one cent. *)
Definition drift_body : RawReceipt :=
  mk_RawReceipt "Shop" "2022-01-02" "13:01"
    [ mk_RawItem "abc" "1000000000000000.01" ] "1.01".

Definition drift_receipt : Receipt :=
  mk_Receipt "Shop" "2022-01-02" "13:01"
    [ mk_Item "abc" "1000000000000000.01" ] "1.01".

(** A round-dollar total beyond the range of binary64. *)
Definition huge_total_body : RawReceipt :=
  mk_RawReceipt "Shop" "2022-01-02" "13:01" [ mk_RawItem "ab" "1.00" ]
    huge_amount.

Definition huge_total_receipt : Receipt :=
  mk_Receipt "Shop" "2022-01-02" "13:01" [ mk_Item "ab" "1.00" ] huge_amount.

(** A price beyond the range of binary64 on an item that rule 5 scores. *)
Definition huge_price_body : RawReceipt :=
  mk_RawReceipt "Shop" "2022-01-02" "13:01" [ mk_RawItem "abc" huge_amount ]
    "1.01".

Definition huge_price_receipt : Receipt :=
  mk_Receipt "Shop" "2022-01-02" "13:01" [ mk_Item "abc" huge_amount ] "1.01".

(** A purchase in the year 999. *)
Definition year_999_body : RawReceipt :=
  mk_RawReceipt "Shop" "0999-01-02" "13:01" [ mk_RawItem "ab" "1.00" ] "1.01".

End Examples.

(** ** The seven scoring rules, one by one

    [calculate_points] accumulates into one variable; the rules below are
    the amounts its blocks add, and [calculate_points_rules] shows that the
    result is their sum. *)

Module Rules.
Import Models Main.

Definition retailer_points (r : Receipt) : Z :=
  PyStr.sum_isalnum (retailer r).

Definition round_dollar_points (total_float : Float64.float) : Z :=
  if Float64.is_integer total_float then 50 else 0.

Definition quarter_points (total_float : Float64.float) : Z :=
  if Float64.eq_zero (Float64.fmod total_float Float64.lit_0_25)
  then 25 else 0.

Definition pair_points (its : list Item) : Z :=
  (Z.of_nat (length its) / 2) * 5.

(** What the loop body adds for one item. *)
Definition description_points (item : Item) : result Z := item_step 0 item.

Definition descriptions_points (its : list Item) : result Z :=
  for_items its 0.

Definition odd_day_points (d : Datetime.datetime) : Z :=
  if negb (Datetime.day d mod 2 =? 0) then 6 else 0.

Definition afternoon_points (t : Datetime.time) : Z :=
  if Datetime.time_lt (Datetime.mk_time 14 0) t
     && Datetime.time_lt t (Datetime.mk_time 16 0)
  then 10 else 0.

(** The afternoon rule on the text of a purchase time. *)
Definition afternoon_of (purchase_time : string) : result Z :=
  t ← Datetime.strptime purchase_time "%H:%M";
  Ok (afternoon_points (Datetime.time_of t)).

Definition rules_sum (r : Receipt) : result Z :=
  total_float ← Float64.of_str (total r);
  dp ← descriptions_points (items r);
  d ← Datetime.strptime (purchaseDate r) "%Y-%m-%d";
  t ← Datetime.strptime (purchaseTime r) "%H:%M";
  Ok (retailer_points r + round_dollar_points total_float
      + quarter_points total_float + pair_points (items r) + dp
      + odd_day_points d + afternoon_points (Datetime.time_of t)).

End Rules.

(** ** The specification's own formulations *)

Module Spec.
Import Models.

(** [ceil (a / b)] on integers, for [0 < b]. *)
Definition ceil_div (a b : Z) : Z := - ((- a) / b).

(** The text of a price without its decimal point. *)
Fixpoint without_point (s : string) : string :=
  match s with
  | EmptyString => EmptyString
  | String c s' =>
      if Ascii.eqb c "." then without_point s' else String c (without_point s')
  end.

(** The exact integer number of cents of a price [dollars.cc]. *)
Definition price_cents (price : string) : Z :=
  PyStr.int_of_digits (without_point price).

(** Rule 5 on cents: [ceil (price_cents / 500)]. *)
Definition exact_description_points (price : string) : Z :=
  ceil_div (price_cents price) 500.

(** Rule 5 over the items: the items whose trimmed description has a
    length that is a positive multiple of 3 earn the points of their
    price, the others nothing. *)
Definition exact_item_points (item : Item) : Z :=
  let n := PyStr.len (PyStr.strip (shortDescription item)) in
  if (0 <? n) && (n mod 3 =? 0) then exact_description_points (price item)
  else 0.

Fixpoint exact_descriptions_points (its : list Item) : Z :=
  match its with
  | [] => 0
  | item :: rest => exact_item_points item + exact_descriptions_points rest
  end.

(** A non-empty integer part, a decimal point and exactly two digits. *)
Definition two_decimals (s : string) : bool :=
  match Float64.split_point s with
  | Some (i, f) =>
      Float64.all_decimal i && negb (PyStr.is_empty i)
      && Float64.all_decimal f && (String.length f =? 2)%nat
  | None => false
  end.

(** The same, as a shape of the text. *)
Definition money_shape (s : string) : Prop :=
  exists i a b,
    s = i +:+ String "." (String a (String b EmptyString))
    /\ i <> EmptyString /\ Float64.all_decimal i = true
    /\ PyStr.isdecimal a = true /\ PyStr.isdecimal b = true.

(** The decimal numeral of a natural number. *)
Definition decimal (n : nat) : string :=
  NilEmpty.string_of_uint (Nat.to_uint n).

(** The digit [r] in front of a little-endian numeral. *)
Definition lu_cons (r : nat) (d : Decimal.uint) : Decimal.uint :=
  match r with
  | 0 => Decimal.D0 d | 1 => Decimal.D1 d | 2 => Decimal.D2 d
  | 3 => Decimal.D3 d | 4 => Decimal.D4 d | 5 => Decimal.D5 d
  | 6 => Decimal.D6 d | 7 => Decimal.D7 d | 8 => Decimal.D8 d
  | _ => Decimal.D9 d
  end%nat.

(** A numeral filled with zeros on the left to [width] characters. *)
Definition zero_fill (width : nat) (s : string) : string :=
  string_of_list_ascii (repeat "0"%char (width - String.length s)) +:+ s.

(** The form [YYYY-MM-DD] of a date. *)
Definition iso_date (d : Datetime.datetime) : string :=
  zero_fill 4 (decimal (Z.to_nat (Datetime.year d))) +:+ "-"
  +:+ zero_fill 2 (decimal (Z.to_nat (Datetime.month d))) +:+ "-"
  +:+ zero_fill 2 (decimal (Z.to_nat (Datetime.day d))).

(** The rules of the validation layer on the text of a field: the message
    of the violation, if the text violates the rule. *)

(** Empty or entirely white space; [m] is the message of the validator,
    the empty text has the message of the length constraint. *)
Definition blank_rule (pf : Platform) (m : string) (s : string)
  : option string :=
  if PyStr.all_space s
  then Some (if PyStr.is_empty s then min_length_msg pf
             else value_error_msg pf m)
  else None.

(** Not an integer part, a point and exactly two digits. *)
Definition money_rule (pf : Platform) (m : string) (s : string)
  : option string :=
  if two_decimals s then None else Some (value_error_msg pf m).

(** Parses neither under [YYYY-MM-DD] nor under [YYYY/MM/DD]. *)
Definition date_rule (pf : Platform) (s : string) : option string :=
  if returns (Datetime.strptime s "%Y-%m-%d")
     || returns (Datetime.strptime s "%Y/%m/%d")
  then None
  else Some (value_error_msg pf
    "purchaseDate must be a valid date in YYYY-MM-DD or YYYY/MM/DD format").

(** Does not parse as [HH:MM]. *)
Definition time_rule (pf : Platform) (s : string) : option string :=
  if returns (Datetime.strptime s "%H:%M") then None
  else Some (value_error_msg pf
    "purchaseTime must be a valid time in HH:MM format").

(** A check of the code and a rule of the validation layer decide alike:
    the check fails with the message of the rule, or passes. *)
Definition agrees (check : string -> string + string)
    (rule : string -> option string) : Prop :=
  forall s,
    match rule s with
    | Some m => check s = inr m
    | None => exists x, check s = inl x
    end.

(** The violations of a text field at [path]: the field is missing, is of
    a wrong type, or its text violates the rule of the field. *)
Definition text_violations (lib : Library) (path : string)
    (rule : string -> option string) (o : option value)
  : list (string * string) :=
  match o with
  | None => [(path, missing_msg lib)]
  | Some v =>
      match read_str lib v with
      | inr m => [(path, m)]
      | inl s =>
          match rule s with
          | Some m => [(path, m)]
          | None => []
          end
      end
  end.

(** The violations of element [i] of [items]: it is no object, or its
    fields have violations. *)
Definition element_violations (lib : Library) (pf : Platform) (i : nat)
    (v : value) : list (string * string) :=
  let path := "items." +:+ decimal i in
  match read_dict lib v with
  | inr m => [(path, m)]
  | inl d =>
      (text_violations lib (path +:+ ".shortDescription")
         (blank_rule pf "shortDescription cannot be empty or whitespace")
         (dict_get "shortDescription" d)
       ++ text_violations lib (path +:+ ".price")
            (money_rule pf "Price must be in XX.XX format")
            (dict_get "price" d))%list
  end.

Fixpoint elements_violations (lib : Library) (pf : Platform) (i : nat)
    (l : list value) : list (string * string) :=
  match l with
  | [] => []
  | v :: rest =>
      (element_violations lib pf i v
       ++ elements_violations lib pf (S i) rest)%list
  end.

Definition items_violations (lib : Library) (pf : Platform)
    (o : option value) : list (string * string) :=
  match o with
  | None => [("items", missing_msg lib)]
  | Some v =>
      match read_list lib v with
      | inr m => [("items", m)]
      | inl l => elements_violations lib pf 0 l
      end
  end.

(** The field-level violations of a submission, each as its dotted path
    and its message, in the order of the fields. *)
Definition violations (lib : Library) (pf : Platform)
    (body : list (string * value)) : list (string * string) :=
  (text_violations lib "retailer"
     (blank_rule pf "Retailer cannot be empty or whitespace")
     (dict_get "retailer" body)
   ++ text_violations lib "purchaseDate" (date_rule pf)
        (dict_get "purchaseDate" body)
   ++ text_violations lib "purchaseTime" (time_rule pf)
        (dict_get "purchaseTime" body)
   ++ items_violations lib pf (dict_get "items" body)
   ++ text_violations lib "total"
        (money_rule pf "Total must be in XX.XX format")
        (dict_get "total" body))%list.

(** One entry of the error list: the path joined with the message. *)
Definition entry (v : string * string) : string :=
  fst v +:+ ": " +:+ snd v.

(** Minutes since midnight. *)
Definition minute_of_day (t : Datetime.time) : Z :=
  60 * Datetime.t_hour t + Datetime.t_minute t.

(** A receipt without the white space around its retailer name and
    around the descriptions of its items. *)
Definition trimmed_Item (item : Item) : Item :=
  mk_Item (PyStr.strip (shortDescription item)) (price item).

Definition trimmed (r : Receipt) : Receipt :=
  mk_Receipt (PyStr.strip (retailer r)) (purchaseDate r) (purchaseTime r)
    (map trimmed_Item (items r)) (total r).

(** Rules 2 and 3 on the cents of the total. *)
Definition exact_round_dollar_points (total : string) : Z :=
  if price_cents total mod 100 =? 0 then 50 else 0.

Definition exact_quarter_points (total : string) : Z :=
  if price_cents total mod 25 =? 0 then 25 else 0.

(** The seven rules in integer arithmetic, for a receipt bought on the
    date [d] at the time [t]. *)
Definition exact_score (r : Receipt) (d : Datetime.datetime)
    (t : Datetime.time) : Z :=
  PyStr.sum_isalnum (retailer r)
  + exact_round_dollar_points (total r)
  + exact_quarter_points (total r)
  + 5 * (Z.of_nat (length (items r)) / 2)
  + exact_descriptions_points (items r)
  + (if Z.odd (Datetime.day d) then 6 else 0)
  + (if (14 * 60 <? minute_of_day t) && (minute_of_day t <? 16 * 60)
     then 10 else 0).

End Spec.

(** * Properties *)

Ltac unfold_bind := unfold mbind, result_bind in *.

Section ResultMonad.
Context {A B : Type}.

Lemma bind_Ok (m : result A) (f : A -> result B) (b : B) :
  (m ≫= f) = Ok b <-> exists a, m = Ok a /\ f a = Ok b.
Proof.
  unfold_bind. destruct m as [a|e]; split.
  - intros H. exists a. auto.
  - intros (a' & Ha & Hf). congruence.
  - discriminate.
  - intros (a' & Ha & _). discriminate.
Qed.

Lemma bind_Raise (m : result A) (f : A -> result B) (e : exn) :
  (m ≫= f) = Raise e <->
  m = Raise e \/ exists a, m = Ok a /\ f a = Raise e.
Proof.
  unfold_bind. destruct m as [a|e']; split.
  - intros H. right. exists a. auto.
  - intros [H|(a' & Ha & Hf)]; congruence.
  - intros H. left. congruence.
  - intros [H|(a' & Ha & _)]; congruence.
Qed.
End ResultMonad.

Module RulesFacts.
Import Models Main Rules.

Lemma item_step_acc (item : Item) (points : Z) :
  item_step points item = (description_points item ≫= fun c => Ok (points + c)).
Proof.
  unfold description_points, item_step.
  destruct (_ =? 0); unfold_bind.
  - destruct (Float64.of_str (price item)) as [p|e]; [|reflexivity].
    destruct (Float64.ceil _) as [c|e]; [|reflexivity].
    f_equal.
  - f_equal. lia.
Qed.

Lemma for_items_acc (its : list Item) (points : Z) :
  for_items its points = (descriptions_points its ≫= fun s => Ok (points + s)).
Proof.
  unfold descriptions_points. revert points.
  induction its as [|item rest IH]; intros points; simpl.
  - unfold_bind. f_equal. lia.
  - rewrite (item_step_acc item points), (item_step_acc item 0).
    destruct (description_points item) as [c|e]; unfold_bind; [|reflexivity].
    rewrite (IH (points + c)), (IH (0 + c)).
    destruct (for_items rest 0) as [s|e]; [|reflexivity].
    f_equal. lia.
Qed.

(** The score is the sum of the seven rules. *)
Lemma calculate_points_rules (r : Receipt) :
  calculate_points r = rules_sum r.
Proof.
  unfold calculate_points, rules_sum.
  destruct (Float64.of_str (total r)) as [x|e]; unfold_bind; [|reflexivity].
  rewrite for_items_acc.
  destruct (descriptions_points (items r)) as [dp|e]; unfold_bind;
    [|reflexivity].
  destruct (Datetime.strptime (purchaseDate r) _) as [d|e]; [|reflexivity].
  destruct (Datetime.strptime (purchaseTime r) _) as [t|e]; [|reflexivity].
  unfold retailer_points, round_dollar_points, quarter_points, pair_points,
    odd_day_points, afternoon_points.
  f_equal.
  repeat match goal with |- context [if ?b then _ else _] => destruct b end;
    lia.
Qed.

End RulesFacts.

(** ** The store and the retrieve endpoint *)

Module StoreFacts.
Import Models Main.

Lemma issued_id_get_points (receipt_id : string) (receipts : gmap string Z) :
  issued_id (get_points receipt_id receipts) = None.
Proof. unfold get_points. destruct (receipts !! receipt_id); reflexivity. Qed.

Lemma issued_id_handler (errors : list error) :
  issued_id (validation_exception_handler errors) = None.
Proof. reflexivity. Qed.

(** What one request does to the store. *)
Lemma serve_cases (pf : Platform) (req : request) (receipts : gmap string Z)
    (resp : Response) (receipts' : gmap string Z) :
  serve pf req receipts = (resp, receipts') ->
  (issued_id resp = None /\ receipts' = receipts)
  \/ (exists uuid body receipt points,
        req = Submit uuid body
        /\ validate_Receipt pf body = inl receipt
        /\ calculate_points receipt = Ok points
        /\ resp = JSONResponse 200 (JObj [("id", JStr (PyStr.strip uuid))])
        /\ issued_id resp = Some (PyStr.strip uuid)
        /\ receipts' = <[PyStr.strip uuid := points]> receipts).
Proof.
  destruct req as [uuid body|receipt_id]; simpl.
  - unfold post_receipts_process, process_receipt.
    destruct (validate_Receipt pf body) as [receipt|errors] eqn:Hv.
    + destruct (calculate_points receipt) as [points|e] eqn:Hp; unfold_bind.
      * intros [= <- <-]. right. exists uuid, body, receipt, points.
        repeat split; auto.
      * intros [= <- <-]. left. split; reflexivity.
    + intros [= <- <-]. left. split; reflexivity.
  - unfold get_receipts_points. intros [= <- <-]. left.
    split; [apply issued_id_get_points | reflexivity].
Qed.

(** The store holds exactly the identifiers it started with and the ones
    issued since, and every score written since is the score of a
    submitted receipt. *)
Lemma serve_all_store (pf : Platform) (reqs : list request) :
  forall (receipts : gmap string Z) (resps : list Response)
         (receipts' : gmap string Z),
  serve_all pf reqs receipts = (resps, receipts') ->
  forall receipt_id : string,
    (is_Some (receipts' !! receipt_id) <->
     is_Some (receipts !! receipt_id) \/ receipt_id ∈ issued resps)
    /\ (forall points, receipts' !! receipt_id = Some points ->
          receipts !! receipt_id = Some points
          \/ exists uuid body receipt,
               In (Submit uuid body) reqs
               /\ PyStr.strip uuid = receipt_id
               /\ validate_Receipt pf body = inl receipt
               /\ calculate_points receipt = Ok points).
Proof.
  induction reqs as [|req rest IH]; intros receipts resps receipts'; simpl.
  - intros [= <- <-] receipt_id. split.
    + split; [auto|]. intros [H|H]; [exact H|]. inversion H.
    + auto.
  - destruct (serve pf req receipts) as [resp mid] eqn:Hs.
    destruct (serve_all pf rest mid) as [resps0 fin] eqn:Hr.
    intros [= <- <-] receipt_id.
    destruct (IH _ _ _ Hr receipt_id) as [IHdom IHval].
    unfold issued in *. simpl.
    destruct (serve_cases _ _ _ _ _ Hs)
      as [[Hnone ->]|(uuid & body & receipt & points & -> & Hv & Hp & -> & Hid & ->)].
    + rewrite Hnone. split; [exact IHdom|].
      intros points Hl. destruct (IHval _ Hl) as [H|(u & b & r & Hin & H)];
        [left; exact H|right; exists u, b, r; split; [right; exact Hin|exact H]].
    + rewrite Hid. split.
      * rewrite IHdom, lookup_insert_is_Some, elem_of_cons.
        destruct (decide (PyStr.strip uuid = receipt_id)) as [->|Hne];
          [|split; intros H; destruct_or?; destruct_and?; auto; congruence].
        split; intros _; [right; left; reflexivity|left; left; reflexivity].
      * intros pts Hl. destruct (IHval _ Hl) as [H|(u & b & r & Hin & H)].
        -- destruct (decide (PyStr.strip uuid = receipt_id)) as [<-|Hne].
           ++ rewrite lookup_insert_eq in H. injection H as <-.
              right. exists uuid, body, receipt. auto.
           ++ rewrite lookup_insert_ne in H by exact Hne. left. exact H.
        -- right. exists u, b, r. split; [right; exact Hin|exact H].
Qed.

(** C9. After any sequence of requests on an initially empty store, an
    identifier that no successful submission returned is answered with
    status 404 and the fixed body, and an identifier that was issued is
    answered with status 200 and the stored score, which is the score
    [calculate_points] gave to a receipt submitted under it. *)
Theorem C9_retrieve_by_id (pf : Platform) (reqs : list request)
    (resps : list Response) (receipts : gmap string Z)
    (receipt_id : string) :
  serve_all pf reqs ∅ = (resps, receipts) ->
  (receipt_id ∉ issued resps ->
     get_points receipt_id receipts
     = JSONResponse 404 (JObj [("error", JStr "No receipt found for that ID.")]))
  /\ (receipt_id ∈ issued resps ->
        exists points,
          receipts !! receipt_id = Some points
          /\ get_points receipt_id receipts
             = JSONResponse 200 (JObj [("points", JInt points)])
          /\ exists uuid body receipt,
               In (Submit uuid body) reqs
               /\ PyStr.strip uuid = receipt_id
               /\ validate_Receipt pf body = inl receipt
               /\ calculate_points receipt = Ok points).
Proof.
  intros Hrun.
  destruct (serve_all_store pf reqs _ _ _ Hrun receipt_id) as [Hdom Hval].
  split.
  - intros Hnot. unfold get_points.
    destruct (receipts !! receipt_id) as [points|] eqn:Hl; [|reflexivity].
    exfalso. apply Hnot.
    destruct (proj1 Hdom (ex_intro _ points eq_refl)) as [[x Hx]|H]; [|exact H].
    rewrite lookup_empty in Hx. discriminate.
  - intros Hin.
    destruct (proj2 Hdom (or_intror Hin)) as [points Hl].
    exists points. split; [exact Hl|]. split.
    + unfold get_points. rewrite Hl. reflexivity.
    + destruct (Hval _ Hl) as [H|H]; [|exact H].
      rewrite lookup_empty in H. discriminate.
Qed.


End StoreFacts.

Module StoreWitnesses.
Import Models Main Examples StoreFacts.

Lemma C9_retrieve_by_id_witness :
  serve_all documented [Submit "u1" target_body] ∅
  = ([JSONResponse 200 (JObj [("id", JStr "u1")])], <["u1" := 28]> ∅)
  /\ get_points "u2" (<["u1" := 28]> ∅)
     = JSONResponse 404 (JObj [("error", JStr "No receipt found for that ID.")])
  /\ get_points "u1" (<["u1" := 28]> ∅)
     = JSONResponse 200 (JObj [("points", JInt 28)]).
Proof.
  assert (Hrun : serve_all documented [Submit "u1" target_body] ∅
                 = ([JSONResponse 200 (JObj [("id", JStr "u1")])],
                    <["u1" := 28]> ∅)) by (vm_compute; reflexivity).
  split; [exact Hrun|]. split.
  - apply (proj1 (C9_retrieve_by_id documented _ _ _ "u2" Hrun)).
    vm_compute. intros H. inversion H as [|? ? ? H']; inversion H'.
  - destruct (proj2 (C9_retrieve_by_id documented _ _ _ "u1" Hrun))
      as (points & Hl & Hget & _); [vm_compute; left|].
    rewrite Hget. vm_compute in Hl. injection Hl as <-. reflexivity.
Defined.



End StoreWitnesses.

(** ** The scoring rules *)

Module ScoringFacts.
Import Models Main Rules RulesFacts Examples.

(** C3. The receipt of the first end-to-end example is what validation
    makes of its submission, and it scores 28 points. *)
Theorem C3_target_scores_28 :
  validate_Receipt documented target_body = inl target
  /\ calculate_points target = Ok 28.
Proof. split; vm_compute; reflexivity. Qed.

Lemma calculate_points_Ok (r : Receipt) (p : Z) :
  calculate_points r = Ok p ->
  exists x dp d t,
    Float64.of_str (total r) = Ok x
    /\ descriptions_points (items r) = Ok dp
    /\ Datetime.strptime (purchaseDate r) "%Y-%m-%d" = Ok d
    /\ Datetime.strptime (purchaseTime r) "%H:%M" = Ok t
    /\ p = retailer_points r + round_dollar_points x + quarter_points x
           + pair_points (items r) + dp + odd_day_points d
           + afternoon_points (Datetime.time_of t).
Proof.
  rewrite calculate_points_rules. unfold rules_sum. intros H.
  apply bind_Ok in H as (x & Hx & H).
  apply bind_Ok in H as (dp & Hdp & H).
  apply bind_Ok in H as (d & Hd & H).
  apply bind_Ok in H as (t & Ht & H).
  injection H as <-. exists x, dp, d, t. auto.
Qed.

(** C7. In every score the engine returns, the item-pair rule
    contributes [5 * floor (n / 2)] for the [n] items of the receipt, an
    amount that any other list of [n] items would contribute too. *)
Theorem C7_item_pairs (r : Receipt) (p : Z) :
  calculate_points r = Ok p ->
  let n := Z.of_nat (length (items r)) in
  pair_points (items r) = 5 * (n / 2)
  /\ (forall its' : list Item,
        length its' = length (items r) ->
        pair_points its' = pair_points (items r))
  /\ exists x dp d t,
       Float64.of_str (total r) = Ok x
       /\ descriptions_points (items r) = Ok dp
       /\ Datetime.strptime (purchaseDate r) "%Y-%m-%d" = Ok d
       /\ Datetime.strptime (purchaseTime r) "%H:%M" = Ok t
       /\ p = retailer_points r + round_dollar_points x + quarter_points x
              + 5 * (n / 2) + dp + odd_day_points d
              + afternoon_points (Datetime.time_of t).
Proof.
  intros H n. split; [unfold pair_points; fold n; lia|]. split.
  - intros its' Hlen. unfold pair_points. rewrite Hlen. reflexivity.
  - destruct (calculate_points_Ok r p H) as (x & dp & d & t & Hx & Hdp & Hd & Ht & ->).
    exists x, dp, d, t. repeat split; try assumption.
    unfold pair_points. fold n. lia.
Qed.

Lemma C7_item_pairs_witness :
  calculate_points target = Ok 28
  /\ pair_points (items target) = 5 * (5 / 2).
Proof.
  assert (H : calculate_points target = Ok 28) by (vm_compute; reflexivity).
  split; [exact H|]. exact (proj1 (C7_item_pairs target 28 H)).
Defined.

End ScoringFacts.

(** ** Characters and digits *)

Module PyStrFacts.
Import PyStr.

Lemma between_spec (lo hi x : Z) :
  between lo hi x = true <-> lo <= x <= hi.
Proof. unfold between. rewrite andb_true_iff, !Z.leb_le. tauto. Qed.

Lemma isdecimal_spec (c : ascii) : isdecimal c = true <-> 48 <= ord c <= 57.
Proof. apply between_spec. Qed.

Lemma isspace_spec (c : ascii) :
  isspace c = true <->
  9 <= ord c <= 13 \/ 28 <= ord c <= 32 \/ ord c = 133 \/ ord c = 160.
Proof.
  unfold isspace. rewrite !orb_true_iff, !between_spec, !Z.eqb_eq. tauto.
Qed.

Lemma isdecimal_not_space (c : ascii) : isdecimal c = true -> isspace c = false.
Proof.
  rewrite isdecimal_spec. intros H.
  destruct (isspace c) eqn:Hs; [|reflexivity].
  apply isspace_spec in Hs. lia.
Qed.

Lemma digit_val_range (c : ascii) :
  isdecimal c = true -> 0 <= digit_val c <= 9.
Proof. rewrite isdecimal_spec. unfold digit_val. lia. Qed.

Lemma ord_range (c : ascii) : 0 <= ord c < 256.
Proof.
  unfold ord. pose proof (Ascii.N_ascii_bounded c) as H. lia.
Qed.

Lemma ord_inj (c1 c2 : ascii) : ord c1 = ord c2 -> c1 = c2.
Proof.
  unfold ord. intros H. apply Z2N.inj_iff in H; try lia.
  rewrite !N2Z.id in H.
  rewrite <- (Ascii.ascii_N_embedding c1), <- (Ascii.ascii_N_embedding c2).
  congruence.
Qed.

Lemma ord_digit_char (d : Z) : ord (digit_char d) = 48 + d mod 10.
Proof.
  unfold ord, digit_char.
  pose proof (Z.mod_pos_bound d 10 ltac:(lia)) as Hd.
  rewrite Ascii.N_ascii_embedding; [lia|].
  apply N2Z.inj_lt. rewrite Z2N.id by lia. simpl. lia.
Qed.

Lemma isdecimal_digit_char (d : Z) : isdecimal (digit_char d) = true.
Proof.
  apply isdecimal_spec. rewrite ord_digit_char.
  pose proof (Z.mod_pos_bound d 10 ltac:(lia)). lia.
Qed.

Lemma digit_val_digit_char (d : Z) : digit_val (digit_char d) = d mod 10.
Proof. unfold digit_val. rewrite ord_digit_char. lia. Qed.

(** [strip] leaves a text alone whose two ends are not white space. *)
Lemma rstrip_cons_keep (c : ascii) (s : string) :
  rstrip s <> EmptyString -> rstrip (String c s) = String c (rstrip s).
Proof. simpl. destruct (rstrip s); [congruence|reflexivity]. Qed.

Lemma rstrip_single (c : ascii) :
  isspace c = false -> rstrip (String c EmptyString) = String c EmptyString.
Proof. simpl. intros ->. reflexivity. Qed.

Lemma strip_two_digits (c1 c2 : ascii) :
  isdecimal c1 = true -> isdecimal c2 = true ->
  strip (String c1 (String c2 EmptyString)) = String c1 (String c2 EmptyString).
Proof.
  intros H1 H2. unfold strip. simpl lstrip.
  rewrite (isdecimal_not_space _ H1).
  rewrite rstrip_cons_keep; rewrite rstrip_single;
    auto using isdecimal_not_space; congruence.
Qed.

Lemma strip_one_digit (c : ascii) :
  isdecimal c = true -> strip (String c EmptyString) = String c EmptyString.
Proof.
  intros H. unfold strip. simpl lstrip.
  rewrite (isdecimal_not_space _ H). apply rstrip_single.
  apply isdecimal_not_space, H.
Qed.

Lemma strip_space_digit (c : ascii) :
  isdecimal c = true ->
  strip (String " " (String c EmptyString)) = String c EmptyString.
Proof.
  intros H. unfold strip. simpl lstrip.
  rewrite (isdecimal_not_space _ H). apply rstrip_single.
  apply isdecimal_not_space, H.
Qed.

End PyStrFacts.

(** ** The regular expressions *)

Module ReFacts.
Import PyStr Re.

Lemma in_chr (p : ascii -> bool) (s m rest : string) :
  In (m, rest) (chr p s) <->
  exists c, s = String c rest /\ m = String c EmptyString /\ p c = true.
Proof.
  unfold chr. destruct s as [|c s'].
  - split; [intros []|intros (c & H & _); discriminate].
  - destruct (p c) eqn:Hp; simpl; split.
    + intros [[= <- <-]|[]]. exists c. auto.
    + intros (c' & [= <- <-] & -> & _). left. reflexivity.
    + intros [].
    + intros (c' & [= <- <-] & _ & H). congruence.
Qed.

Lemma in_seq (r1 r2 : matcher) (s m rest : string) :
  In (m, rest) ((r1 +> r2) s) <->
  exists m1 s1 m2,
    In (m1, s1) (r1 s) /\ In (m2, rest) (r2 s1) /\ m = m1 +:+ m2.
Proof.
  unfold seq. rewrite in_flat_map. split.
  - intros ([m1 s1] & H1 & H). apply in_map_iff in H as ([m2 s2] & [= <- <-] & H2).
    exists m1, s1, m2. auto.
  - intros (m1 & s1 & m2 & H1 & H2 & ->). exists (m1, s1). split; [exact H1|].
    apply in_map_iff. exists (m2, rest). auto.
Qed.

Lemma in_alt (r1 r2 : matcher) (s : string) (x : string * string) :
  In x ((r1 <|> r2) s) <-> In x (r1 s) \/ In x (r2 s).
Proof. unfold alt. apply in_app_iff. Qed.

Lemma in_lit (c : ascii) (s m rest : string) :
  In (m, rest) (lit c s) <-> s = String c rest /\ m = String c EmptyString.
Proof.
  unfold lit. rewrite in_chr. split.
  - intros (c' & -> & -> & H). apply Ascii.eqb_eq in H. subst. auto.
  - intros [-> ->]. exists c. rewrite Ascii.eqb_refl. auto.
Qed.

Lemma in_range (lo hi : ascii) (s m rest : string) :
  In (m, rest) (range lo hi s) <->
  exists c, s = String c rest /\ m = String c EmptyString
            /\ ord lo <= ord c <= ord hi.
Proof.
  unfold range. rewrite in_chr.
  split; intros (c & H1 & H2 & H3); exists c; repeat split; auto;
    try (apply PyStrFacts.between_spec in H3; lia).
  apply PyStrFacts.between_spec. lia.
Qed.

Lemma in_digit (s m rest : string) :
  In (m, rest) (digit s) <->
  exists c, s = String c rest /\ m = String c EmptyString
            /\ isdecimal c = true.
Proof. apply in_chr. Qed.

Lemma in_plus_chr (p : ascii -> bool) (s m rest : string) :
  In (m, rest) (plus_chr p s) <->
  s = m +:+ rest /\ m <> EmptyString
  /\ forallb p (list_ascii_of_string m) = true.
Proof.
  revert m rest. induction s as [|c s' IH]; intros m rest; simpl.
  - split; [intros []|]. intros (H & Hm & _).
    destruct m; [congruence|discriminate].
  - destruct (p c) eqn:Hp.
    + rewrite in_app_iff, in_map_iff. split.
      * intros [([m' r'] & [= <- <-] & H)|[[= <- <-]|[]]].
        -- apply IH in H as (-> & Hm & Hall). simpl. rewrite Hp, Hall.
           repeat split; congruence.
        -- simpl. rewrite Hp. repeat split; congruence.
      * intros (H & Hm & Hall). destruct m as [|c' m']; [congruence|].
        simpl in H, Hall. injection H as <- ->.
        apply andb_true_iff in Hall as [_ Hall].
        destruct m' as [|c'' m''].
        -- right. left. reflexivity.
        -- left. exists (String c'' m'', rest). split; [reflexivity|].
           apply IH. repeat split; [discriminate|exact Hall].
    + split; [intros []|]. intros (H & Hm & Hall).
      destruct m as [|c' m']; [congruence|].
      simpl in H, Hall. injection H as <- ->. rewrite Hp in Hall. discriminate.
Qed.

Lemma in_eol (s m rest : string) :
  In (m, rest) (eol s) <->
  m = EmptyString /\ rest = s
  /\ (s = EmptyString \/ s = String "010" EmptyString).
Proof.
  unfold eol. destruct s as [|c [|c' s']]; simpl.
  - split; [intros [[= <- <-]|[]]; auto|]. intros (-> & -> & _). auto.
  - destruct (Ascii.eqb c "010") eqn:Hc; simpl.
    + apply Ascii.eqb_eq in Hc. subst c.
      split; [intros [[= <- <-]|[]]; auto|]. intros (-> & -> & _). auto.
    + split; [intros []|]. intros (_ & _ & [H|[= ->]]); [discriminate|].
      rewrite Ascii.eqb_refl in Hc. discriminate.
  - split; [intros []|]. intros (_ & _ & [H|H]); discriminate.
Qed.

Lemma fullmatch_spec (r : matcher) (s : string) :
  fullmatch r s = true <-> exists m, In (m, EmptyString) (r s).
Proof.
  unfold fullmatch. rewrite existsb_exists. split.
  - intros ([m rest] & Hin & He). destruct rest; [|discriminate]. eauto.
  - intros (m & Hin). exists (m, EmptyString). auto.
Qed.

End ReFacts.

(** ** [strptime] *)

Module DatetimeFacts.
Import PyStr Re Datetime PyStrFacts ReFacts.

Ltac ord_consts :=
  change (ord "0") with 48 in *; change (ord "1") with 49 in *;
  change (ord "2") with 50 in *; change (ord "3") with 51 in *;
  change (ord "5") with 53 in *; change (ord "9") with 57 in *.

Lemma int_of_group_two (c1 c2 : ascii) :
  isdecimal c1 = true -> isdecimal c2 = true ->
  int_of_group (String c1 (String c2 EmptyString))
  = 10 * digit_val c1 + digit_val c2.
Proof.
  intros H1 H2. unfold int_of_group. rewrite strip_two_digits by assumption.
  unfold int_of_digits. simpl. lia.
Qed.

Lemma int_of_group_one (c : ascii) :
  isdecimal c = true -> int_of_group (String c EmptyString) = digit_val c.
Proof.
  intros H. unfold int_of_group. rewrite strip_one_digit by assumption.
  unfold int_of_digits. simpl. lia.
Qed.

Lemma int_of_group_space (c : ascii) :
  isdecimal c = true ->
  int_of_group (String " " (String c EmptyString)) = digit_val c.
Proof.
  intros H. unfold int_of_group. rewrite strip_space_digit by assumption.
  unfold int_of_digits. simpl. lia.
Qed.

(** Breaks a hypothesis on the result of a directive's expression into the
    characters it matched. *)
Ltac split_match H :=
  repeat first
    [ apply in_alt in H as [H|H]
    | let m1 := fresh "m" in let s1 := fresh "s" in let m2 := fresh "m" in
      let Ha := fresh H in let Hb := fresh H in
      apply in_seq in H as (m1 & s1 & m2 & Ha & Hb & ->);
      split_match Ha; split_match Hb
    | let c := fresh "c" in let Hc := fresh "Hc" in
      apply in_range in H as (c & -> & -> & Hc)
    | let c := fresh "c" in let Hc := fresh "Hc" in
      apply in_digit in H as (c & -> & -> & Hc)
    | apply in_lit in H as [-> ->] ].

Ltac digit_facts :=
  ord_consts;
  repeat match goal with
    | H : isdecimal _ = true |- _ => apply isdecimal_spec in H
    end.

Ltac group_value :=
  first
    [ rewrite int_of_group_two by (apply isdecimal_spec; ord_consts; lia)
    | rewrite int_of_group_one by (apply isdecimal_spec; ord_consts; lia)
    | rewrite int_of_group_space by (apply isdecimal_spec; ord_consts; lia) ];
  unfold digit_val; ord_consts.

Lemma re_H_sound (s g rest : string) :
  In (g, rest) (re_H s) -> 0 <= int_of_group g <= 23.
Proof.
  unfold re_H. intros H. split_match H; simplify_eq; cbv [String.append];
    digit_facts; group_value; lia.
Qed.

Lemma re_M_sound (s g rest : string) :
  In (g, rest) (re_M s) -> 0 <= int_of_group g <= 59.
Proof.
  unfold re_M. intros H. split_match H; simplify_eq; cbv [String.append];
    digit_facts; group_value; lia.
Qed.

Lemma re_m_sound (s g rest : string) :
  In (g, rest) (re_m s) -> 1 <= int_of_group g <= 12.
Proof.
  unfold re_m. intros H. split_match H; simplify_eq; cbv [String.append];
    digit_facts; group_value; lia.
Qed.

Lemma re_d_sound (s g rest : string) :
  In (g, rest) (re_d s) -> 1 <= int_of_group g <= 31.
Proof.
  unfold re_d. intros H. split_match H; simplify_eq; cbv [String.append];
    digit_facts; group_value; lia.
Qed.

Lemma re_Y_shape (s g rest : string) :
  In (g, rest) (re_Y s) ->
  exists a b c d,
    s = String a (String b (String c (String d rest)))
    /\ g = String a (String b (String c (String d EmptyString)))
    /\ isdecimal a = true /\ isdecimal b = true
    /\ isdecimal c = true /\ isdecimal d = true.
Proof.
  unfold re_Y. intros H. split_match H. simplify_eq. cbv [String.append].
  eexists _, _, _, _. repeat split; eassumption.
Qed.

Lemma check_date_Ok (t d : datetime) :
  check_date t = Ok d ->
  d = t /\ 1 <= year t <= 9999 /\ 1 <= month t <= 12
  /\ 1 <= day t <= days_in_month (year t) (month t).
Proof.
  unfold check_date.
  destruct (between 1 9999 (year t)) eqn:Hy; [|discriminate].
  destruct (between 1 12 (month t)) eqn:Hm; [|discriminate].
  destruct (between 1 _ (day t)) eqn:Hd; [|discriminate].
  simpl. intros [= <-].
  apply between_spec in Hy, Hm, Hd. auto.
Qed.

Lemma check_date_valid (t : datetime) :
  1 <= year t <= 9999 -> 1 <= month t <= 12 ->
  1 <= day t <= days_in_month (year t) (month t) ->
  check_date t = Ok t.
Proof.
  intros Hy Hm Hd. unfold check_date.
  apply between_spec in Hy, Hm, Hd. rewrite Hy, Hm, Hd. reflexivity.
Qed.

Lemma check_date_raises (t : datetime) (e : exn) :
  check_date t = Raise e -> exists m, e = ValueError m.
Proof.
  unfold check_date.
  repeat match goal with |- context [if ?b then _ else _] => destruct b end;
    intros [= <-]; eauto.
Qed.

(** [strptime] raises nothing but [ValueError]. *)
Lemma strptime_raises (data fmt : string) (e : exn) :
  strptime data fmt = Raise e -> exists m, e = ValueError m.
Proof.
  unfold strptime. destruct (match_format fmt defaults data) as [|[t rest] l].
  - intros [= <-]. eauto.
  - destruct (negb (is_empty rest)); [intros [= <-]; eauto|].
    apply check_date_raises.
Qed.

Lemma strptime_Ok (data fmt : string) (d : datetime) :
  strptime data fmt = Ok d ->
  In (d, EmptyString) (match_format fmt defaults data)
  /\ check_date d = Ok d.
Proof.
  unfold strptime. destruct (match_format fmt defaults data) as [|[t rest] l];
    [discriminate|].
  destruct rest; simpl; [|discriminate].
  intros H. destruct (check_date_Ok _ _ H) as [-> _]. split; [left|]; auto.
Qed.

(** The matches of the format [%H:%M]. *)
Lemma in_match_format_HM (acc t : datetime) (s rest : string) :
  In (t, rest) (match_format "%H:%M" acc s) ->
  exists gH s1 gM,
    In (gH, String ":" s1) (re_H s) /\ In (gM, rest) (re_M s1)
    /\ t = mk_datetime (year acc) (month acc) (day acc)
             (int_of_group gH) (int_of_group gM).
Proof.
  simpl. intros H.
  apply in_flat_map in H as ([gH s0] & HH & H).
  apply in_flat_map in H as ([x s1] & Hl & H).
  apply in_lit in Hl as [-> ->].
  apply in_flat_map in H as ([gM s2] & HM & H).
  destruct H as [[= <- <-]|[]].
  exists gH, s1, gM. auto.
Qed.

(** The matches of the formats [%Y-%m-%d] and [%Y/%m/%d]. *)
Lemma in_match_format_Ymd (sep : ascii) (acc t : datetime) (s rest : string) :
  sep = "-"%char \/ sep = "/"%char ->
  In (t, rest) (match_format (fmt_Ymd sep) acc s) ->
  exists gY s1 gm s2 gd,
    In (gY, String sep s1) (re_Y s) /\ In (gm, String sep s2) (re_m s1)
    /\ In (gd, rest) (re_d s2)
    /\ t = mk_datetime (int_of_group gY) (int_of_group gm) (int_of_group gd)
             (hour acc) (minute acc).
Proof.
  intros [-> | ->]; simpl; intros H;
    apply in_flat_map in H as ([gY s0] & HY & H);
    apply in_flat_map in H as ([x1 s1] & Hl1 & H);
    apply in_lit in Hl1 as [-> ->];
    apply in_flat_map in H as ([gm s2] & Hm & H);
    apply in_flat_map in H as ([x2 s3] & Hl2 & H);
    apply in_lit in Hl2 as [-> ->];
    apply in_flat_map in H as ([gd s4] & Hd & H);
    destruct H as [[= <- <-]|[]];
    exists gY, s1, gm, s3, gd; auto.
Qed.

(** A parsed time of day is a time of day. *)
Lemma strptime_HM_range (data : string) (dt : datetime) :
  strptime data "%H:%M" = Ok dt ->
  0 <= hour dt <= 23 /\ 0 <= minute dt <= 59.
Proof.
  intros H. apply strptime_Ok in H as [H _].
  apply in_match_format_HM in H as (gH & s1 & gM & HH & HM & ->). simpl.
  split; [eapply re_H_sound|eapply re_M_sound]; eassumption.
Qed.

(** No text parses under both date formats. *)
Lemma date_formats_exclusive (data : string) (d1 d2 : datetime) :
  strptime data "%Y-%m-%d" = Ok d1 -> strptime data "%Y/%m/%d" = Ok d2 -> False.
Proof.
  intros H1 H2. apply strptime_Ok in H1 as [H1 _], H2 as [H2 _].
  apply (in_match_format_Ymd "-") in H1 as (g1 & s1 & _ & _ & _ & HY1 & _);
    [|auto].
  apply (in_match_format_Ymd "/") in H2 as (g2 & s2 & _ & _ & _ & HY2 & _);
    [|auto].
  apply re_Y_shape in HY1 as (a & b & c & d & -> & _).
  apply re_Y_shape in HY2 as (a' & b' & c' & d' & [=] & _).
Qed.

End DatetimeFacts.

(** ** The validators and the validation of a submission *)

Module ModelsFacts.
Import PyStr Re Datetime Models PyStrFacts ReFacts DatetimeFacts.

Lemma append_assoc (a b c : string) : (a +:+ b) +:+ c = a +:+ (b +:+ c).
Proof.
  induction a as [|x a IH]; [reflexivity|].
  change (String x ((a +:+ b) +:+ c) = String x (a +:+ (b +:+ c))).
  rewrite IH. reflexivity.
Qed.

Lemma append_nil_r (a : string) : a +:+ EmptyString = a.
Proof.
  induction a as [|x a IH]; [reflexivity|].
  change (String x (a +:+ EmptyString) = String x a).
  rewrite IH. reflexivity.
Qed.

Lemma strftime_Ymd (fmt_year : Z -> string) (d : datetime) :
  strftime fmt_year d "%Y-%m-%d"
  = fmt_year (year d) +:+ "-" +:+ pad2 (month d) +:+ "-" +:+ pad2 (day d).
Proof.
  simpl. rewrite append_nil_r. reflexivity.
Qed.

Lemma valid_date_cases (fmt_year : Z -> string) (v : string) :
  valid_date fmt_year v =
  match strptime v "%Y-%m-%d" with
  | Ok d => Ok (strftime fmt_year d "%Y-%m-%d")
  | Raise _ =>
      match strptime v "%Y/%m/%d" with
      | Ok d => Ok (strftime fmt_year d "%Y-%m-%d")
      | Raise _ =>
          Raise (ValueError
            "purchaseDate must be a valid date in YYYY-MM-DD or YYYY/MM/DD format")
      end
  end.
Proof.
  unfold valid_date, valid_date_loop.
  destruct (strptime v "%Y-%m-%d") as [d|e] eqn:H1; [reflexivity|].
  destruct (strptime_raises _ _ _ H1) as [m ->].
  destruct (strptime v "%Y/%m/%d") as [d|e] eqn:H2; [reflexivity|].
  destruct (strptime_raises _ _ _ H2) as [m' ->]. reflexivity.
Qed.

Lemma valid_time_cases (v : string) :
  valid_time v =
  match strptime v "%H:%M" with
  | Ok _ => Ok v
  | Raise _ =>
      Raise (ValueError "purchaseTime must be a valid time in HH:MM format")
  end.
Proof.
  unfold valid_time. destruct (strptime v "%H:%M") as [d|e] eqn:H; [reflexivity|].
  destruct (strptime_raises _ _ _ H) as [m ->]. reflexivity.
Qed.

(** The validators raise nothing but [ValueError], which is what the
    validation of a field turns into an error. *)
Lemma validators_raise_ValueError (fmt_year : Z -> string) (v : string)
    (e : exn) :
  description_not_empty v = Raise e \/ valid_price v = Raise e
  \/ retailer_not_empty v = Raise e \/ valid_date fmt_year v = Raise e
  \/ valid_time v = Raise e \/ valid_total v = Raise e ->
  exists m, e = ValueError m.
Proof.
  rewrite valid_date_cases, valid_time_cases.
  unfold description_not_empty, valid_price, retailer_not_empty, valid_total.
  intros H.
  repeat match type of H with
    | context [if ?b then _ else _] => destruct b
    | context [match strptime ?a ?b with _ => _ end] => destruct (strptime a b)
    end;
    repeat match type of H with
      | _ \/ _ => destruct H as [H|H]
      end;
    try discriminate; injection H as <-; eauto.
Qed.

Section Validation.
Variable pf : Platform.

Lemma run_validator_inl (f : string -> result string) (v x : string) :
  run_validator pf f v = inl x -> f v = Ok x.
Proof.
  unfold run_validator. destruct (f v) as [v'|[m|m]]; congruence.
Qed.

Lemma constrained_inl (n : Z) (f : string -> result string) (v x : string) :
  constrained pf n f v = inl x -> n <= len v /\ f v = Ok x.
Proof.
  unfold constrained. destruct (Z.ltb_spec (len v) n) as [Hlt|Hge];
    [discriminate|].
  intros Hv. split; [lia|]. apply run_validator_inl, Hv.
Qed.

Lemma validate_Item_inl (raw : RawItem) (item : Item) :
  validate_Item pf raw = inl item -> item_ok raw item.
Proof.
  unfold validate_Item, item_ok.
  destruct (constrained pf 1 _ _) as [d|m] eqn:Hd;
    destruct (run_validator pf valid_price _) as [p|m'] eqn:Hp; try discriminate.
  intros [= <-]. simpl. apply constrained_inl in Hd as [? ?].
  apply run_validator_inl in Hp. auto.
Qed.

Lemma validate_Item_inr (raw : RawItem) (errors : list error) :
  validate_Item pf raw = inr errors ->
  errors <> []
  /\ errors
     = (field_errors "shortDescription"
          (constrained pf 1 description_not_empty (raw_shortDescription raw))
        ++ field_errors "price" (run_validator pf valid_price (raw_price raw)))%list.
Proof.
  unfold validate_Item.
  destruct (constrained pf 1 _ _) as [d|m] eqn:Hd;
    destruct (run_validator pf valid_price _) as [p|m'] eqn:Hp;
    try discriminate; intros [= <-]; split; try reflexivity; discriminate.
Qed.

Lemma validate_Item_inl_errors (raw : RawItem) (item : Item) :
  validate_Item pf raw = inl item ->
  (field_errors "shortDescription"
     (constrained pf 1 description_not_empty (raw_shortDescription raw))
   ++ field_errors "price" (run_validator pf valid_price (raw_price raw)))%list
  = [].
Proof.
  unfold validate_Item.
  destruct (constrained pf 1 _ _) as [d|m] eqn:Hd;
    destruct (run_validator pf valid_price _) as [p|m'] eqn:Hp;
    try discriminate; reflexivity.
Qed.

Lemma validate_items_valid (raws : list RawItem) :
  forall (i : Z) (its : list Item),
    validate_items pf i raws = (its, []) -> Forall2 item_ok raws its.
Proof.
  induction raws as [|raw rest IH]; intros i its; simpl.
  - intros [= <-]. constructor.
  - destruct (validate_items pf (i + 1) rest) as [vs es] eqn:Hrest.
    destruct (validate_Item pf raw) as [item|e] eqn:Hitem.
    + intros [= <- ->]. constructor; [apply validate_Item_inl, Hitem|].
      eapply IH, Hrest.
    + intros [= <- H]. apply validate_Item_inr in Hitem as [Hne _].
      apply app_eq_nil in H as [H _]. destruct e; [congruence|discriminate].
Qed.

Lemma validate_Receipt_cases (body : RawReceipt) :
  match validate_Receipt pf body with
  | inl receipt =>
      errors_of pf body = []
      /\ 1 <= len (raw_retailer body)
      /\ retailer_not_empty (raw_retailer body) = Ok (retailer receipt)
      /\ valid_date (fmt_year pf) (raw_purchaseDate body)
         = Ok (purchaseDate receipt)
      /\ valid_time (raw_purchaseTime body) = Ok (purchaseTime receipt)
      /\ Forall2 item_ok (raw_items body) (items receipt)
      /\ valid_total (raw_total body) = Ok (total receipt)
  | inr errors => errors = errors_of pf body /\ errors <> []
  end.
Proof.
  unfold validate_Receipt, errors_of.
  destruct (constrained pf 1 _ _) as [r|m1] eqn:Hr;
    destruct (run_validator pf (valid_date _) _) as [d|m2] eqn:Hd;
    destruct (run_validator pf valid_time _) as [t|m3] eqn:Ht;
    destruct (validate_items pf 0 _) as [its [|e es]] eqn:Hi;
    destruct (run_validator pf valid_total _) as [tot|m5] eqn:Htot;
    simpl; try (split; [reflexivity|discriminate]).
  apply constrained_inl in Hr as [? ?].
  apply run_validator_inl in Hd, Ht, Htot.
  apply validate_items_valid in Hi. auto 10.
Qed.

End Validation.

End ModelsFacts.

(** ** The purchase date *)

Module ValidationFacts.
Import PyStr Datetime Models Main PyStrFacts DatetimeFacts ModelsFacts Examples.

(** [valid_date] returns exactly on the texts that [strptime] parses
    under [%Y-%m-%d] or under [%Y/%m/%d]; what it returns, and what the
    receipt then holds as [purchaseDate], is the year as [%Y] renders it,
    the two-digit month and the two-digit day of the parsed date, joined
    by hyphens; on every other text validation fails with an error on
    [purchaseDate]. *)
Lemma valid_date_stores_strftime (pf : Platform) (body : RawReceipt) :
  let v := raw_purchaseDate body in
  (forall s : string,
     valid_date (fmt_year pf) v = Ok s <->
     exists d,
       (strptime v "%Y-%m-%d" = Ok d \/ strptime v "%Y/%m/%d" = Ok d)
       /\ s = fmt_year pf (year d) +:+ "-" +:+ pad2 (month d)
              +:+ "-" +:+ pad2 (day d))
  /\ (forall receipt : Receipt,
        validate_Receipt pf body = inl receipt ->
        valid_date (fmt_year pf) v = Ok (purchaseDate receipt))
  /\ ((forall d, strptime v "%Y-%m-%d" <> Ok d /\ strptime v "%Y/%m/%d" <> Ok d) ->
      exists errors,
        validate_Receipt pf body = inr errors
        /\ In (mk_error [LStr "purchaseDate"]
                 (value_error_msg pf
                    "purchaseDate must be a valid date in YYYY-MM-DD or YYYY/MM/DD format"))
              errors).
Proof.
  intros v. split; [|split].
  - intros s. rewrite valid_date_cases. split.
    + destruct (strptime v "%Y-%m-%d") as [d|e] eqn:H1.
      * intros [= <-]. exists d. split; [left; reflexivity|apply strftime_Ymd].
      * destruct (strptime v "%Y/%m/%d") as [d|e'] eqn:H2; [|discriminate].
        intros [= <-]. exists d. split; [right; reflexivity|apply strftime_Ymd].
    + intros (d & [H|H] & ->).
      * rewrite H, strftime_Ymd. reflexivity.
      * destruct (strptime v "%Y-%m-%d") as [d'|e] eqn:H1.
        -- destruct (date_formats_exclusive _ _ _ H1 H).
        -- rewrite H, strftime_Ymd. reflexivity.
  - intros receipt Hv. pose proof (validate_Receipt_cases pf body) as Hc.
    rewrite Hv in Hc. apply Hc.
  - intros Hno. pose proof (validate_Receipt_cases pf body) as Hc.
    assert (Hd : run_validator pf (valid_date (fmt_year pf)) v
                 = inr (value_error_msg pf
                    "purchaseDate must be a valid date in YYYY-MM-DD or YYYY/MM/DD format")).
    { unfold run_validator. rewrite valid_date_cases.
      destruct (strptime v "%Y-%m-%d") as [d|e] eqn:H1;
        [destruct (proj1 (Hno d) eq_refl)|].
      destruct (strptime v "%Y/%m/%d") as [d|e'] eqn:H2;
        [destruct (proj2 (Hno d) eq_refl)|]. reflexivity. }
    destruct (validate_Receipt pf body) as [receipt|errors].
    + destruct Hc as (_ & _ & _ & Hc & _). fold v in Hc.
      unfold run_validator in Hd. rewrite Hc in Hd. discriminate.
    + destruct Hc as [-> _]. eexists. split; [reflexivity|].
      unfold errors_of. fold v. rewrite Hd.
      apply in_or_app. right. apply in_or_app. left. left. reflexivity.
Qed.

End ValidationFacts.

(** ** The afternoon window *)

Module AfternoonFacts.
Import Datetime Models Main Rules RulesFacts DatetimeFacts ScoringFacts Examples.

Ltac case_compare :=
  repeat match goal with
    | |- context [?a <? ?b] => destruct (Z.ltb_spec a b)
    | |- context [?a =? ?b] => destruct (Z.eqb_spec a b)
    end.

Lemma afternoon_points_inside (t : time) :
  0 <= t_minute t <= 59 ->
  14 * 60 < Spec.minute_of_day t < 16 * 60 -> afternoon_points t = 10.
Proof.
  unfold afternoon_points, time_lt, Spec.minute_of_day.
  cbn [t_hour t_minute]. intros Hm Hw. case_compare; simpl; lia.
Qed.

Lemma afternoon_points_outside (t : time) :
  0 <= t_minute t <= 59 ->
  ~ 14 * 60 < Spec.minute_of_day t < 16 * 60 -> afternoon_points t = 0.
Proof.
  unfold afternoon_points, time_lt, Spec.minute_of_day.
  cbn [t_hour t_minute]. intros Hm Hw. case_compare; simpl; lia.
Qed.

(** C6. In every score the engine returns, the afternoon rule contributes
    10 points when the purchase time is strictly between 14:00 and 16:00
    and nothing otherwise; the times 14:00 and 16:00 earn nothing and 15:00
    earns the 10 points. *)
Theorem C6_afternoon_window (r : Receipt) (p : Z) :
  (calculate_points r = Ok p ->
   exists x dp d dt,
     Float64.of_str (total r) = Ok x
     /\ descriptions_points (items r) = Ok dp
     /\ strptime (purchaseDate r) "%Y-%m-%d" = Ok d
     /\ strptime (purchaseTime r) "%H:%M" = Ok dt
     /\ let others := retailer_points r + round_dollar_points x
                      + quarter_points x + pair_points (items r) + dp
                      + odd_day_points d in
        let t := time_of dt in
        (14 * 60 < Spec.minute_of_day t < 16 * 60 -> p = others + 10)
        /\ (~ 14 * 60 < Spec.minute_of_day t < 16 * 60 -> p = others))
  /\ afternoon_of "14:00" = Ok 0
  /\ afternoon_of "16:00" = Ok 0
  /\ afternoon_of "15:00" = Ok 10.
Proof.
  split; [|repeat split; vm_compute; reflexivity].
  intros H.
  destruct (calculate_points_Ok r p H)
    as (x & dp & d & dt & Hx & Hdp & Hd & Ht & ->).
  exists x, dp, d, dt. repeat split; try assumption.
  - intros Hw. rewrite afternoon_points_inside; [reflexivity| |exact Hw].
    apply (strptime_HM_range _ _ Ht).
  - intros Hw. rewrite afternoon_points_outside; [lia| |exact Hw].
    apply (strptime_HM_range _ _ Ht).
Qed.

Lemma C6_afternoon_window_witness :
  calculate_points corner_market = Ok 109
  /\ exists dt,
       strptime (purchaseTime corner_market) "%H:%M" = Ok dt
       /\ 14 * 60 < Spec.minute_of_day (time_of dt) < 16 * 60.
Proof.
  assert (H : calculate_points corner_market = Ok 109)
    by (vm_compute; reflexivity).
  split; [exact H|].
  destruct (proj1 (C6_afternoon_window corner_market 109) H)
    as (x & dp & d & dt & _ & _ & _ & Ht & _).
  exists dt. split; [exact Ht|].
  vm_compute in Ht. injection Ht as <-. vm_compute. split; reflexivity.
Defined.

End AfternoonFacts.

(** ** Where binary floating point departs from the decimal amounts *)

Module FloatDefects.
Import Models Main Rules Examples.

(** C1. On an item of [10^15] dollars and one cent whose trimmed
    description has three characters, the engine adds
    [200000000000000] points, one less than [ceil (price_cents / 500)]:
    the cent is lost when the price becomes a binary64 number. *)
Theorem C1_ceiling_drifts_at_large_price :
  validate_Receipt documented drift_body = inl drift_receipt
  /\ PyStr.len (PyStr.strip "abc") = 3
  /\ description_points (mk_Item "abc" "1000000000000000.01")
     = Ok 200000000000000
  /\ Spec.exact_description_points "1000000000000000.01" = 200000000000001
  /\ calculate_points drift_receipt = Ok (4 + 200000000000000).
Proof. repeat split; vm_compute; reflexivity. Qed.

(** C2. A total of [10^309] dollars and no cents passes validation and
    becomes the binary64 infinity, for which neither the round-dollar nor
    the quarter-multiple rule fires: the receipt scores the 4 points of its
    retailer name and none of the 75. *)
Theorem C2_round_total_beyond_binary64 :
  validate_Receipt documented huge_total_body = inl huge_total_receipt
  /\ Spec.price_cents huge_amount mod 100 = 0
  /\ Float64.of_str huge_amount = Ok Float64.Inf
  /\ round_dollar_points Float64.Inf = 0
  /\ quarter_points Float64.Inf = 0
  /\ calculate_points huge_total_receipt = Ok 4.
Proof. repeat split; vm_compute; reflexivity. Qed.

(** C8. A receipt with an item priced at [10^309] dollars passes
    validation, and scoring it raises [OverflowError] at [math.ceil]. *)
Theorem C8_scoring_raises_on_validated_receipt :
  validate_Receipt documented huge_price_body = inl huge_price_receipt
  /\ calculate_points huge_price_receipt
     = Raise (OverflowError "cannot convert float infinity to integer").
Proof. split; vm_compute; reflexivity. Qed.

(** Where [%Y] is written without filling, a purchase date in the year 999
    is stored with three digits, and scoring the validated receipt raises
    [ValueError] at [strptime]. *)
Lemma unfilled_year_breaks_scoring :
  exists receipt,
    validate_Receipt unfilled_year year_999_body = inl receipt
    /\ purchaseDate receipt = "999-01-02"
    /\ calculate_points receipt
       = Raise (ValueError "time data does not match format").
Proof. eexists. repeat split; vm_compute; reflexivity. Qed.

End FloatDefects.

(** ** Amounts: the pattern, the decimal value and its binary64 image *)

Module MoneyFacts.
Import PyStr Re Float64 Models PyStrFacts ReFacts ModelsFacts.

Lemma list_ascii_app (a b : string) :
  list_ascii_of_string (a +:+ b)
  = (list_ascii_of_string a ++ list_ascii_of_string b)%list.
Proof.
  induction a as [|x a IH]; [reflexivity|].
  change (x :: list_ascii_of_string (a +:+ b)
          = x :: (list_ascii_of_string a ++ list_ascii_of_string b)%list).
  rewrite IH. reflexivity.
Qed.

Lemma length_append (a b : string) :
  String.length (a +:+ b) = (String.length a + String.length b)%nat.
Proof.
  induction a as [|x a IH]; [reflexivity|].
  change (S (String.length (a +:+ b)) = S (String.length a + String.length b)).
  rewrite IH. reflexivity.
Qed.

Lemma all_decimal_app (a b : string) :
  all_decimal (a +:+ b) = all_decimal a && all_decimal b.
Proof. unfold all_decimal. rewrite list_ascii_app. apply forallb_app. Qed.

Lemma digits_value_acc (l : list ascii) (acc : Z) :
  digits_value l acc = acc * 10 ^ Z.of_nat (length l) + digits_value l 0.
Proof.
  revert acc. induction l as [|c l IH]; intros acc.
  - simpl. lia.
  - change (digits_value (c :: l) acc) with (digits_value l (10 * acc + digit_val c)).
    change (digits_value (c :: l) 0) with (digits_value l (10 * 0 + digit_val c)).
    rewrite (IH (10 * acc + digit_val c)), (IH (10 * 0 + digit_val c)).
    rewrite length_cons, Nat2Z.inj_succ, Z.pow_succ_r by lia. lia.
Qed.

Lemma digits_value_nonneg (l : list ascii) (acc : Z) :
  forallb isdecimal l = true -> 0 <= acc -> 0 <= digits_value l acc.
Proof.
  revert acc. induction l as [|c l IH]; intros acc Hall Hacc; [exact Hacc|].
  simpl in Hall. apply andb_true_iff in Hall as [Hc Hall].
  change (digits_value (c :: l) acc) with (digits_value l (10 * acc + digit_val c)).
  apply IH; [exact Hall|]. pose proof (digit_val_range c Hc). lia.
Qed.

Lemma int_of_digits_app (a b : string) :
  int_of_digits (a +:+ b) = int_of_digits a * 10 ^ len b + int_of_digits b.
Proof.
  unfold int_of_digits, len. rewrite list_ascii_app.
  unfold digits_value at 1. rewrite fold_left_app.
  fold (digits_value (list_ascii_of_string a) 0).
  fold (digits_value (list_ascii_of_string b)
          (digits_value (list_ascii_of_string a) 0)).
  rewrite digits_value_acc.
  replace (length (list_ascii_of_string b)) with (String.length b);
    [reflexivity|].
  clear. induction b as [|x b IH]; simpl; [|rewrite IH]; reflexivity.
Qed.

Lemma int_of_digits_nonneg (a : string) :
  all_decimal a = true -> 0 <= int_of_digits a.
Proof. intros H. apply (digits_value_nonneg _ 0 H). lia. Qed.

Lemma split_point_app (i f : string) :
  all_decimal i = true -> split_point (i +:+ String "." f) = Some (i, f).
Proof.
  induction i as [|c i IH]; intros Hall; [reflexivity|].
  unfold all_decimal in Hall. simpl in Hall.
  apply andb_true_iff in Hall as [Hc Hall].
  change (split_point (String c (i +:+ String "." f)) = Some (String c i, f)).
  simpl. destruct (Ascii.eqb_spec c ".") as [->|Hne]; [discriminate|].
  rewrite (IH Hall). reflexivity.
Qed.

Lemma split_point_Some (s i f : string) :
  split_point s = Some (i, f) -> s = i +:+ String "." f.
Proof.
  revert i. induction s as [|c s IH]; intros i; simpl; [discriminate|].
  destruct (Ascii.eqb_spec c ".") as [->|Hne].
  - intros [= <- <-]. reflexivity.
  - destruct (split_point s) as [[i' f']|]; [|discriminate].
    intros [= <- <-]. rewrite (IH i' eq_refl). reflexivity.
Qed.

Lemma without_point_digits (a : string) :
  all_decimal a = true -> Spec.without_point a = a.
Proof.
  induction a as [|c a IH]; intros Hall; [reflexivity|].
  unfold all_decimal in Hall. simpl in Hall.
  apply andb_true_iff in Hall as [Hc Hall]. simpl.
  destruct (Ascii.eqb_spec c ".") as [->|Hne]; [discriminate|].
  rewrite (IH Hall). reflexivity.
Qed.

Lemma without_point_app (a b : string) :
  Spec.without_point (a +:+ b) = Spec.without_point a +:+ Spec.without_point b.
Proof.
  induction a as [|c a IH]; [reflexivity|].
  change (Spec.without_point (String c (a +:+ b))
          = Spec.without_point (String c a) +:+ Spec.without_point b).
  simpl. destruct (Ascii.eqb c "."); rewrite IH; reflexivity.
Qed.

Lemma money_pattern_shape (s : string) :
  fullmatch money_pattern s = true <-> Spec.money_shape s.
Proof.
  rewrite fullmatch_spec. unfold money_pattern, Spec.money_shape. split.
  - intros (m & H).
    apply in_seq in H as (m4 & s4 & m5 & H & He & ->).
    apply in_eol in He as (-> & <- & _).
    apply in_seq in H as (m3 & s3 & mb & H & Hb & ->).
    apply in_digit in Hb as (b & -> & -> & Hb).
    apply in_seq in H as (m2 & s2 & ma & H & Ha & ->).
    apply in_digit in Ha as (a & -> & -> & Ha).
    apply in_seq in H as (i & s1 & mp & H & Hp & ->).
    apply in_lit in Hp as [-> ->].
    apply in_plus_chr in H as (-> & Hi & Hall).
    exists i, a, b. auto.
  - intros (i & a & b & -> & Hi & Hall & Ha & Hb).
    exists ((((i +:+ ".") +:+ String a EmptyString) +:+ String b EmptyString)
            +:+ EmptyString).
    apply in_seq. eexists _, EmptyString, EmptyString.
    split; [|split; [apply in_eol; auto|reflexivity]].
    apply in_seq. eexists _, (String b EmptyString), _.
    split; [|split; [apply in_digit; eauto|reflexivity]].
    apply in_seq. eexists _, (String a (String b EmptyString)), _.
    split; [|split; [apply in_digit; eauto|reflexivity]].
    apply in_seq. eexists i, (String "." (String a (String b EmptyString))), _.
    split; [|split; [apply in_lit; eauto|reflexivity]].
    apply in_plus_chr. auto.
Qed.

(** The pattern of the validators says what the specification says. *)
Lemma two_decimals_shape (s : string) :
  Spec.two_decimals s = true <-> Spec.money_shape s.
Proof.
  unfold Spec.two_decimals, Spec.money_shape. split.
  - destruct (split_point s) as [[i f]|] eqn:Hs; [|discriminate].
    apply split_point_Some in Hs as ->.
    rewrite !andb_true_iff, negb_true_iff.
    intros [[[Hi Hne] Hf] Hlen].
    destruct f as [|a [|b [|c f]]]; try discriminate.
    unfold all_decimal in Hf. simpl in Hf.
    rewrite !andb_true_iff in Hf. destruct Hf as (Ha & Hb & _).
    exists i, a, b. repeat split; auto. intros ->. discriminate.
  - intros (i & a & b & -> & Hi & Hall & Ha & Hb).
    rewrite (split_point_app _ _ Hall), Hall.
    unfold all_decimal. simpl. rewrite Ha, Hb.
    destruct i; [congruence|reflexivity].
Qed.

Lemma money_pattern_two_decimals (s : string) :
  fullmatch money_pattern s = Spec.two_decimals s.
Proof.
  apply eq_true_iff_eq. rewrite money_pattern_shape, two_decimals_shape.
  tauto.
Qed.

(** On an amount of money, [float] is the nearest binary64 number to the
    exact number of cents over 100. *)
Lemma of_str_money (s : string) :
  Spec.money_shape s ->
  0 <= Spec.price_cents s
  /\ of_str s = Ok (round_ne (Spec.price_cents s) 100).
Proof.
  intros (i & a & b & -> & Hi & Hall & Ha & Hb).
  assert (Hf : all_decimal (String a (String b EmptyString)) = true)
    by (unfold all_decimal; simpl; rewrite Ha, Hb; reflexivity).
  assert (Hc : Spec.price_cents (i +:+ String "." (String a (String b EmptyString)))
               = int_of_digits (i +:+ String a (String b EmptyString))).
  { unfold Spec.price_cents. rewrite without_point_app.
    rewrite (without_point_digits _ Hall).
    change (String "." (String a (String b EmptyString)))
      with ("." +:+ String a (String b EmptyString)).
    rewrite without_point_app, (without_point_digits _ Hf). reflexivity. }
  split.
  - rewrite Hc. apply int_of_digits_nonneg. rewrite all_decimal_app, Hall, Hf.
    reflexivity.
  - unfold of_str. rewrite (split_point_app _ _ Hall), Hall, Hf, Hc.
    destruct i as [|c i]; [congruence|]. reflexivity.
Qed.

End MoneyFacts.

(** ** Binary64 arithmetic *)

Module Float64Facts.
Import Float64.

Lemma lit_0_2_eq : lit_0_2 = Finite 7205759403792794 (-55).
Proof. vm_compute. reflexivity. Qed.

Lemma lit_0_25_eq : lit_0_25 = Finite (2 ^ 52) (-54).
Proof. vm_compute. reflexivity. Qed.

Lemma pow2_pos (k : Z) : 0 <= k -> 0 < 2 ^ k.
Proof. intros H. apply Z.pow_pos_nonneg; lia. Qed.

Lemma pow2_split (a b : Z) : 0 <= a -> 0 <= b -> 2 ^ (a + b) = 2 ^ a * 2 ^ b.
Proof. intros Ha Hb. apply Z.pow_add_r; assumption. Qed.

(** An integer is a multiple of a quarter: whenever [is_integer] holds, the
    remainder modulo [0.25] is zero. *)
Lemma integer_is_quarter_multiple (x : float) :
  is_integer x = true -> eq_zero (fmod x lit_0_25) = true.
Proof.
  rewrite lit_0_25_eq. destruct x as [m e| |]; try discriminate.
  unfold is_integer, eq_zero, is_zero, fmod. intros H. apply Z.eqb_eq.
  destruct (Z.leb_spec 0 e) as [He|He].
  - rewrite Z.min_r by lia.
    replace (e - -54) with ((e + 2) + 52) by lia.
    replace (-54 - -54) with 0 by lia.
    rewrite pow2_split by lia. rewrite Z.pow_0_r, Z.mul_1_r, Z.mul_assoc.
    apply Z.mod_mul. pose proof (pow2_pos 52). lia.
  - apply Z.eqb_eq in H. apply Z.mod_divide in H;
      [|pose proof (pow2_pos (- e)); lia].
    destruct H as [k ->].
    destruct (Z.le_gt_cases (-54) e) as [Hle|Hgt].
    + rewrite Z.min_r by lia.
      replace (-54 - -54) with 0 by lia. rewrite Z.pow_0_r, Z.mul_1_r.
      replace (k * 2 ^ (- e) * 2 ^ (e - -54)) with (k * (2 ^ (- e) * 2 ^ (e + 54)))
        by (replace (e - -54) with (e + 54) by lia; ring).
      rewrite <- pow2_split by lia.
      replace (- e + (e + 54)) with (2 + 52) by lia.
      rewrite pow2_split by lia. rewrite Z.mul_assoc.
      apply Z.mod_mul. pose proof (pow2_pos 52). lia.
    + rewrite Z.min_l by lia.
      replace (e - e) with 0 by lia. rewrite Z.pow_0_r, Z.mul_1_r.
      rewrite <- pow2_split by lia.
      replace (52 + (-54 - e)) with (- e - 2) by lia.
      assert (Hp : 2 ^ (- e) = 2 ^ 2 * 2 ^ (- e - 2))
        by (rewrite <- pow2_split by lia; f_equal; lia).
      rewrite Hp, Z.mul_assoc.
      apply Z.mod_mul. pose proof (pow2_pos (- e - 2)). lia.
Qed.

(** A whole number of dollars becomes an integer binary64 number, unless it
    overflows. *)
Lemma round_ne_whole (N : Z) :
  0 <= N ->
  round_ne (N * 100) 100 = Inf
  \/ exists m e, round_ne (N * 100) 100 = Finite m e
                 /\ is_integer (Finite m e) = true.
Proof.
  intros HN. unfold round_ne.
  destruct (N * 100 =? 0); [right; exists 0, 0; split; reflexivity|].
  set (e := Z.max (binade (N * 100) 100 - 52) (-1074)).
  unfold scale. destruct (Z.leb_spec 0 e) as [He|He].
  - match goal with
    | |- context [if ?b then Inf else Finite ?m e] =>
        destruct b; [left; reflexivity|right; exists m, e]
    end.
    split; [reflexivity|]. unfold is_integer.
    destruct (Z.leb_spec 0 e); [reflexivity|lia].
  - right. exists (N * 2 ^ (- e)), e.
    replace (N * 100 * 2 ^ (- e)) with (N * 2 ^ (- e) * 100) by ring.
    rewrite Z.div_mul, Z.mod_mul by lia. simpl.
    split; [reflexivity|]. unfold is_integer.
    destruct (Z.leb_spec 0 e); [lia|].
    apply Z.eqb_eq, Z.mod_mul. pose proof (pow2_pos (- e)). lia.
Qed.

(** The numbers of the program are never [NaN]. *)
Lemma round_ne_not_NaN (n d : Z) : round_ne n d <> NaN.
Proof.
  unfold round_ne. destruct (n =? 0); [discriminate|].
  destruct (scale n d _) as [a b].
  match goal with |- context [if ?b then _ else _] => destruct b end;
    discriminate.
Qed.

Lemma mul_lit_0_2_not_NaN (x : float) : x <> NaN -> mul x lit_0_2 <> NaN.
Proof.
  rewrite lit_0_2_eq. destruct x as [m e| |]; intros Hx; [| |congruence].
  - unfold mul. destruct (0 <=? e + -55); apply round_ne_not_NaN.
  - simpl. discriminate.
Qed.

(** *** Rounding to nearest *)

Lemma pow2_le_shift (k n d T : Z) :
  0 <= T -> 0 <= T + k ->
  pow2_le k n d = true <-> d * 2 ^ (T + k) <= n * 2 ^ T.
Proof.
  intros HT HTk. unfold pow2_le, scale.
  pose proof (pow2_pos T HT) as HpT.
  destruct (Z.leb_spec 0 k) as [Hk|Hk]; rewrite Z.leb_le.
  - rewrite pow2_split by lia. split; intros Hx; nia.
  - replace T with ((T + k) + (- k)) at 2 by lia.
    rewrite (pow2_split (T + k) (- k)) by lia.
    pose proof (pow2_pos (T + k) HTk) as HpTk. split; intros Hx; nia.
Qed.

Lemma binade_lower (n d : Z) :
  0 < n -> 0 < d -> pow2_le (binade n d) n d = true.
Proof.
  intros Hn Hd. unfold binade.
  destruct (pow2_le (Z.log2 n - Z.log2 d) n d) eqn:Hl; [exact Hl|].
  pose proof (Z.log2_spec n Hn) as [Hn1 Hn2].
  pose proof (Z.log2_spec d Hd) as [Hd1 Hd2].
  pose proof (Z.log2_nonneg n). pose proof (Z.log2_nonneg d).
  apply (pow2_le_shift _ n d (Z.log2 d + 1)); [lia|lia|].
  replace (Z.log2 d + 1 + (Z.log2 n - Z.log2 d - 1)) with (Z.log2 n) by lia.
  replace (Z.succ (Z.log2 d)) with (Z.log2 d + 1) in Hd2 by lia.
  nia.
Qed.

Lemma binade_upper (n d : Z) :
  0 < n -> 0 < d -> pow2_le (binade n d + 1) n d = false.
Proof.
  intros Hn Hd. unfold binade.
  destruct (pow2_le (Z.log2 n - Z.log2 d) n d) eqn:Hl.
  - pose proof (Z.log2_spec n Hn) as [Hn1 Hn2].
    pose proof (Z.log2_spec d Hd) as [Hd1 Hd2].
    pose proof (Z.log2_nonneg n). pose proof (Z.log2_nonneg d).
    destruct (pow2_le (Z.log2 n - Z.log2 d + 1) n d) eqn:Hu; [|reflexivity].
    apply (pow2_le_shift _ n d (Z.log2 d)) in Hu; [|lia|lia].
    replace (Z.log2 d + (Z.log2 n - Z.log2 d + 1)) with (Z.succ (Z.log2 n)) in Hu
      by lia.
    nia.
  - replace (Z.log2 n - Z.log2 d - 1 + 1) with (Z.log2 n - Z.log2 d) by lia.
    exact Hl.
Qed.

Lemma binade_ge (n d : Z) : Z.log2 n - Z.log2 d - 1 <= binade n d.
Proof. unfold binade. destruct (pow2_le _ n d); lia. Qed.

(** A number in the normal range whose binade lies below [2^52]. *)
Lemma round_ne_normal (n d : Z) :
  0 < n -> 0 < d ->
  -1022 <= binade n d -> binade n d <= 51 ->
  let k := 52 - binade n d in
  exists m,
    round_ne n d = Finite m (- k)
    /\ d * 2 ^ 52 <= n * 2 ^ k < d * 2 ^ 53
    /\ - d <= 2 * (m * d - n * 2 ^ k) <= d.
Proof.
  intros Hn Hd Hlo Hhi k.
  assert (Hk : 0 < k) by (unfold k; lia).
  pose proof (binade_lower n d Hn Hd) as Hl.
  pose proof (binade_upper n d Hn Hd) as Hu.
  apply (pow2_le_shift _ n d k) in Hl; [|lia|unfold k; lia].
  assert (Hu' : ~ d * 2 ^ (k + (binade n d + 1)) <= n * 2 ^ k).
  { intros Hx. apply (pow2_le_shift _ n d k) in Hx; [congruence|lia|unfold k; lia]. }
  replace (k + binade n d) with 52 in Hl by (unfold k; lia).
  replace (k + (binade n d + 1)) with 53 in Hu' by (unfold k; lia).
  unfold round_ne. destruct (Z.eqb_spec n 0) as [->|_]; [lia|].
  replace (Z.max (binade n d - 52) (-1074)) with (- k) by (unfold k; lia).
  unfold scale. destruct (Z.leb_spec 0 (- k)) as [Hneg|_]; [lia|].
  replace (- - k) with k by lia. simpl andb.
  pose proof (Z.div_mod (n * 2 ^ k) d ltac:(lia)) as Hdm.
  pose proof (Z.mod_pos_bound (n * 2 ^ k) d Hd) as Hr.
  set (q := n * 2 ^ k / d) in *. set (r := (n * 2 ^ k) mod d) in *.
  eexists. split; [reflexivity|]. split; [lia|].
  destruct (Z.compare_spec (2 * r) d) as [Hc|Hc|Hc];
    [destruct (Z.even q)| |]; lia.
Qed.

Lemma mul_finite_neg (m1 k1 m2 k2 : Z) :
  0 < k1 + k2 ->
  mul (Finite m1 (- k1)) (Finite m2 (- k2))
  = round_ne (m1 * m2) (2 ^ (k1 + k2)).
Proof.
  intros Hk. unfold mul. destruct (Z.leb_spec 0 (- k1 + - k2)) as [Hx|Hx]; [lia|].
  replace (- (- k1 + - k2)) with (k1 + k2) by lia. reflexivity.
Qed.

Lemma ceil_finite_neg (m k j : Z) :
  0 < k -> (j - 1) * 2 ^ k < m <= j * 2 ^ k ->
  ceil (Finite m (- k)) = Ok j.
Proof.
  intros Hk Hm. unfold ceil. destruct (Z.leb_spec 0 (- k)) as [Hx|_]; [lia|].
  replace (- - k) with k by lia. f_equal.
  pose proof (pow2_pos k ltac:(lia)) as HB.
  assert (Hq : - m / 2 ^ k = - j); [|lia].
  symmetry. apply (Z.div_unique_pos _ _ _ (j * 2 ^ k - m)); lia.
Qed.

(** A nearest binary64 number exists below [2^1023]: no overflow. *)
Lemma round_ne_finite (n d : Z) :
  0 < n -> 0 < d -> n < d * 2 ^ 1023 ->
  exists m e, round_ne n d = Finite m e.
Proof.
  intros Hn Hd Hlt. unfold round_ne.
  destruct (Z.eqb_spec n 0) as [->|_]; [lia|].
  pose proof (binade_lower n d Hn Hd) as Hl.
  pose proof (binade_upper n d Hn Hd) as Hu.
  set (b := binade n d) in *. clearbody b.
  set (e := Z.max (b - 52) (-1074)).
  destruct (Z.leb_spec 0 e) as [He|He].
  - assert (Hb : 52 <= b) by (unfold e in He; lia).
    assert (Hee : e = b - 52) by (unfold e; lia).
    apply (pow2_le_shift _ n d 0) in Hl; [|lia|lia].
    assert (Hu' : ~ d * 2 ^ (0 + (b + 1)) <= n * 2 ^ 0).
    { intros Hx. apply (pow2_le_shift _ n d 0) in Hx; [congruence|lia|lia]. }
    rewrite Z.pow_0_r, Z.mul_1_r in Hl, Hu'. rewrite Z.add_0_l in Hl, Hu'.
    assert (Hb' : b < 1023).
    { destruct (Z.lt_ge_cases b 1023) as [Hx|Hx]; [exact Hx|].
      pose proof (Z.pow_le_mono_r 2 1023 b ltac:(lia) Hx) as Hp.
      pose proof (Z.mul_le_mono_nonneg_l _ _ d ltac:(lia) Hp). lia. }
    unfold scale. destruct (Z.leb_spec 0 e) as [_|Hx]; [|lia].
    pose proof (pow2_pos e He) as Hpe.
    assert (Hsp : 2 ^ (b + 1) = 2 ^ e * 2 ^ 53).
    { rewrite <- pow2_split by lia. f_equal. lia. }
    pose proof (Z.div_mod n (d * 2 ^ e) ltac:(lia)) as Hdm.
    pose proof (Z.mod_pos_bound n (d * 2 ^ e) ltac:(lia)) as Hr.
    set (q := n / (d * 2 ^ e)) in *. set (r := n mod (d * 2 ^ e)) in *.
    assert (Hq : q < 2 ^ 53).
    { destruct (Z.lt_ge_cases q (2 ^ 53)) as [Hx|Hx]; [exact Hx|].
      pose proof (Z.mul_le_mono_nonneg_l _ _ (d * 2 ^ e) ltac:(lia) Hx).
      rewrite Hsp in Hu'. lia. }
    match goal with
    | |- context [if ?t then Inf else Finite ?m e] =>
        assert (Hm : m <= 2 ^ 53)
          by (destruct (2 * r ?= d * 2 ^ e); [destruct (Z.even q)| |]; lia);
        destruct t eqn:Ht; [|eauto]
    end.
    exfalso. apply andb_true_iff in Ht as [_ Ht]. apply Z.leb_le in Ht.
    match type of Hm with ?m <= _ =>
      pose proof (Z.mul_le_mono_nonneg_r _ _ (2 ^ e) ltac:(lia) Hm) as Hme
    end.
    assert (Hpw : 2 ^ 53 * 2 ^ e <= 2 ^ 1023).
    { rewrite <- pow2_split by lia. apply Z.pow_le_mono_r; lia. }
    assert (Hpp : 2 ^ 1023 < 2 ^ 1024) by (apply Z.pow_lt_mono_r; lia).
    lia.
  - destruct (scale n d e) as [a b0].
    destruct (Z.leb_spec 0 e) as [Hx|_]; [lia|]. simpl. eauto.
Qed.

(** A rounded number is at most twice the number it rounds. *)
Lemma round_ne_at_most_twice (n d m e : Z) :
  0 < n -> 0 < d -> round_ne n d = Finite m e ->
  0 <= m
  /\ (0 <= e -> m * 2 ^ e * d <= 2 * n)
  /\ (e < 0 -> m * d <= 2 * (n * 2 ^ (- e))).
Proof.
  intros Hn Hd. unfold round_ne.
  destruct (Z.eqb_spec n 0) as [->|_]; [lia|].
  set (e0 := Z.max (binade n d - 52) (-1074)). clearbody e0.
  unfold scale. destruct (Z.leb_spec 0 e0) as [He|He].
  - pose proof (pow2_pos e0 He) as Hp.
    pose proof (Z.div_mod n (d * 2 ^ e0) ltac:(lia)) as Hdm.
    pose proof (Z.mod_pos_bound n (d * 2 ^ e0) ltac:(lia)) as Hr.
    pose proof (Z.div_pos n (d * 2 ^ e0) ltac:(lia) ltac:(lia)) as Hq.
    set (q := n / (d * 2 ^ e0)) in *. set (r := n mod (d * 2 ^ e0)) in *.
    match goal with
    | |- (if ?t then _ else _) = _ -> _ => destruct t; [discriminate|]
    end.
    intros [= <- <-]. split; [|split; [intros _|lia]].
    + destruct (Z.compare_spec (2 * r) (d * 2 ^ e0)); [destruct (Z.even q)| |]; lia.
    + destruct (Z.compare_spec (2 * r) (d * 2 ^ e0)) as [Hc|Hc|Hc];
        [destruct (Z.even q)| |]; nia.
  - pose proof (pow2_pos (- e0) ltac:(lia)) as Hp.
    pose proof (Z.div_mod (n * 2 ^ (- e0)) d ltac:(lia)) as Hdm.
    pose proof (Z.mod_pos_bound (n * 2 ^ (- e0)) d ltac:(lia)) as Hr.
    pose proof (Z.div_pos (n * 2 ^ (- e0)) d ltac:(nia) ltac:(lia)) as Hq.
    set (q := n * 2 ^ (- e0) / d) in *. set (r := (n * 2 ^ (- e0)) mod d) in *.
    simpl. intros [= <- <-]. split; [|split; [lia|intros _]].
    + destruct (Z.compare_spec (2 * r) d); [destruct (Z.even q)| |]; lia.
    + destruct (Z.compare_spec (2 * r) d) as [Hc|Hc|Hc];
        [destruct (Z.even q)| |]; nia.
Qed.

(** A fifth of a finite amount is finite. *)
Lemma mul_lit_0_2_finite (n d m e : Z) :
  0 < n -> 0 < d -> n < d * 2 ^ 1023 ->
  round_ne n d = Finite m e ->
  exists m' e', mul (Finite m e) lit_0_2 = Finite m' e'.
Proof.
  intros Hn Hd Hlt Hr.
  destruct (round_ne_at_most_twice n d m e Hn Hd Hr) as (Hm & Hpos & Hneg).
  rewrite lit_0_2_eq. unfold mul.
  destruct (Z.eq_dec m 0) as [->|Hm0].
  { destruct (0 <=? e + -55); simpl; unfold round_ne; simpl; eauto. }
  set (P := 2 ^ 1023) in *.
  assert (HP : 0 < P) by (apply pow2_pos; lia).
  destruct (Z.leb_spec 0 (e + -55)) as [He|He].
  - (* a large exponent: the product is an integer *)
    specialize (Hpos ltac:(lia)).
    pose proof (pow2_pos (e + -55) He) as HX.
    assert (Hsp : 2 ^ e = 2 ^ (e + -55) * 2 ^ 55)
      by (rewrite <- pow2_split by lia; f_equal; lia).
    change (2 ^ 55) with 36028797018963968 in Hsp.
    assert (Hme : m * 2 ^ e < 2 * P).
    { apply (Z.mul_lt_mono_pos_r d); [exact Hd|]. lia. }
    rewrite Hsp in Hme.
    apply round_ne_finite; [nia|lia|].
    fold P. nia.
  - replace (- (e + -55)) with (55 - e) by lia.
    pose proof (pow2_pos (55 - e) ltac:(lia)) as HZ.
    apply round_ne_finite; [lia|lia|]. fold P.
    destruct (Z.le_gt_cases 0 e) as [He0|He0].
    + specialize (Hpos He0).
      pose proof (pow2_pos e He0) as HY.
      assert (Hsp : 2 ^ (55 - e) * 2 ^ e = 2 ^ 55)
        by (rewrite <- pow2_split by lia; f_equal; lia).
      change (2 ^ 55) with 36028797018963968 in Hsp.
      assert (Hme : m * 2 ^ e < 2 * P).
      { apply (Z.mul_lt_mono_pos_r d); [exact Hd|]. lia. }
      apply (Z.mul_lt_mono_pos_r (2 ^ e)); [exact HY|].
      replace (2 ^ (55 - e) * P * 2 ^ e) with (2 ^ (55 - e) * 2 ^ e * P) by ring.
      rewrite Hsp. nia.
    + specialize (Hneg He0).
      pose proof (pow2_pos (- e) ltac:(lia)) as HY.
      assert (Hsp : 2 ^ (55 - e) = 2 ^ 55 * 2 ^ (- e))
        by (rewrite <- pow2_split by lia; f_equal; lia).
      change (2 ^ 55) with 36028797018963968 in Hsp.
      assert (Hme : m < 2 * P * 2 ^ (- e)).
      { apply (Z.mul_lt_mono_pos_r d); [exact Hd|]. nia. }
      rewrite Hsp. nia.
Qed.

End Float64Facts.

(** ** A normalized date parses again *)

Module RoundTrip.
Import PyStr Re Datetime PyStrFacts ReFacts DatetimeFacts ModelsFacts.

Lemma strip_four_digits (a b c d : ascii) :
  isdecimal a = true -> isdecimal b = true ->
  isdecimal c = true -> isdecimal d = true ->
  strip (String a (String b (String c (String d EmptyString))))
  = String a (String b (String c (String d EmptyString))).
Proof.
  intros Ha Hb Hc Hd. unfold strip. simpl lstrip.
  rewrite (isdecimal_not_space _ Ha).
  assert (H1 : rstrip (String d EmptyString) = String d EmptyString)
    by apply rstrip_single, isdecimal_not_space, Hd.
  assert (H2 : rstrip (String c (String d EmptyString))
               = String c (String d EmptyString))
    by (rewrite rstrip_cons_keep; rewrite H1; congruence).
  assert (H3 : rstrip (String b (String c (String d EmptyString)))
               = String b (String c (String d EmptyString)))
    by (rewrite rstrip_cons_keep; rewrite H2; congruence).
  rewrite rstrip_cons_keep; rewrite H3; congruence.
Qed.

Lemma re_Y_four_digits (a b c d : ascii) (rest : string) :
  isdecimal a = true -> isdecimal b = true ->
  isdecimal c = true -> isdecimal d = true ->
  re_Y (String a (String b (String c (String d rest))))
  = [(String a (String b (String c (String d EmptyString))), rest)].
Proof.
  intros Ha Hb Hc Hd. unfold re_Y, seq, digit, chr.
  rewrite Ha. simpl. rewrite Hb. simpl. rewrite Hc. simpl. rewrite Hd.
  reflexivity.
Qed.

Lemma int_of_pad4 (y : Z) :
  0 <= y <= 9999 -> int_of_group (pad4 y) = y.
Proof.
  intros Hy. unfold int_of_group, pad4, pad2.
  rewrite strip_four_digits by apply isdecimal_digit_char.
  unfold int_of_digits. simpl. rewrite !digit_val_digit_char.
  Z.div_mod_to_equations. lia.
Qed.

(** Case analysis on a natural number bounded by a hypothesis. *)
Ltac enum_nat n :=
  first [ exfalso; lia | destruct n as [|n]; [|enum_nat n] ].

(** After the year: the month and the day of a date, written with two
    digits each, are read back as they are. *)
Lemma month_day_read_back (m d : nat) (acc : datetime) :
  (1 <= m <= 12)%nat -> (1 <= d <= 31)%nat ->
  hd_error
    (match_format "-%m-%d" acc
       ("-" +:+ pad2 (Z.of_nat m) +:+ "-" +:+ pad2 (Z.of_nat d)))
  = Some (mk_datetime (year acc) (Z.of_nat m) (Z.of_nat d)
            (hour acc) (minute acc), EmptyString).
Proof.
  intros Hm Hd. destruct acc as [y0 m0 d0 h0 mi0].
  enum_nat m; try (exfalso; lia); enum_nat d; try (exfalso; lia);
    vm_compute; reflexivity.
Qed.

Lemma strptime_strftime (d : datetime) :
  check_date d = Ok d -> hour d = 0 -> minute d = 0 ->
  strptime (strftime pad4 d "%Y-%m-%d") "%Y-%m-%d" = Ok d.
Proof.
  intros Hc Hh Hmin. destruct (check_date_Ok _ _ Hc) as (_ & Hy & Hm & Hd).
  assert (Hd31 : 1 <= day d <= 31).
  { unfold days_in_month in Hd.
    repeat match type of Hd with
      | context [if ?b then _ else _] => destruct b
      end; lia. }
  rewrite strftime_Ymd. unfold strptime.
  assert (Hhd : hd_error
            (match_format "%Y-%m-%d" defaults
               (pad4 (year d) +:+ "-" +:+ pad2 (month d) +:+ "-" +:+ pad2 (day d)))
          = Some (d, EmptyString)).
  { unfold pad4 at 1. unfold pad2 at 1.
    change (match_format "%Y-%m-%d" defaults ?s)
      with (flat_map (fun '(g, s') =>
                        match_format "-%m-%d"
                          (set_field "Y" (int_of_group g) defaults) s')
              (re_Y s)).
    cbv [String.append].
    rewrite re_Y_four_digits by apply isdecimal_digit_char.
    cbn [flat_map]. rewrite app_nil_r.
    fold (pad2 (year d)). fold (pad4 (year d)).
    rewrite int_of_pad4 by lia.
    replace (month d) with (Z.of_nat (Z.to_nat (month d))) by lia.
    replace (day d) with (Z.of_nat (Z.to_nat (day d))) by lia.
    rewrite (month_day_read_back (Z.to_nat (month d)) (Z.to_nat (day d)))
      by lia.
    destruct d as [y m dd h mi]. simpl in *. subst h mi.
    rewrite !Z2Nat.id by lia. reflexivity. }
  destruct (match_format "%Y-%m-%d" defaults _) as [|[t rest] l];
    [discriminate|].
  injection Hhd as -> ->. simpl. exact Hc.
Qed.

End RoundTrip.

(** ** Scoring a validated receipt *)

Module ValidatedScoring.
Import PyStr Datetime Float64 Models Main Rules.
Import PyStrFacts DatetimeFacts ModelsFacts MoneyFacts Float64Facts RoundTrip
  RulesFacts.

Lemma valid_price_Ok (v p : string) :
  valid_price v = Ok p -> p = v /\ Spec.money_shape v.
Proof.
  unfold valid_price.
  destruct (Re.fullmatch money_pattern v) eqn:Hm; simpl; [|discriminate].
  intros [= <-]. split; [reflexivity|]. apply money_pattern_shape, Hm.
Qed.

Lemma valid_total_Ok (v p : string) :
  valid_total v = Ok p -> p = v /\ Spec.money_shape v.
Proof.
  unfold valid_total.
  destruct (Re.fullmatch money_pattern v) eqn:Hm; simpl; [|discriminate].
  intros [= <-]. split; [reflexivity|]. apply money_pattern_shape, Hm.
Qed.

Lemma valid_time_Ok (v t : string) :
  valid_time v = Ok t -> t = v /\ exists dt, strptime v "%H:%M" = Ok dt.
Proof.
  rewrite valid_time_cases.
  destruct (strptime v "%H:%M") as [dt|e]; [|discriminate].
  intros [= <-]. eauto.
Qed.

Lemma strptime_date_midnight (v : string) (sep : ascii) (d : datetime) :
  sep = "-"%char \/ sep = "/"%char ->
  strptime v (fmt_Ymd sep) = Ok d -> hour d = 0 /\ minute d = 0.
Proof.
  intros Hsep H. apply strptime_Ok in H as [H _].
  apply (in_match_format_Ymd sep) in H as (gY & s1 & gm & s2 & gd & _ & _ & _ & ->);
    [|exact Hsep].
  split; reflexivity.
Qed.

(** With [%Y] zero filled, what [valid_date] stores parses under
    [%Y-%m-%d], to the date that was parsed from the submission. *)
Lemma valid_date_reparses (fmt_year : Z -> string) (v s : string) :
  (forall y, 1 <= y <= 9999 -> fmt_year y = pad4 y) ->
  valid_date fmt_year v = Ok s ->
  exists d, strptime s "%Y-%m-%d" = Ok d.
Proof.
  intros Hpad. rewrite valid_date_cases.
  assert (Hre : forall sep d,
             sep = "-"%char \/ sep = "/"%char ->
             strptime v (fmt_Ymd sep) = Ok d ->
             strptime (strftime fmt_year d "%Y-%m-%d") "%Y-%m-%d" = Ok d).
  { intros sep d Hsep Hd.
    destruct (strptime_date_midnight _ _ _ Hsep Hd) as [Hh Hm].
    destruct (strptime_Ok _ _ _ Hd) as [_ Hc].
    destruct (check_date_Ok _ _ Hc) as (_ & Hy & _).
    rewrite strftime_Ymd, (Hpad _ Hy), <- strftime_Ymd.
    apply strptime_strftime; assumption. }
  destruct (strptime v "%Y-%m-%d") as [d|e] eqn:H1.
  - intros [= <-]. exists d. apply (Hre "-"%char); auto.
  - destruct (strptime v "%Y/%m/%d") as [d|e'] eqn:H2; [|discriminate].
    intros [= <-]. exists d. apply (Hre "/"%char); auto.
Qed.

(** Every parse that [calculate_points] makes of a validated receipt
    succeeds: [float] of the total and of each price, [strptime] of the
    time, and, where [%Y] is zero filled, [strptime] of the date. *)
Theorem validated_receipt_parses (pf : Platform) (body : RawReceipt)
    (r : Receipt) :
  validate_Receipt pf body = inl r ->
  returns (of_str (total r)) = true
  /\ Forall (fun item => returns (of_str (price item)) = true) (items r)
  /\ returns (strptime (purchaseTime r) "%H:%M") = true
  /\ ((forall y, 1 <= y <= 9999 -> fmt_year pf y = pad4 y) ->
      returns (strptime (purchaseDate r) "%Y-%m-%d") = true).
Proof.
  intros Hv. pose proof (validate_Receipt_cases pf body) as Hc.
  rewrite Hv in Hc. destruct Hc as (_ & _ & _ & Hd & Ht & Hi & Htot).
  repeat split.
  - apply valid_total_Ok in Htot as [-> Hs].
    destruct (of_str_money _ Hs) as [_ ->]. reflexivity.
  - clear -Hi. induction Hi as [|raw item raws its Hok _ IH]; constructor;
      [|exact IH].
    destruct Hok as (_ & _ & Hp). apply valid_price_Ok in Hp as [-> Hs].
    destruct (of_str_money _ Hs) as [_ ->]. reflexivity.
  - apply valid_time_Ok in Ht as [-> [dt ->]]. reflexivity.
  - intros Hpad. destruct (valid_date_reparses _ _ _ Hpad Hd) as [d ->].
    reflexivity.
Qed.

Lemma item_step_raises (points : Z) (item : Item) (e : exn) :
  returns (of_str (price item)) = true ->
  item_step points item = Raise e ->
  len (strip (shortDescription item)) mod 3 = 0
  /\ e = OverflowError "cannot convert float infinity to integer"
  /\ exists p, of_str (price item) = Ok p /\ mul p lit_0_2 = Inf.
Proof.
  unfold item_step. intros Hret.
  destruct (Z.eqb_spec (len (strip (shortDescription item)) mod 3) 0)
    as [H3|H3]; [|discriminate].
  destruct (of_str (price item)) as [p|e'] eqn:Hp; [|discriminate].
  unfold_bind.
  assert (Hnan : mul p lit_0_2 <> NaN).
  { apply mul_lit_0_2_not_NaN. unfold of_str in Hp.
    destruct (split_point (price item)) as [[i f]|]; [|discriminate].
    destruct (_ && _); [|discriminate].
    injection Hp as <-. apply round_ne_not_NaN. }
  destruct (mul p lit_0_2) as [m ex| |] eqn:Hmul; simpl;
    [discriminate| |congruence].
  intros [= <-]. repeat split; [exact H3|]. exists p. auto.
Qed.

Lemma for_items_raises (its : list Item) (points : Z) (e : exn) :
  for_items its points = Raise e ->
  exists item points', In item its /\ item_step points' item = Raise e.
Proof.
  revert points. induction its as [|item rest IH]; intros points; simpl;
    [discriminate|].
  destruct (item_step points item) as [points'|e'] eqn:Hs; unfold_bind.
  - intros H. destruct (IH _ H) as (it & pts & Hin & Hst).
    exists it, pts. auto.
  - intros [= <-]. exists item, points. auto.
Qed.

(** On a validated receipt, with [%Y] zero filled, [calculate_points] can
    raise in one place only: [math.ceil], on the infinity that an item
    price beyond the range of binary64 becomes. *)
Theorem scoring_raises_only_at_ceil (pf : Platform) (body : RawReceipt)
    (r : Receipt) (e : exn) :
  (forall y, 1 <= y <= 9999 -> fmt_year pf y = pad4 y) ->
  validate_Receipt pf body = inl r ->
  calculate_points r = Raise e ->
  e = OverflowError "cannot convert float infinity to integer"
  /\ exists item p,
       In item (items r)
       /\ len (strip (shortDescription item)) mod 3 = 0
       /\ of_str (price item) = Ok p
       /\ mul p lit_0_2 = Inf.
Proof.
  intros Hpad Hv.
  destruct (validated_receipt_parses pf body r Hv) as (Htot & Hit & Ht & Hd).
  specialize (Hd Hpad). unfold calculate_points.
  destruct (of_str (total r)) as [x|?]; [|discriminate]. unfold_bind.
  destruct (for_items (items r) _) as [pts|e'] eqn:Hfor.
  - destruct (strptime (purchaseDate r) _) as [d|?]; [|discriminate].
    destruct (strptime (purchaseTime r) _) as [t|?]; [|discriminate].
    discriminate.
  - intros [= <-]. apply for_items_raises in Hfor as (item & pts & Hin & Hst).
    pose proof (proj1 (List.Forall_forall _ _) Hit item Hin) as Hret.
    destruct (item_step_raises _ _ _ Hret Hst) as (H3 & -> & p & Hp & Hmul).
    split; [reflexivity|]. exists item, p. auto.
Qed.

End ValidatedScoring.

(** ** Rule 5 is exact on amounts below [10^13] dollars *)

Module ExactCeiling.
Import PyStr Float64 Models Main Rules.
Import Float64Facts MoneyFacts ModelsFacts ValidatedScoring.

(** The core inequalities, on integers: [A] and [B] stand for the powers of
    two that scale the two roundings. *)
Lemma ceil_fifth_core (c m1 m2 A B j : Z) :
  0 < c < 10 ^ 15 -> 0 < A -> 0 < B ->
  100 * 2 ^ 52 <= c * A < 100 * 2 ^ 53 ->
  - 100 <= 2 * (m1 * 100 - c * A) <= 100 ->
  A * 2 ^ 55 * 2 ^ 52 <= m1 * 7205759403792794 * B < A * 2 ^ 55 * 2 ^ 53 ->
  - (A * 2 ^ 55) <= 2 * (m2 * (A * 2 ^ 55) - m1 * 7205759403792794 * B)
     <= A * 2 ^ 55 ->
  500 * (j - 1) < c <= 500 * j ->
  (j - 1) * B < m2 <= j * B.
Proof.
  intros Hc HA HB F1 F2 F3 F4 Hj.
  change (2 ^ 52) with 4503599627370496 in *.
  change (2 ^ 53) with 9007199254740992 in *.
  change (2 ^ 55) with 36028797018963968 in *.
  change (10 ^ 15) with 1000000000000000 in *.
  destruct (Z.eq_dec c (500 * j)) as [Heq|Hne].
  - (* the amount is a multiple of five dollars: both roundings are exact *)
    subst c.
    assert (Hm1 : m1 = 5 * (j * A)) by lia. subst m1.
    assert (F3' : j * B * 36028797018963970 < 9007199254740992 * 36028797018963968).
    { apply (Z.mul_lt_mono_pos_r A); [exact HA|]. lia. }
    assert (F4' : - 36028797018963968
                  <= 2 * (m2 * 36028797018963968 - j * B * 36028797018963970)
                  <= 36028797018963968).
    { split; apply (Z.mul_le_mono_pos_r _ _ A); try exact HA; lia. }
    lia.
  - assert (Ha : 9007199254740992 * (m2 * A) * 36028797018963968
                 <= m1 * 7205759403792794 * B * 9007199254740993) by lia.
    assert (Ha' : m1 * 7205759403792794 * B * 9007199254740991
                  <= 9007199254740992 * (m2 * A) * 36028797018963968) by lia.
    assert (Hb : 9007199254740992 * (100 * m1) <= c * A * 9007199254740993) by lia.
    assert (Hb' : c * A * 9007199254740991 <= 9007199254740992 * (100 * m1)) by lia.
    assert (Hm1 : 0 < m1) by lia.
    assert (Hup : 9007199254740992 * 9007199254740992 * 100 * 36028797018963968 * m2
                  <= c * B * (7205759403792794 * 9007199254740993 * 9007199254740993)).
    { apply (Z.mul_le_mono_pos_r _ _ A); [exact HA|].
      pose proof (Z.mul_le_mono_nonneg_r _ _ (7205759403792794 * B * 9007199254740993)
                    ltac:(lia) Hb) as Hx.
      lia. }
    assert (Hlo : c * B * (7205759403792794 * 9007199254740991 * 9007199254740991)
                  <= 9007199254740992 * 9007199254740992 * 100 * 36028797018963968 * m2).
    { apply (Z.mul_le_mono_pos_r _ _ A); [exact HA|].
      pose proof (Z.mul_le_mono_nonneg_r _ _ (7205759403792794 * B * 9007199254740991)
                    ltac:(lia) Hb') as Hx.
      lia. }
    split.
    + assert (Hc1 : (100 * (j - 1) * (9007199254740992 * 9007199254740992 * 36028797018963968) + 1)
                    <= c * (7205759403792794 * 9007199254740991 * 9007199254740991)) by lia.
      pose proof (Z.mul_le_mono_nonneg_r _ _ B ltac:(lia) Hc1) as Hx.
      lia.
    + assert (Hc2 : c * (7205759403792794 * 9007199254740993 * 9007199254740993)
                    <= 100 * j * (9007199254740992 * 9007199254740992 * 36028797018963968)) by lia.
      pose proof (Z.mul_le_mono_nonneg_r _ _ B ltac:(lia) Hc2) as Hx.
      lia.
Qed.

Lemma ceil_div_spec (c j : Z) :
  j = Spec.ceil_div c 500 -> 500 * (j - 1) < c <= 500 * j.
Proof. unfold Spec.ceil_div. intros ->. Z.div_mod_to_equations. lia. Qed.

Lemma mul_lit_0_2 (m k : Z) :
  0 <= k ->
  mul (Finite m (- k)) lit_0_2 = round_ne (m * 7205759403792794) (2 ^ (k + 55)).
Proof.
  intros Hk. rewrite lit_0_2_eq. unfold mul.
  destruct (Z.leb_spec 0 (- k + -55)) as [Hx|Hx]; [lia|].
  replace (- (- k + -55)) with (k + 55) by lia. reflexivity.
Qed.

(** Below [10^13] dollars the binary64 computation of rule 5 is exact. *)
Theorem ceil_fifth_exact (c : Z) :
  0 <= c < 10 ^ 15 ->
  ceil (mul (round_ne c 100) lit_0_2) = Ok (Spec.ceil_div c 500).
Proof.
  intros Hc. destruct (Z.eq_dec c 0) as [->|Hc0]; [vm_compute; reflexivity|].
  assert (Hpos : 0 < c) by lia.
  (* the first rounding *)
  pose proof (binade_ge c 100) as Hb1lo.
  change (Z.log2 100) with 6 in Hb1lo.
  pose proof (Z.log2_nonneg c) as Hlc.
  assert (Hb1hi : binade c 100 <= 43).
  { pose proof (binade_lower c 100 Hpos ltac:(lia)) as Hl.
    apply (pow2_le_shift _ c 100 7) in Hl; [|lia|lia].
    destruct (Z.le_gt_cases (binade c 100) 43) as [Hle|Hgt]; [exact Hle|].
    pose proof (Z.pow_le_mono_r 2 51 (7 + binade c 100) ltac:(lia) ltac:(lia)) as Hp.
    change (2 ^ 51) with 2251799813685248 in Hp.
    change (2 ^ 7) with 128 in Hl. change (10 ^ 15) with 1000000000000000 in Hc.
    lia. }
  destruct (round_ne_normal c 100 Hpos ltac:(lia) ltac:(lia) ltac:(lia))
    as (m1 & -> & F1 & F2).
  set (k1 := 52 - binade c 100) in *.
  assert (Hk1 : 9 <= k1 <= 59) by (unfold k1; lia).
  pose proof (pow2_pos k1 ltac:(lia)) as HA.
  (* the product and the second rounding *)
  rewrite mul_lit_0_2 by lia.
  change (2 ^ 52) with 4503599627370496 in F1.
  change (2 ^ 53) with 9007199254740992 in F1.
  assert (Hm1 : 4503599627370496 <= m1 <= 9007199254740992) by lia.
  set (n2 := m1 * 7205759403792794).
  set (d2 := 2 ^ (k1 + 55)).
  assert (Hn2 : 2 ^ 104 <= n2 < 2 ^ 106).
  { unfold n2. change (2 ^ 104) with (4503599627370496 * 4503599627370496).
    change (2 ^ 106) with (9007199254740992 * 9007199254740992). lia. }
  assert (Hd2 : 0 < d2) by (apply pow2_pos; lia).
  assert (Hd2' : d2 = 2 ^ k1 * 2 ^ 55) by (apply pow2_split; lia).
  pose proof (binade_ge n2 d2) as Hb2lo.
  pose proof (binade_lower n2 d2 ltac:(lia) Hd2) as Hl.
  pose proof (fun Hlo Hhi => round_ne_normal n2 d2 ltac:(lia) Hd2 Hlo Hhi) as Hr.
  cbv zeta in Hr.
  set (b2 := binade n2 d2) in *. clearbody b2.
  assert (Hln2 : 104 <= Z.log2 n2).
  { rewrite <- (Z.log2_pow2 104) by lia. apply Z.log2_le_mono. lia. }
  assert (Hld2 : Z.log2 d2 = k1 + 55) by (apply Z.log2_pow2; lia).
  assert (Hb2hi : b2 <= 51).
  { apply (pow2_le_shift _ n2 d2 11) in Hl; [|lia|lia].
    destruct (Z.le_gt_cases b2 51) as [Hle|Hgt]; [exact Hle|].
    pose proof (Z.pow_le_mono_r 2 63 (11 + b2) ltac:(lia) ltac:(lia)) as Hp.
    pose proof (Z.pow_le_mono_r 2 9 k1 ltac:(lia) ltac:(lia)) as Hp1.
    rewrite Hd2' in Hl.
    change (2 ^ 63) with 9223372036854775808 in Hp.
    change (2 ^ 9) with 512 in Hp1. change (2 ^ 11) with 2048 in Hl.
    change (2 ^ 55) with 36028797018963968 in Hl.
    change (2 ^ 106) with 81129638414606681695789005144064 in Hn2.
    assert (Hx : 512 * 36028797018963968 * 9223372036854775808
                 <= 2 ^ k1 * 36028797018963968 * 2 ^ (11 + b2))
      by (apply Z.mul_le_mono_nonneg; lia).
    lia. }
  destruct (Hr ltac:(lia) Hb2hi) as (m2 & -> & F3 & F4).
  set (k2 := 52 - b2) in *.
  assert (Hk2 : 0 < k2) by (unfold k2; lia).
  pose proof (pow2_pos k2 ltac:(lia)) as HB.
  apply ceil_finite_neg; [exact Hk2|].
  rewrite Hd2' in F3, F4. unfold n2 in F3, F4.
  apply (ceil_fifth_core c m1 m2 (2 ^ k1) (2 ^ k2));
    auto using ceil_div_spec; lia.
Qed.

(** On an item whose trimmed description has a length divisible by three
    and whose price is an amount below [10^13] dollars, the engine adds
    exactly [ceil (price_cents / 500)]. *)
Theorem description_points_exact (item : Item) :
  Spec.money_shape (price item) ->
  Spec.price_cents (price item) < 10 ^ 15 ->
  len (strip (shortDescription item)) mod 3 = 0 ->
  description_points item = Ok (Spec.exact_description_points (price item)).
Proof.
  intros Hs Hlt H3. unfold description_points, item_step.
  rewrite H3. simpl. destruct (of_str_money _ Hs) as [Hc ->]. unfold_bind.
  rewrite ceil_fifth_exact by lia. reflexivity.
Qed.

(** Rule 5 on a validated receipt whose prices are all below [10^13]
    dollars: the loop over the items adds what the rule on cents says. *)
Theorem descriptions_points_exact (pf : Platform) (body : RawReceipt)
    (r : Receipt) :
  validate_Receipt pf body = inl r ->
  Forall (fun item => Spec.price_cents (price item) < 10 ^ 15) (items r) ->
  descriptions_points (items r) = Ok (Spec.exact_descriptions_points (items r)).
Proof.
  intros Hv Hall.
  pose proof (validate_Receipt_cases pf body) as Hc. rewrite Hv in Hc.
  destruct Hc as (_ & _ & _ & _ & _ & Hi & _).
  revert Hall. generalize (raw_items body) (items r) Hi. clear.
  intros raws its Hi.
  induction Hi as [|raw item raws its Hok _ IH]; intros Hall; [reflexivity|].
  apply Forall_cons in Hall as [Hlt Hall]. specialize (IH Hall).
  unfold descriptions_points in *. simpl.
  rewrite RulesFacts.item_step_acc.
  destruct Hok as (_ & Hd & Hp). apply valid_price_Ok in Hp as [Heq Hs].
  rewrite <- Heq in Hs. cbv beta in Hlt.
  assert (Hn : 0 < len (strip (shortDescription item))).
  { unfold description_not_empty in Hd.
    destruct (strip (raw_shortDescription raw)) as [|c s] eqn:Hst;
      [discriminate|].
    injection Hd as <-. rewrite Hst. unfold len. simpl. lia. }
  assert (Hitem : description_points item = Ok (Spec.exact_item_points item)).
  { unfold Spec.exact_item_points.
    destruct (Z.ltb_spec 0 (len (strip (shortDescription item)))) as [_|Hx];
      [|lia]. simpl.
    destruct (Z.eqb_spec (len (strip (shortDescription item)) mod 3) 0)
      as [H3|H3].
    - apply description_points_exact; assumption.
    - unfold description_points, item_step.
      destruct (Z.eqb_spec (len (strip (shortDescription item)) mod 3) 0);
        [contradiction|reflexivity]. }
  rewrite Hitem. unfold_bind. rewrite RulesFacts.for_items_acc.
  unfold descriptions_points. rewrite IH. unfold_bind. reflexivity.
Qed.

(** X11. A validated receipt whose prices are all below [2^1023] dollars
    is scored without an exception, where [%Y] is zero filled. *)
Theorem scoring_returns_below_overflow (pf : Platform) (body : RawReceipt)
    (r : Receipt) :
  (forall y, 1 <= y <= 9999 -> fmt_year pf y = Datetime.pad4 y) ->
  validate_Receipt pf body = inl r ->
  Forall (fun item => Spec.price_cents (price item) < 100 * 2 ^ 1023) (items r) ->
  exists points, calculate_points r = Ok points.
Proof.
  intros Hpad Hv Hall.
  destruct (calculate_points r) as [points|e] eqn:Hp; [eauto|].
  destruct (scoring_raises_only_at_ceil pf body r e Hpad Hv Hp)
    as (_ & item & p & Hin & H3 & Hof & Hmul).
  pose proof (proj1 (List.Forall_forall _ _) Hall item Hin) as Hlt.
  cbv beta in Hlt.
  pose proof (validate_Receipt_cases pf body) as Hc. rewrite Hv in Hc.
  destruct Hc as (_ & _ & _ & _ & _ & Hi & _).
  assert (Hs : Spec.money_shape (price item)).
  { clear -Hi Hin. induction Hi as [|raw it raws its Hok _ IH]; [destruct Hin|].
    destruct Hin as [<-|Hin]; [|exact (IH Hin)].
    destruct Hok as (_ & _ & Hpr). apply valid_price_Ok in Hpr as [-> Hs].
    exact Hs. }
  destruct (of_str_money _ Hs) as [Hc Hof']. rewrite Hof' in Hof.
  injection Hof as <-.
  destruct (Z.eq_dec (Spec.price_cents (price item)) 0) as [H0|H0].
  - rewrite H0 in Hmul. vm_compute in Hmul. discriminate.
  - assert (Hpos : 0 < Spec.price_cents (price item)) by lia.
    destruct (round_ne_finite (Spec.price_cents (price item)) 100)
      as (m & ex & Hfin); [exact Hpos|lia|exact Hlt|].
    destruct (mul_lit_0_2_finite _ 100 m ex Hpos ltac:(lia) Hlt Hfin)
      as (m' & e' & Hfin').
    rewrite Hfin in Hmul. congruence.
Qed.

End ExactCeiling.

(** ** Round-dollar totals *)

Module RoundDollarFacts.
Import PyStr Float64 Models Main Rules.
Import Float64Facts MoneyFacts ModelsFacts.

(** The round-dollar bonus is never awarded without the quarter-multiple
    bonus. *)
Theorem round_dollar_implies_quarter (x : float) :
  round_dollar_points x = 50 -> quarter_points x = 25.
Proof.
  unfold round_dollar_points, quarter_points.
  destruct (is_integer x) eqn:Hi; [|discriminate].
  rewrite (integer_is_quarter_multiple x Hi). reflexivity.
Qed.

(** X17. A total of whole dollars becomes an integer binary64 number and
    earns both bonuses, unless it overflows; below [2^1023] dollars it does
    not overflow. *)
Theorem round_total_bonuses (dollars : string) :
  all_decimal dollars = true -> dollars <> EmptyString ->
  exists x,
    of_str (dollars +:+ ".00") = Ok x
    /\ (x = Inf \/ (round_dollar_points x = 50 /\ quarter_points x = 25))
    /\ (int_of_digits dollars < 2 ^ 1023 ->
        round_dollar_points x = 50 /\ quarter_points x = 25).
Proof.
  intros Hall Hne.
  assert (Hs : Spec.money_shape (dollars +:+ ".00")).
  { exists dollars, "0"%char, "0"%char. repeat split; auto. }
  destruct (of_str_money _ Hs) as [Hc Hof].
  assert (Hcents : Spec.price_cents (dollars +:+ ".00")
                   = int_of_digits dollars * 100).
  { unfold Spec.price_cents. rewrite without_point_app.
    rewrite (without_point_digits _ Hall).
    change (Spec.without_point ".00") with "00".
    rewrite int_of_digits_app. change (len "00") with 2.
    change (int_of_digits "00") with 0. lia. }
  rewrite Hcents in Hof, Hc.
  pose proof (int_of_digits_nonneg _ Hall) as HN.
  assert (Hboth : forall m e,
             is_integer (Finite m e) = true ->
             round_dollar_points (Finite m e) = 50
             /\ quarter_points (Finite m e) = 25).
  { intros m e Hi.
    assert (Hr : round_dollar_points (Finite m e) = 50)
      by (unfold round_dollar_points; rewrite Hi; reflexivity).
    split; [exact Hr|apply round_dollar_implies_quarter, Hr]. }
  eexists. split; [exact Hof|].
  destruct (round_ne_whole _ HN) as [Hinf|(m & e & Hfin & Hi)].
  - split; [left; exact Hinf|]. intros Hlt. exfalso.
    destruct (Z.eq_dec (int_of_digits dollars) 0) as [H0|H0].
    + rewrite H0 in Hinf. vm_compute in Hinf. discriminate.
    + destruct (round_ne_finite (int_of_digits dollars * 100) 100)
        as (m & e & Hfin); [lia|lia|lia|congruence].
  - rewrite Hfin. split; [right|intros _]; apply Hboth, Hi.
Qed.

End RoundDollarFacts.

(** ** The validators, one by one *)

Module ValidatorFacts.
Import PyStr Re Datetime Models Main Examples.
Import PyStrFacts ReFacts DatetimeFacts ModelsFacts MoneyFacts RoundTrip
  ValidatedScoring ValidationFacts.

Lemma lstrip_empty (s : string) :
  lstrip s = EmptyString <-> all_space s = true.
Proof.
  unfold all_space. induction s as [|c s IH]; simpl; [tauto|].
  destruct (isspace c); simpl; [exact IH|]. split; discriminate.
Qed.

Lemma lstrip_head (s : string) (c : ascii) (s' : string) :
  lstrip s = String c s' -> isspace c = false.
Proof.
  induction s as [|x s IH]; simpl; [discriminate|].
  destruct (isspace x) eqn:Hx; [exact IH|]. intros [= <- <-]. exact Hx.
Qed.

Lemma strip_empty (s : string) :
  is_empty (strip s) = all_space s.
Proof.
  unfold strip. destruct (lstrip s) as [|c s'] eqn:Hl.
  - simpl. symmetry. apply lstrip_empty, Hl.
  - pose proof (lstrip_head _ _ _ Hl) as Hc.
    assert (Hns : all_space s = false).
    { destruct (all_space s) eqn:Ha; [|reflexivity].
      apply lstrip_empty in Ha. congruence. }
    rewrite Hns. simpl. destruct (rstrip s'); [rewrite Hc|]; reflexivity.
Qed.

(** X2. [retailer_not_empty] and [description_not_empty] reject exactly the
    texts made of white space only (the empty text among them) and return
    every other text as it is, white space at its ends included. *)
Theorem blank_text_rejected (v : string) :
  retailer_not_empty v
  = (if all_space v
     then Raise (ValueError "Retailer cannot be empty or whitespace")
     else Ok v)
  /\ description_not_empty v
     = (if all_space v
        then Raise (ValueError "shortDescription cannot be empty or whitespace")
        else Ok v).
Proof.
  unfold retailer_not_empty, description_not_empty.
  rewrite strip_empty. split; reflexivity.
Qed.

(** X3. [valid_price] and [valid_total] accept exactly the texts made of
    one or more decimal digits, a point and two decimal digits, and return
    them as they are: the regular expression of the source says what the
    format rule says, and a sign, a space, a third decimal or a final
    newline is refused. *)
Theorem money_format_exact (v : string) :
  valid_price v
  = (if Spec.two_decimals v then Ok v
     else Raise (ValueError "Price must be in XX.XX format"))
  /\ valid_total v
     = (if Spec.two_decimals v then Ok v
        else Raise (ValueError "Total must be in XX.XX format"))
  /\ (Spec.two_decimals v = true <-> Spec.money_shape v).
Proof.
  unfold valid_price, valid_total. rewrite money_pattern_two_decimals.
  split; [|split]; [destruct (Spec.two_decimals v); reflexivity ..|].
  apply two_decimals_shape.
Qed.

(** X4. What [valid_time] accepts is a time of day, hour 0 to 23 and
    minute 0 to 59, and it is stored as submitted: unlike the date, the
    text of the time is not normalized. *)
Theorem valid_time_accepts_times_of_day (v t : string) :
  valid_time v = Ok t ->
  t = v
  /\ exists dt,
       strptime v "%H:%M" = Ok dt
       /\ 0 <= hour dt <= 23 /\ 0 <= minute dt <= 59.
Proof.
  intros H. apply valid_time_Ok in H as [-> [dt Hdt]].
  split; [reflexivity|]. exists dt. split; [exact Hdt|].
  apply (strptime_HM_range _ _ Hdt).
Qed.

Lemma valid_time_accepts_times_of_day_witness :
  valid_time "2:5" = Ok "2:5"
  /\ exists dt,
       strptime "2:5" "%H:%M" = Ok dt
       /\ 0 <= hour dt <= 23 /\ 0 <= minute dt <= 59.
Proof.
  assert (H : valid_time "2:5" = Ok "2:5") by (vm_compute; reflexivity).
  split; [exact H|].
  exact (proj2 (valid_time_accepts_times_of_day "2:5" "2:5" H)).
Defined.

Lemma valid_date_parsed (fmt_year : Z -> string) (v s : string) :
  valid_date fmt_year v = Ok s ->
  exists d,
    (strptime v "%Y-%m-%d" = Ok d \/ strptime v "%Y/%m/%d" = Ok d)
    /\ s = strftime fmt_year d "%Y-%m-%d"
    /\ check_date d = Ok d /\ hour d = 0 /\ minute d = 0.
Proof.
  rewrite valid_date_cases.
  destruct (strptime v "%Y-%m-%d") as [d|e] eqn:H1.
  - intros [= <-]. exists d.
    destruct (strptime_date_midnight v "-" d ltac:(auto) H1) as [Hh Hm].
    destruct (strptime_Ok _ _ _ H1) as [_ Hc]. auto 10.
  - destruct (strptime v "%Y/%m/%d") as [d|e'] eqn:H2; [|discriminate].
    intros [= <-]. exists d.
    destruct (strptime_date_midnight v "/" d ltac:(auto) H2) as [Hh Hm].
    destruct (strptime_Ok _ _ _ H2) as [_ Hc]. auto 10.
Qed.

(** X5. Where [%Y] is zero filled, the text [valid_date] returns parses
    under [%Y-%m-%d] to the very date that was parsed from the submitted
    text, and [valid_date] returns it unchanged when it is submitted
    again. *)
Theorem valid_date_round_trip (fmt_year : Z -> string) (v s : string) :
  (forall y, 1 <= y <= 9999 -> fmt_year y = pad4 y) ->
  valid_date fmt_year v = Ok s ->
  (exists d,
     (strptime v "%Y-%m-%d" = Ok d \/ strptime v "%Y/%m/%d" = Ok d)
     /\ strptime s "%Y-%m-%d" = Ok d)
  /\ valid_date fmt_year s = Ok s.
Proof.
  intros Hpad Hv.
  destruct (valid_date_parsed _ _ _ Hv) as (d & Hd & -> & Hc & Hh & Hm).
  destruct (check_date_Ok _ _ Hc) as (_ & Hy & _).
  assert (Hre : strptime (strftime fmt_year d "%Y-%m-%d") "%Y-%m-%d" = Ok d).
  { rewrite strftime_Ymd, (Hpad _ Hy), <- strftime_Ymd.
    apply strptime_strftime; assumption. }
  split; [exists d; auto|].
  rewrite valid_date_cases, Hre. reflexivity.
Qed.

Lemma valid_date_round_trip_witness :
  valid_date pad4 "2024/2/29" = Ok "2024-02-29"
  /\ valid_date pad4 "2024-02-29" = Ok "2024-02-29".
Proof.
  assert (H : valid_date pad4 "2024/2/29" = Ok "2024-02-29")
    by (vm_compute; reflexivity).
  split; [exact H|].
  exact (proj2 (valid_date_round_trip pad4 _ _ (fun _ _ => eq_refl) H)).
Defined.

(** X6. [valid_date] accepts real calendar dates only: the year is within
    1 to 9999, the month within 1 to 12, and the day within the length of
    that month, February having 29 days in leap years and 28 otherwise. *)
Theorem valid_date_calendar (fmt_year : Z -> string) (v s : string) :
  valid_date fmt_year v = Ok s ->
  exists d,
    (strptime v "%Y-%m-%d" = Ok d \/ strptime v "%Y/%m/%d" = Ok d)
    /\ 1 <= year d <= 9999 /\ 1 <= month d <= 12 /\ 1 <= day d <= 31
    /\ (month d = 2 -> day d <= 29)
    /\ (month d = 2 -> day d = 29 ->
        year d mod 4 = 0 /\ (year d mod 100 <> 0 \/ year d mod 400 = 0))
    /\ (month d = 4 \/ month d = 6 \/ month d = 9 \/ month d = 11 ->
        day d <= 30).
Proof.
  intros Hv.
  destruct (valid_date_parsed _ _ _ Hv) as (d & Hd & _ & Hc & _).
  destruct (check_date_Ok _ _ Hc) as (_ & Hy & Hm & Hday).
  exists d. split; [exact Hd|]. split; [exact Hy|]. split; [exact Hm|].
  unfold days_in_month, is_leap in Hday.
  destruct (Z.eqb_spec (month d) 2) as [H2|H2].
  - destruct (Z.eqb_spec (year d mod 4) 0) as [H4|H4];
      destruct (Z.eqb_spec (year d mod 100) 0) as [H100|H100];
      destruct (Z.eqb_spec (year d mod 400) 0) as [H400|H400];
      simpl in Hday; repeat split; intros; try lia; auto.
  - destruct (Z.eqb_spec (month d) 4); destruct (Z.eqb_spec (month d) 6);
      destruct (Z.eqb_spec (month d) 9); destruct (Z.eqb_spec (month d) 11);
      simpl in Hday; repeat split; intros; try lia.
Qed.

Lemma valid_date_calendar_witness :
  valid_date pad4 "2024-02-29" = Ok "2024-02-29"
  /\ returns (valid_date pad4 "2023-02-29") = false
  /\ exists d, strptime "2024-02-29" "%Y-%m-%d" = Ok d /\ day d <= 31.
Proof.
  assert (H : valid_date pad4 "2024-02-29" = Ok "2024-02-29")
    by (vm_compute; reflexivity).
  split; [exact H|]. split; [vm_compute; reflexivity|].
  destruct (valid_date_calendar pad4 _ _ H) as (d & [Hd|Hd] & _ & _ & Hday & _).
  - exists d. split; [exact Hd|lia].
  - vm_compute in Hd. discriminate.
Defined.

End ValidatorFacts.

(** ** What validation hands to scoring *)

Module SubmissionFacts.
Import PyStr Re Datetime Float64 Models Main Rules Examples.
Import PyStrFacts ReFacts DatetimeFacts ModelsFacts MoneyFacts Float64Facts
  RoundTrip ValidatedScoring ValidationFacts ValidatorFacts.

Lemma not_empty_Ok (v x : string) :
  retailer_not_empty v = Ok x \/ description_not_empty v = Ok x -> x = v.
Proof.
  unfold retailer_not_empty, description_not_empty.
  destruct (is_empty (strip v)); intros [H|H]; congruence.
Qed.



(** X7. On a validated receipt every parse of [calculate_points] succeeds
    where [%Y] is zero filled: [float] of the total and of every price
    gives the nearest binary64 number to the exact amount, [strptime] of
    the time gives a time of day, and [strptime] of the stored date gives
    the date parsed from the submission. *)
Theorem validated_fields_parse (pf : Platform) (body : RawReceipt)
    (r : Receipt) :
  (forall y, 1 <= y <= 9999 -> fmt_year pf y = pad4 y) ->
  validate_Receipt pf body = inl r ->
  of_str (total r) = Ok (round_ne (Spec.price_cents (total r)) 100)
  /\ Forall (fun item =>
               of_str (price item)
               = Ok (round_ne (Spec.price_cents (price item)) 100))
            (items r)
  /\ (exists t, strptime (purchaseTime r) "%H:%M" = Ok t
                /\ 0 <= hour t <= 23 /\ 0 <= minute t <= 59)
  /\ (exists d,
        strptime (purchaseDate r) "%Y-%m-%d" = Ok d
        /\ (strptime (raw_purchaseDate body) "%Y-%m-%d" = Ok d
            \/ strptime (raw_purchaseDate body) "%Y/%m/%d" = Ok d)).
Proof.
  intros Hpad Hv. pose proof (validate_Receipt_cases pf body) as Hc.
  rewrite Hv in Hc. destruct Hc as (_ & _ & _ & Hd & Ht & Hi & Htot).
  split; [|split; [|split]].
  - apply valid_total_Ok in Htot as [Heq Hs]. rewrite <- Heq in Hs.
    apply (of_str_money _ Hs).
  - clear -Hi. induction Hi as [|raw item raws its (_ & _ & Hp) _ IH];
      constructor; [|exact IH].
    apply valid_price_Ok in Hp as [Heq Hs]. rewrite <- Heq in Hs.
    apply (of_str_money _ Hs).
  - apply valid_time_Ok in Ht as [Heq [t Hpt]]. rewrite <- Heq in Hpt.
    exists t. split; [exact Hpt|]. apply (strptime_HM_range _ _ Hpt).
  - destruct (valid_date_parsed _ _ _ Hd) as (d & Hraw & -> & Hc & Hh & Hm).
    destruct (check_date_Ok _ _ Hc) as (_ & Hy & _).
    exists d. split; [|exact Hraw].
    rewrite strftime_Ymd, (Hpad _ Hy), <- strftime_Ymd.
    apply strptime_strftime; assumption.
Qed.

Lemma run_validator_Ok (pf : Platform) (f : string -> result string)
    (v x : string) :
  f v = Ok x -> run_validator pf f v = inl x.
Proof. unfold run_validator. intros ->. reflexivity. Qed.

Lemma constrained_Ok (pf : Platform) (n : Z) (f : string -> result string)
    (v x : string) :
  n <= len v -> f v = Ok x -> constrained pf n f v = inl x.
Proof.
  intros Hn Hf. unfold constrained.
  destruct (Z.ltb_spec (len v) n) as [Hlt|_]; [lia|].
  apply run_validator_Ok, Hf.
Qed.

Lemma validate_items_fixed (pf : Platform) (raws : list RawItem)
    (its : list Item) :
  Forall2 item_ok raws its ->
  forall i, validate_items pf i (map raw_of_Item its) = (its, []).
Proof.
  induction 1 as [|raw [sd pr] raws its (Hlen & Hd & Hp) _ IH]; intros i;
    [reflexivity|].
  simpl in Hd, Hp.
  pose proof (not_empty_Ok _ _ (or_intror Hd)) as Heq.
  pose proof (proj1 (valid_price_Ok _ _ Hp)) as Heq'. subst sd pr.
  simpl. rewrite IH. unfold validate_Item, raw_of_Item. simpl.
  rewrite (constrained_Ok pf 1 _ _ _ Hlen Hd), (run_validator_Ok pf _ _ _ Hp).
  reflexivity.
Qed.

(** X8. Where [%Y] is zero filled, validation is idempotent: the
    receipt that validation builds, submitted again field by field,
    passes validation and gives the same receipt. *)
Theorem validation_idempotent (pf : Platform) (body : RawReceipt)
    (r : Receipt) :
  (forall y, 1 <= y <= 9999 -> fmt_year pf y = pad4 y) ->
  validate_Receipt pf body = inl r ->
  validate_Receipt pf (raw_of_Receipt r) = inl r.
Proof.
  intros Hpad Hv. pose proof (validate_Receipt_cases pf body) as Hc.
  rewrite Hv in Hc. destruct Hc as (_ & Hlen & Hr & Hd & Ht & Hi & Htot).
  destruct r as [rt dt tm its tot]. simpl in Hr, Hd, Ht, Hi, Htot.
  pose proof (not_empty_Ok _ _ (or_introl Hr)) as Heqr.
  pose proof (proj1 (valid_time_Ok _ _ Ht)) as Heqt.
  pose proof (proj1 (valid_total_Ok _ _ Htot)) as Heqtot.
  assert (Hd' : valid_date (fmt_year pf) dt = Ok dt).
  { destruct (valid_date_parsed _ _ _ Hd) as (d & _ & Hs & Hc & Hh & Hm).
    destruct (check_date_Ok _ _ Hc) as (_ & Hy & _).
    rewrite valid_date_cases, Hs.
    assert (Hre : strptime (strftime (fmt_year pf) d "%Y-%m-%d") "%Y-%m-%d"
                  = Ok d).
    { rewrite strftime_Ymd, (Hpad _ Hy), <- strftime_Ymd.
      apply strptime_strftime; assumption. }
    rewrite Hre. reflexivity. }
  subst rt tm tot.
  unfold validate_Receipt, raw_of_Receipt. simpl.
  rewrite (validate_items_fixed pf _ _ Hi 0).
  rewrite (constrained_Ok pf 1 _ _ _ Hlen Hr), (run_validator_Ok pf _ _ _ Hd'),
    (run_validator_Ok pf _ _ _ Ht), (run_validator_Ok pf _ _ _ Htot).
  reflexivity.
Qed.

Lemma validation_idempotent_witness :
  validate_Receipt documented
    (mk_RawReceipt " Shop " "2022/1/2" "7:5" [mk_RawItem " ab " "1.00"] "1.00")
  = inl (mk_Receipt " Shop " "2022-01-02" "7:5" [mk_Item " ab " "1.00"] "1.00")
  /\ validate_Receipt documented
       (mk_RawReceipt " Shop " "2022-01-02" "7:5" [mk_RawItem " ab " "1.00"]
          "1.00")
     = inl (mk_Receipt " Shop " "2022-01-02" "7:5" [mk_Item " ab " "1.00"]
              "1.00").
Proof.
  assert (H : validate_Receipt documented
                (mk_RawReceipt " Shop " "2022/1/2" "7:5"
                   [mk_RawItem " ab " "1.00"] "1.00")
              = inl (mk_Receipt " Shop " "2022-01-02" "7:5"
                       [mk_Item " ab " "1.00"] "1.00"))
    by (vm_compute; reflexivity).
  split; [exact H|].
  exact (validation_idempotent documented _ _ (fun _ _ => eq_refl) H).
Defined.

Lemma validated_fields_parse_witness :
  validate_Receipt documented target_body = inl target
  /\ of_str (total target) = Ok (round_ne 3535 100)
  /\ exists d, strptime (purchaseDate target) "%Y-%m-%d" = Ok d.
Proof.
  assert (Hv : validate_Receipt documented target_body = inl target)
    by (vm_compute; reflexivity).
  split; [exact Hv|].
  destruct (validated_fields_parse documented target_body target
              (fun _ _ => eq_refl) Hv) as (Htot & _ & _ & d & Hd & _).
  split; [exact Htot|]. exists d. exact Hd.
Defined.

End SubmissionFacts.

(** ** The rules on the total, on cents *)

Module TotalFacts.
Import PyStr Float64 Models Main Rules.
Import Float64Facts MoneyFacts ModelsFacts.

(** The binary64 image of an amount of cents below [10^15]. *)
Lemma round_ne_cents (c : Z) :
  0 < c < 10 ^ 15 ->
  exists m k,
    round_ne c 100 = Finite m (- k)
    /\ 9 <= k <= 59
    /\ 100 * 2 ^ 52 <= c * 2 ^ k < 100 * 2 ^ 53
    /\ - 100 <= 2 * (m * 100 - c * 2 ^ k) <= 100.
Proof.
  intros Hc.
  pose proof (binade_ge c 100) as Hlo. change (Z.log2 100) with 6 in Hlo.
  pose proof (Z.log2_nonneg c) as Hlc.
  assert (Hhi : binade c 100 <= 43).
  { pose proof (binade_lower c 100 ltac:(lia) ltac:(lia)) as Hl.
    apply (pow2_le_shift _ c 100 7) in Hl; [|lia|lia].
    destruct (Z.le_gt_cases (binade c 100) 43) as [Hle|Hgt]; [exact Hle|].
    pose proof (Z.pow_le_mono_r 2 51 (7 + binade c 100) ltac:(lia) ltac:(lia))
      as Hp.
    change (2 ^ 51) with 2251799813685248 in Hp.
    change (2 ^ 7) with 128 in Hl. change (10 ^ 15) with 1000000000000000 in Hc.
    lia. }
  destruct (round_ne_normal c 100 ltac:(lia) ltac:(lia) ltac:(lia) ltac:(lia))
    as (m & Hr & F1 & F2).
  exists m, (52 - binade c 100). repeat split; try assumption; lia.
Qed.

Lemma small_multiple (A t : Z) : 51 <= A -> - 50 <= A * t <= 50 -> t = 0.
Proof. intros HA Ht. nia. Qed.

(** Below [10^13] dollars an amount becomes an integer binary64 number
    exactly when it has no cents. *)
Lemma is_integer_cents (c : Z) :
  0 <= c < 10 ^ 15 ->
  is_integer (round_ne c 100) = (c mod 100 =? 0).
Proof.
  intros Hc. destruct (Z.eq_dec c 0) as [->|Hc0]; [vm_compute; reflexivity|].
  destruct (round_ne_cents c ltac:(lia)) as (m & k & -> & Hk & F1 & F2).
  pose proof (pow2_pos k ltac:(lia)) as HA.
  pose proof (Z.pow_le_mono_r 2 9 k ltac:(lia) ltac:(lia)) as HA9.
  change (2 ^ 9) with 512 in HA9.
  unfold is_integer. destruct (Z.leb_spec 0 (- k)) as [Hx|_]; [lia|].
  replace (- - k) with k by lia.
  apply eq_true_iff_eq. rewrite !Z.eqb_eq. split; intros H.
  - apply Z.mod_divide in H; [|lia]. destruct H as [j ->].
    assert (Ht : 100 * j - c = 0).
    { apply (small_multiple (2 ^ k)); [lia|]. lia. }
    replace c with (j * 100) by lia. apply Z.mod_mul. lia.
  - apply Z.mod_divide in H; [|lia]. destruct H as [N ->].
    assert (Hm : m = N * 2 ^ k) by lia. rewrite Hm. apply Z.mod_mul. lia.
Qed.

(** The remainder of a negative-exponent number modulo a quarter. *)
Lemma fmod_quarter_zero (m k : Z) :
  2 <= k ->
  eq_zero (fmod (Finite m (- k)) lit_0_25) = (m mod 2 ^ (k - 2) =? 0).
Proof.
  intros Hk. rewrite lit_0_25_eq. unfold eq_zero, is_zero, fmod.
  pose proof (pow2_pos (k - 2) ltac:(lia)) as HB.
  apply eq_true_iff_eq. rewrite !Z.eqb_eq.
  destruct (Z.le_gt_cases k 54) as [Hle|Hgt].
  - rewrite Z.min_r by lia.
    replace (-54 - -54) with 0 by lia. rewrite Z.pow_0_r, Z.mul_1_r.
    replace (- k - -54) with (54 - k) by lia.
    assert (Hsp : 2 ^ 52 = 2 ^ (k - 2) * 2 ^ (54 - k))
      by (rewrite <- pow2_split by lia; f_equal; lia).
    rewrite Hsp.
    pose proof (pow2_pos (54 - k) ltac:(lia)) as HP.
    rewrite Z.mul_mod_distr_r by lia. split; intros H; nia.
  - rewrite Z.min_l by lia.
    replace (- k - - k) with 0 by lia. rewrite Z.pow_0_r, Z.mul_1_r.
    replace (-54 - - k) with (k - 54) by lia.
    rewrite <- pow2_split by lia.
    replace (52 + (k - 54)) with (k - 2) by lia. tauto.
Qed.

(** Below [10^13] dollars the remainder modulo [0.25] is zero exactly when
    the cents are a multiple of 25. *)
Lemma quarter_cents (c : Z) :
  0 <= c < 10 ^ 15 ->
  eq_zero (fmod (round_ne c 100) lit_0_25) = (c mod 25 =? 0).
Proof.
  intros Hc. destruct (Z.eq_dec c 0) as [->|Hc0]; [vm_compute; reflexivity|].
  destruct (round_ne_cents c ltac:(lia)) as (m & k & -> & Hk & F1 & F2).
  rewrite fmod_quarter_zero by lia.
  pose proof (pow2_pos (k - 2) ltac:(lia)) as HB.
  pose proof (Z.pow_le_mono_r 2 7 (k - 2) ltac:(lia) ltac:(lia)) as HB7.
  change (2 ^ 7) with 128 in HB7.
  assert (Hsp : 2 ^ k = 4 * 2 ^ (k - 2)).
  { change 4 with (2 ^ 2). rewrite <- pow2_split by lia. f_equal. lia. }
  rewrite Hsp in F2.
  apply eq_true_iff_eq. rewrite !Z.eqb_eq. split; intros H.
  - apply Z.mod_divide in H; [|lia]. destruct H as [j ->].
    assert (Ht : 25 * j - c = 0).
    { apply (small_multiple (2 ^ (k - 2))); [lia|]. lia. }
    replace c with (j * 25) by lia. apply Z.mod_mul. lia.
  - apply Z.mod_divide in H; [|lia]. destruct H as [N ->].
    assert (Hm : m = N * 2 ^ (k - 2)) by lia. rewrite Hm. apply Z.mod_mul. lia.
Qed.

End TotalFacts.

(** ** White space and the sign of the score *)

Module ScoreBounds.
Import PyStr Datetime Float64 Models Main Rules Examples.
Import PyStrFacts DatetimeFacts ModelsFacts MoneyFacts Float64Facts RoundTrip
  RulesFacts ScoringFacts AfternoonFacts ValidatedScoring ExactCeiling
  RoundDollarFacts ValidatorFacts TotalFacts.

(** *** The retailer rule *)

(** The amounts of a validated receipt have the shape of the pattern. *)
Lemma validated_amounts_shape (pf : Platform) (body : RawReceipt)
    (r : Receipt) :
  validate_Receipt pf body = inl r ->
  Spec.money_shape (total r)
  /\ Forall (fun item => Spec.money_shape (price item)) (items r).
Proof.
  intros Hv. pose proof (validate_Receipt_cases pf body) as Hc.
  rewrite Hv in Hc. destruct Hc as (_ & _ & _ & _ & _ & Hi & Htot).
  split.
  - apply valid_total_Ok in Htot as [Heq Hs]. rewrite <- Heq in Hs. exact Hs.
  - clear -Hi. induction Hi as [|raw item raws its (_ & _ & Hp) _ IH];
      constructor; [|exact IH].
    apply valid_price_Ok in Hp as [Heq Hs]. rewrite <- Heq in Hs. exact Hs.
Qed.

Lemma isalnum_spec (c : ascii) :
  isalnum c = true ->
  48 <= ord c <= 57 \/ 65 <= ord c <= 90 \/ 97 <= ord c <= 122
  \/ 170 <= ord c.
Proof.
  unfold isalnum. rewrite !orb_true_iff, !between_spec, !Z.eqb_eq. lia.
Qed.

Lemma space_not_alnum (c : ascii) : isspace c = true -> isalnum c = false.
Proof.
  intros Hs. apply isspace_spec in Hs.
  destruct (isalnum c) eqn:Ha; [|reflexivity].
  apply isalnum_spec in Ha. lia.
Qed.

Lemma sum_isalnum_lstrip (s : string) : sum_isalnum (lstrip s) = sum_isalnum s.
Proof.
  induction s as [|c s IH]; [reflexivity|]. simpl.
  destruct (isspace c) eqn:Hc; [|reflexivity].
  rewrite (space_not_alnum c Hc), IH. reflexivity.
Qed.

Lemma sum_isalnum_rstrip (s : string) : sum_isalnum (rstrip s) = sum_isalnum s.
Proof.
  induction s as [|c s IH]; [reflexivity|]. simpl.
  destruct (rstrip s) as [|x r] eqn:Hr.
  - simpl in IH. rewrite <- IH.
    destruct (isspace c) eqn:Hc; [|reflexivity].
    rewrite (space_not_alnum c Hc). reflexivity.
  - simpl. simpl in IH. rewrite IH. reflexivity.
Qed.

Lemma sum_isalnum_strip (s : string) : sum_isalnum (strip s) = sum_isalnum s.
Proof.
  unfold strip. rewrite sum_isalnum_rstrip. apply sum_isalnum_lstrip.
Qed.

Lemma sum_isalnum_bounds (s : string) : 0 <= sum_isalnum s <= len s.
Proof.
  unfold len. induction s as [|c s IH]; simpl; [lia|].
  destruct (isalnum c); lia.
Qed.

Lemma rstrip_idempotent (s : string) : rstrip (rstrip s) = rstrip s.
Proof.
  induction s as [|c s IH]; [reflexivity|]. simpl.
  destruct (rstrip s) as [|x r] eqn:Hr.
  - destruct (isspace c) eqn:Hc; [reflexivity|]. simpl. rewrite Hc.
    reflexivity.
  - rewrite rstrip_cons_keep; rewrite IH; [reflexivity|discriminate].
Qed.

Lemma rstrip_head (c : ascii) (s : string) :
  isspace c = false -> exists r, rstrip (String c s) = String c r.
Proof.
  intros Hc. simpl. destruct (rstrip s) as [|x r]; [rewrite Hc|]; eauto.
Qed.

Lemma strip_idempotent (s : string) : strip (strip s) = strip s.
Proof.
  unfold strip. destruct (lstrip s) as [|c t] eqn:Hl; [reflexivity|].
  pose proof (lstrip_head _ _ _ Hl) as Hc.
  destruct (rstrip_head c t Hc) as [r Hr]. rewrite Hr.
  simpl lstrip. rewrite Hc, <- Hr. apply rstrip_idempotent.
Qed.

Lemma item_step_trimmed (points : Z) (item : Item) :
  item_step points (Spec.trimmed_Item item) = item_step points item.
Proof.
  unfold item_step, Spec.trimmed_Item. simpl. rewrite strip_idempotent.
  reflexivity.
Qed.

Lemma for_items_trimmed (its : list Item) (points : Z) :
  for_items (map Spec.trimmed_Item its) points = for_items its points.
Proof.
  revert points. induction its as [|item rest IH]; intros points;
    [reflexivity|].
  simpl. rewrite item_step_trimmed.
  destruct (item_step points item) as [points'|e]; unfold_bind;
    [apply IH|reflexivity].
Qed.

(** X13. White space around the retailer name and around the descriptions
    of the items, which validation keeps, earns and costs nothing: the
    receipt is scored as the receipt without it, and the retailer rule
    gives at most one point per character of the trimmed name. *)
Theorem white_space_earns_nothing (r : Receipt) :
  calculate_points (Spec.trimmed r) = calculate_points r
  /\ 0 <= retailer_points r <= len (strip (retailer r)).
Proof.
  split.
  - unfold calculate_points, Spec.trimmed.
    cbn [retailer items total purchaseDate purchaseTime].
    rewrite length_map.
    destruct (of_str (total r)) as [x|e]; unfold_bind; [|reflexivity].
    rewrite for_items_trimmed, sum_isalnum_strip. reflexivity.
  - unfold retailer_points.
    rewrite <- (sum_isalnum_strip (retailer r)). apply sum_isalnum_bounds.
Qed.

(** *** The score is not negative *)

Lemma round_ne_nonneg (n d m e : Z) :
  0 <= n -> 0 < d -> round_ne n d = Finite m e -> 0 <= m.
Proof.
  intros Hn Hd. unfold round_ne.
  destruct (Z.eqb_spec n 0) as [->|Hn0]; [intros [= <- <-]; lia|].
  set (e0 := Z.max (binade n d - 52) (-1074)). clearbody e0.
  assert (Hab : forall a b, scale n d e0 = (a, b) -> 0 <= a /\ 0 < b).
  { unfold scale. intros a b.
    destruct (Z.leb_spec 0 e0) as [He|He]; intros [= <- <-].
    - pose proof (pow2_pos e0 He). split; nia.
    - pose proof (pow2_pos (- e0) ltac:(lia)). split; nia. }
  destruct (scale n d e0) as [a b]. destruct (Hab a b eq_refl) as [Ha Hb].
  pose proof (Z.div_pos a b Ha Hb) as Hq.
  match goal with
  | |- (if ?t then _ else _) = _ -> _ => destruct t; [discriminate|]
  end.
  intros [= <- <-].
  destruct (2 * (a mod b) ?= b); [destruct (Z.even (a / b))| |]; lia.
Qed.

Lemma ceil_fifth_nonneg (x : float) (z : Z) :
  (forall m e, x = Finite m e -> 0 <= m) ->
  ceil (mul x lit_0_2) = Ok z -> 0 <= z.
Proof.
  intros Hx. rewrite lit_0_2_eq.
  destruct x as [m e| |]; [|simpl; discriminate|simpl; discriminate].
  specialize (Hx m e eq_refl).
  assert (Hy : forall m' e', mul (Finite m e) (Finite 7205759403792794 (-55))
                             = Finite m' e' -> 0 <= m').
  { unfold mul. intros m' e'.
    destruct (Z.leb_spec 0 (e + -55)) as [He|He]; intros Hr.
    - apply round_ne_nonneg in Hr; [exact Hr| |lia].
      pose proof (pow2_pos (e + -55) He). nia.
    - apply round_ne_nonneg in Hr; [exact Hr|nia|].
      apply pow2_pos. lia. }
  destruct (mul (Finite m e) _) as [m' e'| |]; [|discriminate|discriminate].
  specialize (Hy m' e' eq_refl). unfold ceil. intros [= <-].
  destruct (Z.leb_spec 0 e') as [He|He].
  - pose proof (pow2_pos e' He). nia.
  - pose proof (pow2_pos (- e') ltac:(lia)) as Hp.
    assert (Hq : - m' / 2 ^ (- e') <= 0); [|lia].
    apply Z.div_le_upper_bound; lia.
Qed.

Lemma description_points_nonneg (item : Item) (c : Z) :
  Spec.money_shape (price item) ->
  description_points item = Ok c -> 0 <= c.
Proof.
  intros Hs. unfold description_points, item_step.
  destruct (_ =? 0); [|intros [= <-]; lia].
  destruct (of_str_money _ Hs) as [Hc ->]. unfold_bind.
  destruct (ceil (mul _ lit_0_2)) as [z|e] eqn:Hz; [|discriminate].
  intros [= <-]. simpl.
  apply (ceil_fifth_nonneg (round_ne (Spec.price_cents (price item)) 100) z);
    [|exact Hz].
  intros m e Hr. apply (round_ne_nonneg _ 100 m e Hc ltac:(lia) Hr).
Qed.

Lemma descriptions_points_nonneg (its : list Item) (s : Z) :
  Forall (fun item => Spec.money_shape (price item)) its ->
  descriptions_points its = Ok s -> 0 <= s.
Proof.
  intros Hall. revert s. unfold descriptions_points.
  induction Hall as [|item rest Hs _ IH]; intros s; simpl;
    [intros [= <-]; lia|].
  rewrite item_step_acc.
  destruct (description_points item) as [c|e] eqn:Hc; [|discriminate].
  unfold_bind. rewrite for_items_acc. unfold descriptions_points.
  destruct (for_items rest 0) as [s'|e]; [|discriminate].
  unfold_bind. intros [= <-].
  pose proof (description_points_nonneg _ _ Hs Hc). pose proof (IH s' eq_refl).
  lia.
Qed.

(** X12. The score of a valid receipt is never negative: whenever
    [calculate_points] returns on a receipt that passed validation, the
    points are at least the points of the retailer name and of the item
    pairs, both of which are at least zero. *)
Theorem score_not_negative (pf : Platform) (body : RawReceipt) (r : Receipt)
    (p : Z) :
  validate_Receipt pf body = inl r ->
  calculate_points r = Ok p ->
  0 <= retailer_points r + pair_points (items r) <= p.
Proof.
  intros Hv H.
  destruct (validated_amounts_shape pf body r Hv) as [_ Hshape].
  destruct (calculate_points_Ok r p H)
    as (x & dp & d & t & Hx & Hdp & Hd & Ht & ->).
  pose proof (descriptions_points_nonneg _ _ Hshape Hdp) as Hdp0.
  pose proof (sum_isalnum_bounds (retailer r)) as Hr.
  unfold retailer_points, round_dollar_points, quarter_points, pair_points,
    odd_day_points, afternoon_points in *.
  assert (Hn : 0 <= Z.of_nat (length (items r)) / 2)
    by (apply Z.div_pos; lia).
  repeat match goal with |- context [if ?b then _ else _] => destruct b end;
    lia.
Qed.

Lemma score_not_negative_witness :
  validate_Receipt documented target_body = inl target
  /\ calculate_points target = Ok 28
  /\ 0 <= retailer_points target + pair_points (items target) <= 28.
Proof.
  assert (Hv : validate_Receipt documented target_body = inl target)
    by (vm_compute; reflexivity).
  assert (H : calculate_points target = Ok 28) by (vm_compute; reflexivity).
  split; [exact Hv|]. split; [exact H|].
  exact (score_not_negative documented target_body target 28 Hv H).
Defined.

End ScoreBounds.

(** ** The rules of a score, and the score on integers *)

Module ScoreRules.
Import PyStr Datetime Float64 Models Main Rules Examples.
Import PyStrFacts DatetimeFacts ModelsFacts MoneyFacts Float64Facts RoundTrip
  RulesFacts ScoringFacts AfternoonFacts ValidatedScoring ExactCeiling
  RoundDollarFacts TotalFacts ScoreBounds.

(** A fifth of an amount below [2^1023] dollars is not infinite. *)
Lemma fifth_not_Inf (s : string) (p : float) :
  Spec.money_shape s -> Spec.price_cents s < 100 * 2 ^ 1023 ->
  of_str s = Ok p -> mul p lit_0_2 <> Inf.
Proof.
  intros Hs Hlt Hof. destruct (of_str_money _ Hs) as [Hc Hof'].
  rewrite Hof' in Hof. injection Hof as <-.
  destruct (Z.eq_dec (Spec.price_cents s) 0) as [H0|H0].
  - rewrite H0. vm_compute. discriminate.
  - assert (Hpos : 0 < Spec.price_cents s) by lia.
    destruct (round_ne_finite (Spec.price_cents s) 100)
      as (m & ex & Hfin); [exact Hpos|lia|exact Hlt|].
    destruct (mul_lit_0_2_finite _ 100 m ex Hpos ltac:(lia) Hlt Hfin)
      as (m' & e' & Hfin').
    rewrite Hfin, Hfin'. discriminate.
Qed.

(** X10. Where [%Y] is zero filled, scoring a validated receipt can fail in
    one way only: with [OverflowError], raised by [math.ceil], on an item
    whose trimmed description has a length that is a multiple of 3 and
    whose price is of [2^1023] dollars or more. *)
Theorem scoring_fails_only_by_overflow (pf : Platform) (body : RawReceipt)
    (r : Receipt) (e : exn) :
  (forall y, 1 <= y <= 9999 -> fmt_year pf y = pad4 y) ->
  validate_Receipt pf body = inl r ->
  calculate_points r = Raise e ->
  e = OverflowError "cannot convert float infinity to integer"
  /\ exists item,
       In item (items r)
       /\ len (strip (shortDescription item)) mod 3 = 0
       /\ 100 * 2 ^ 1023 <= Spec.price_cents (price item).
Proof.
  intros Hpad Hv Hp.
  destruct (scoring_raises_only_at_ceil pf body r e Hpad Hv Hp)
    as (He & item & p & Hin & H3 & Hof & Hmul).
  split; [exact He|]. exists item. split; [exact Hin|]. split; [exact H3|].
  destruct (validated_amounts_shape pf body r Hv) as [_ Hall].
  pose proof (proj1 (List.Forall_forall _ _) Hall item Hin) as Hs.
  cbv beta in Hs.
  destruct (Z.le_gt_cases (100 * 2 ^ 1023) (Spec.price_cents (price item)))
    as [Hle|Hgt]; [exact Hle|].
  exfalso. apply (fifth_not_Inf _ p Hs); [lia|exact Hof|exact Hmul].
Qed.

Lemma scoring_fails_only_by_overflow_witness :
  validate_Receipt documented huge_price_body = inl huge_price_receipt
  /\ calculate_points huge_price_receipt
     = Raise (OverflowError "cannot convert float infinity to integer")
  /\ exists item,
       In item (items huge_price_receipt)
       /\ 100 * 2 ^ 1023 <= Spec.price_cents (price item).
Proof.
  assert (Hv : validate_Receipt documented huge_price_body
               = inl huge_price_receipt) by (vm_compute; reflexivity).
  assert (Hp : calculate_points huge_price_receipt
               = Raise (OverflowError "cannot convert float infinity to integer"))
    by (vm_compute; reflexivity).
  split; [exact Hv|]. split; [exact Hp|].
  destruct (scoring_fails_only_by_overflow documented huge_price_body
              huge_price_receipt _ (fun _ _ => eq_refl) Hv Hp)
    as (_ & item & Hin & _ & Hle).
  exists item. split; [exact Hin|exact Hle].
Defined.

(** *** The day of the purchase *)

Lemma odd_day_points_odd (d : datetime) :
  odd_day_points d = if Z.odd (day d) then 6 else 0.
Proof.
  unfold odd_day_points. rewrite <- Z.negb_even, Zeven_mod. reflexivity.
Qed.

Lemma strptime_day_range (data fmt : string) (d : datetime) :
  strptime data fmt = Ok d -> 1 <= day d <= 31.
Proof.
  intros H. apply strptime_Ok in H as [_ Hc].
  destruct (check_date_Ok _ _ Hc) as (_ & _ & Hm & Hd).
  unfold days_in_month in Hd.
  repeat match type of Hd with
         | context [if ?b then _ else _] => destruct b
         end; lia.
Qed.

(** X14. In every score the engine returns, the day of the purchase, a
    day of the month within 1 to 31, contributes 6 points when it is odd
    and nothing when it is even. *)
Theorem odd_day_rule (r : Receipt) (p : Z) :
  calculate_points r = Ok p ->
  exists x dp d dt,
    of_str (total r) = Ok x
    /\ descriptions_points (items r) = Ok dp
    /\ strptime (purchaseDate r) "%Y-%m-%d" = Ok d
    /\ strptime (purchaseTime r) "%H:%M" = Ok dt
    /\ 1 <= day d <= 31
    /\ p = retailer_points r + round_dollar_points x + quarter_points x
           + pair_points (items r) + dp
           + (if Z.odd (day d) then 6 else 0)
           + afternoon_points (time_of dt).
Proof.
  intros H.
  destruct (calculate_points_Ok r p H)
    as (x & dp & d & dt & Hx & Hdp & Hd & Ht & ->).
  exists x, dp, d, dt. rewrite <- odd_day_points_odd.
  repeat split; try assumption; apply (strptime_day_range _ _ _ Hd).
Qed.

Lemma odd_day_rule_witness :
  calculate_points target = Ok 28
  /\ exists d,
       strptime (purchaseDate target) "%Y-%m-%d" = Ok d
       /\ 1 <= day d <= 31.
Proof.
  assert (H : calculate_points target = Ok 28) by (vm_compute; reflexivity).
  split; [exact H|].
  destruct (odd_day_rule target 28 H)
    as (x & dp & d & dt & _ & _ & Hd & _ & Hr & _).
  exists d. split; [exact Hd|exact Hr].
Defined.

(** *** The total *)

(** X15. Below [10^13] dollars the two rules on the total, computed on a
    binary64 number, are exact: a total in the money format earns the 50
    points exactly when its cents are [00], and the 25 points exactly when
    its amount in cents is a multiple of 25. *)
Theorem total_rules_exact (total : string) :
  Spec.money_shape total ->
  Spec.price_cents total < 10 ^ 15 ->
  exists x,
    of_str total = Ok x
    /\ round_dollar_points x = Spec.exact_round_dollar_points total
    /\ quarter_points x = Spec.exact_quarter_points total.
Proof.
  intros Hs Hlt. destruct (of_str_money _ Hs) as [Hc Hof].
  exists (round_ne (Spec.price_cents total) 100). split; [exact Hof|].
  unfold round_dollar_points, quarter_points, Spec.exact_round_dollar_points,
    Spec.exact_quarter_points.
  rewrite is_integer_cents, quarter_cents by lia. split; reflexivity.
Qed.

Lemma total_rules_exact_witness :
  exists x,
    of_str "35.35" = Ok x
    /\ round_dollar_points x = 0 /\ quarter_points x = 0.
Proof.
  assert (Hs : Spec.money_shape "35.35").
  { exists "35", "3"%char, "5"%char. repeat split; try reflexivity.
    discriminate. }
  assert (Hlt : Spec.price_cents "35.35" < 10 ^ 15) by (vm_compute; reflexivity).
  destruct (total_rules_exact "35.35" Hs Hlt) as (x & Hx & H50 & H25).
  exists x. split; [exact Hx|]. split; [rewrite H50|rewrite H25]; reflexivity.
Defined.

(** X16. In every score the engine returns, the two rules on the total
    contribute 0, 25 or 75 points together, never the 50 points alone:
    whatever binary64 number the total becomes, when it is an integer its
    remainder modulo 0.25 is zero. *)
Theorem total_earns_0_25_or_75 (r : Receipt) (p : Z) :
  calculate_points r = Ok p ->
  exists b dp d dt,
    (b = 0 \/ b = 25 \/ b = 75)
    /\ descriptions_points (items r) = Ok dp
    /\ strptime (purchaseDate r) "%Y-%m-%d" = Ok d
    /\ strptime (purchaseTime r) "%H:%M" = Ok dt
    /\ p = retailer_points r + b + pair_points (items r) + dp
           + odd_day_points d + afternoon_points (time_of dt).
Proof.
  intros H.
  destruct (calculate_points_Ok r p H)
    as (x & dp & d & dt & Hx & Hdp & Hd & Ht & ->).
  exists (round_dollar_points x + quarter_points x), dp, d, dt.
  repeat split; try assumption; [|lia].
  unfold round_dollar_points, quarter_points.
  destruct (is_integer x) eqn:Hi.
  - rewrite (integer_is_quarter_multiple x Hi). auto.
  - destruct (eq_zero _); auto.
Qed.

Lemma total_earns_0_25_or_75_witness :
  calculate_points corner_market = Ok 109
  /\ exists b, (b = 0 \/ b = 25 \/ b = 75) /\ 109 = 14 + b + 10 + 0 + 0 + 10.
Proof.
  assert (H : calculate_points corner_market = Ok 109)
    by (vm_compute; reflexivity).
  split; [exact H|].
  destruct (total_earns_0_25_or_75 corner_market 109 H)
    as (b & dp & d & dt & Hb & Hdp & Hd & Ht & Hp).
  exists b. split; [exact Hb|].
  vm_compute in Hdp, Hd, Ht.
  injection Hdp as <-. injection Hd as <-. injection Ht as <-.
  remember (retailer_points corner_market) as a eqn:Ha.
  remember (pair_points (items corner_market)) as c eqn:Hc.
  remember (odd_day_points _) as o eqn:Ho.
  remember (afternoon_points _) as t eqn:Hta.
  vm_compute in Ha, Hc, Ho, Hta. lia.
Defined.

(** *** The whole score *)

Lemma afternoon_points_minutes (t : time) :
  0 <= t_minute t <= 59 ->
  afternoon_points t
  = if (14 * 60 <? Spec.minute_of_day t) && (Spec.minute_of_day t <? 16 * 60)
    then 10 else 0.
Proof.
  intros Hm.
  destruct (Z.ltb_spec (14 * 60) (Spec.minute_of_day t)) as [H1|H1];
    destruct (Z.ltb_spec (Spec.minute_of_day t) (16 * 60)) as [H2|H2]; simpl;
    [apply afternoon_points_inside; [exact Hm|lia]
    |apply afternoon_points_outside; [exact Hm|lia] ..].
Qed.

(** X18. Where [%Y] is zero filled, a validated receipt whose total and
    prices are all below [10^13] dollars is scored, and its score is the
    sum of the seven rules computed on integers: the binary64 arithmetic of
    [calculate_points] loses nothing in that range. *)
Theorem calculate_points_exact (pf : Platform) (body : RawReceipt)
    (r : Receipt) :
  (forall y, 1 <= y <= 9999 -> fmt_year pf y = pad4 y) ->
  validate_Receipt pf body = inl r ->
  Spec.price_cents (total r) < 10 ^ 15 ->
  Forall (fun item => Spec.price_cents (price item) < 10 ^ 15) (items r) ->
  exists d dt,
    strptime (purchaseDate r) "%Y-%m-%d" = Ok d
    /\ strptime (purchaseTime r) "%H:%M" = Ok dt
    /\ calculate_points r = Ok (Spec.exact_score r d (time_of dt)).
Proof.
  intros Hpad Hv Htot Hall.
  destruct (validated_receipt_parses pf body r Hv) as (_ & _ & Ht & Hd).
  specialize (Hd Hpad).
  destruct (strptime (purchaseDate r) "%Y-%m-%d") as [d|e] eqn:Hpd;
    [|discriminate].
  destruct (strptime (purchaseTime r) "%H:%M") as [dt|e] eqn:Hpt;
    [|discriminate].
  exists d, dt. split; [reflexivity|]. split; [reflexivity|].
  destruct (validated_amounts_shape pf body r Hv) as [Hs _].
  destruct (of_str_money _ Hs) as [Hc Hof].
  rewrite calculate_points_rules. unfold rules_sum.
  rewrite Hof, (descriptions_points_exact pf body r Hv Hall), Hpd, Hpt.
  unfold_bind. f_equal. unfold Spec.exact_score.
  rewrite odd_day_points_odd, afternoon_points_minutes
    by apply (strptime_HM_range _ _ Hpt).
  unfold round_dollar_points, quarter_points, retailer_points, pair_points,
    Spec.exact_round_dollar_points, Spec.exact_quarter_points.
  rewrite is_integer_cents, quarter_cents by lia. lia.
Qed.

Lemma calculate_points_exact_witness :
  validate_Receipt documented target_body = inl target
  /\ exists d dt, calculate_points target = Ok (Spec.exact_score target d dt)
                  /\ Spec.exact_score target d dt = 28.
Proof.
  assert (Hv : validate_Receipt documented target_body = inl target)
    by (vm_compute; reflexivity).
  split; [exact Hv|].
  destruct (calculate_points_exact documented target_body target
              (fun _ _ => eq_refl) Hv)
    as (d & dt & Hd & Ht & Hp).
  - vm_compute. reflexivity.
  - repeat constructor.
  - exists d, (time_of dt). split; [exact Hp|].
    vm_compute in Hd, Ht. injection Hd as <-. injection Ht as <-.
    vm_compute. reflexivity.
Defined.

(** *** The order of the items *)

Lemma descriptions_points_cons (item : Item) (its : list Item) :
  descriptions_points (item :: its)
  = (description_points item ≫= fun c =>
     descriptions_points its ≫= fun s => Ok (c + s)).
Proof.
  unfold descriptions_points. simpl. rewrite item_step_acc.
  destruct (description_points item) as [c|e]; unfold_bind; [|reflexivity].
  rewrite for_items_acc. unfold descriptions_points.
  destruct (for_items its 0) as [s|e]; reflexivity.
Qed.

Lemma descriptions_points_perm (its its' : list Item) (s : Z) :
  Permutation its its' ->
  descriptions_points its = Ok s -> descriptions_points its' = Ok s.
Proof.
  intros Hp. revert s.
  induction Hp as [|x l l' Hp IH|x y l|l l' l'' Hp1 IH1 Hp2 IH2]; intros s.
  - auto.
  - rewrite !descriptions_points_cons.
    destruct (description_points x) as [c|e]; unfold_bind; [|discriminate].
    destruct (descriptions_points l) as [sl|e]; [|discriminate].
    rewrite (IH sl eq_refl). auto.
  - rewrite !descriptions_points_cons.
    destruct (description_points y) as [cy|e]; unfold_bind; [|discriminate].
    destruct (description_points x) as [cx|e]; unfold_bind; [|discriminate].
    destruct (descriptions_points l) as [sl|e]; [|discriminate].
    intros [= <-]. f_equal. lia.
  - intros H. apply IH2, IH1, H.
Qed.

(** X19. The score does not depend on the order of the items: a receipt
    that is scored gets the same score when its items are listed in any
    other order. *)
Theorem score_ignores_item_order (r : Receipt) (its' : list Item) (p : Z) :
  Permutation (items r) its' ->
  calculate_points r = Ok p ->
  calculate_points (with_items r its') = Ok p.
Proof.
  intros Hperm H.
  destruct (calculate_points_Ok r p H)
    as (x & dp & d & dt & Hx & Hdp & Hd & Ht & ->).
  rewrite calculate_points_rules. unfold rules_sum, with_items. simpl.
  rewrite Hx, (descriptions_points_perm _ _ _ Hperm Hdp), Hd, Ht.
  unfold_bind. unfold pair_points, retailer_points. simpl.
  rewrite (Permutation_length Hperm). reflexivity.
Qed.

Lemma score_ignores_item_order_witness :
  calculate_points target = Ok 28
  /\ calculate_points (with_items target (rev (items target))) = Ok 28.
Proof.
  assert (H : calculate_points target = Ok 28) by (vm_compute; reflexivity).
  split; [exact H|].
  apply (score_ignores_item_order target _ 28); [|exact H].
  apply Permutation_rev.
Defined.

(** *** Witnesses of the overflow and round-dollar theorems *)

Lemma scoring_returns_below_overflow_witness :
  validate_Receipt documented target_body = inl target
  /\ exists points, calculate_points target = Ok points.
Proof.
  assert (Hv : validate_Receipt documented target_body = inl target)
    by (vm_compute; reflexivity).
  split; [exact Hv|].
  apply (scoring_returns_below_overflow documented target_body target
           (fun _ _ => eq_refl) Hv).
  repeat constructor.
Defined.

Lemma round_total_bonuses_witness :
  exists x,
    of_str "9.00" = Ok x
    /\ round_dollar_points x = 50 /\ quarter_points x = 25.
Proof.
  assert (Hne : "9" <> EmptyString) by discriminate.
  destruct (round_total_bonuses "9" eq_refl Hne) as (x & Hx & _ & Hb).
  exists x. split; [exact Hx|]. apply Hb. vm_compute. reflexivity.
Defined.

End ScoreRules.

(** ** The store over a run of requests *)

Module StoreGrowth.
Import PyStr Models Main Examples StoreFacts.

(** A submission answered with status 200 went through validation and
    scoring. *)
Lemma serve_submit_200 (pf : Platform) (uuid : string) (body : RawReceipt)
    (receipts : gmap string Z) (resp : Response) (receipts' : gmap string Z) :
  serve pf (Submit uuid body) receipts = (resp, receipts') ->
  status_code resp = 200 ->
  exists receipt points,
    validate_Receipt pf body = inl receipt
    /\ calculate_points receipt = Ok points
    /\ resp = JSONResponse 200 (JObj [("id", JStr (strip uuid))])
    /\ receipts' = <[strip uuid := points]> receipts.
Proof.
  simpl. unfold post_receipts_process, process_receipt.
  destruct (validate_Receipt pf body) as [receipt|errors].
  - destruct (calculate_points receipt) as [points|e] eqn:Hp; unfold_bind.
    + intros [= <- <-] _. exists receipt, points. auto.
    + intros [= <- <-]. discriminate.
  - intros [= <- <-]. discriminate.
Qed.

(** X20. The latest submission wins: after a submission answered with
    status 200, whether or not the store already held its identifier,
    retrieval under the identifier of the response gives the score of the
    receipt just submitted, retrieval under any other identifier gives
    what it gave before, and a store that already held the identifier
    keeps its size. *)
Theorem latest_submission_wins (pf : Platform) (uuid : string)
    (body : RawReceipt) (receipts : gmap string Z) (resp : Response)
    (receipts' : gmap string Z) :
  serve pf (Submit uuid body) receipts = (resp, receipts') ->
  status_code resp = 200 ->
  exists receipt points,
    validate_Receipt pf body = inl receipt
    /\ calculate_points receipt = Ok points
    /\ issued_id resp = Some (strip uuid)
    /\ get_points (strip uuid) receipts'
       = JSONResponse 200 (JObj [("points", JInt points)])
    /\ (forall j, j <> strip uuid ->
          get_points j receipts' = get_points j receipts)
    /\ (is_Some (receipts !! strip uuid) -> size receipts' = size receipts).
Proof.
  intros Hs H200.
  destruct (serve_submit_200 _ _ _ _ _ _ Hs H200)
    as (receipt & points & Hv & Hp & -> & ->).
  exists receipt, points. split; [exact Hv|]. split; [exact Hp|].
  split; [reflexivity|]. split; [|split].
  - unfold get_points. rewrite lookup_insert_eq. reflexivity.
  - intros j Hj. unfold get_points. rewrite lookup_insert_ne by congruence.
    reflexivity.
  - intros [old Hold]. rewrite map_size_insert, Hold. reflexivity.
Qed.

Lemma latest_submission_wins_witness :
  serve documented (Submit "u1" target_body) (<["u1" := 7]> ∅)
  = (JSONResponse 200 (JObj [("id", JStr "u1")]),
     <["u1" := 28]> (<["u1" := 7]> ∅))
  /\ exists points,
       calculate_points target = Ok points
       /\ get_points "u1" (<["u1" := 28]> (<["u1" := 7]> ∅))
          = JSONResponse 200 (JObj [("points", JInt points)]).
Proof.
  assert (Hs : serve documented (Submit "u1" target_body) (<["u1" := 7]> ∅)
               = (JSONResponse 200 (JObj [("id", JStr "u1")]),
                  <["u1" := 28]> (<["u1" := 7]> ∅)))
    by (vm_compute; reflexivity).
  split; [exact Hs|].
  destruct (latest_submission_wins documented "u1" target_body _ _ _ Hs
              eq_refl) as (receipt & points & Hv & Hp & _ & Hget & _).
  exists points. split; [|exact Hget].
  vm_compute in Hv. injection Hv as <-. exact Hp.
Defined.

Lemma issued_cons (resp : Response) (resps : list Response) :
  issued (resp :: resps)
  = match issued_id resp with
    | Some receipt_id => receipt_id :: issued resps
    | None => issued resps
    end.
Proof. reflexivity. Qed.

(** X21. The service never forgets and never invents: over any run of
    requests from any store there is one response per request, every
    identifier of the store stays in the store, and the store grows by at
    most one identifier per submission answered with an identifier. *)
Theorem store_only_grows (pf : Platform) (reqs : list request) :
  forall (receipts : gmap string Z) (resps : list Response)
         (receipts' : gmap string Z),
  serve_all pf reqs receipts = (resps, receipts') ->
  length resps = length reqs
  /\ (forall k, is_Some (receipts !! k) -> is_Some (receipts' !! k))
  /\ (size receipts <= size receipts'
      <= size receipts + length (issued resps))%nat.
Proof.
  induction reqs as [|req rest IH]; intros receipts resps receipts'; simpl.
  - intros [= <- <-]. split; [reflexivity|]. split; [auto|]. simpl. lia.
  - destruct (serve pf req receipts) as [resp mid] eqn:Hs.
    destruct (serve_all pf rest mid) as [resps0 fin] eqn:Hr.
    intros [= <- <-]. destruct (IH _ _ _ Hr) as (Hlen & Hkeep & Hsize).
    split; [simpl; congruence|].
    rewrite issued_cons.
    destruct (serve_cases _ _ _ _ _ Hs)
      as [[Hnone ->]|(uuid & body & receipt & points & -> & Hv & Hp & -> & Hid & ->)].
    + rewrite Hnone. split; [exact Hkeep|exact Hsize].
    + rewrite Hid. split.
      * intros k Hk. apply Hkeep. rewrite lookup_insert_is_Some.
        destruct (decide (strip uuid = k)); auto.
      * rewrite map_size_insert in Hsize. cbn [length].
        destruct (receipts !! strip uuid); unfold id in Hsize; lia.
Qed.

Lemma store_only_grows_witness :
  serve_all documented [Submit "u1" target_body; Retrieve "u1"] ∅
  = ([JSONResponse 200 (JObj [("id", JStr "u1")]);
      JSONResponse 200 (JObj [("points", JInt 28)])], <["u1" := 28]> ∅)
  /\ (size (∅ : gmap string Z) <= size (<["u1" := 28%Z]> ∅ : gmap string Z)
      <= size (∅ : gmap string Z) + 1)%nat.
Proof.
  assert (Hrun : serve_all documented
                   [Submit "u1" target_body; Retrieve "u1"] ∅
                 = ([JSONResponse 200 (JObj [("id", JStr "u1")]);
                     JSONResponse 200 (JObj [("points", JInt 28)])],
                    <["u1" := 28]> ∅)) by (vm_compute; reflexivity).
  split; [exact Hrun|].
  exact (proj2 (proj2 (store_only_grows documented _ _ _ _ Hrun))).
Defined.

End StoreGrowth.

(** ** Decimal numerals *)

Module NumeralFacts.
Import PyStr.

Lemma to_lu_digit (r : nat) : (r < 10)%nat -> Unsigned.to_lu r = Spec.lu_cons r Decimal.Nil.
Proof.
  intros Hr. do 10 (destruct r as [|r]; [reflexivity|]). lia.
Qed.

Lemma to_lu_step (q r : nat) :
  (q <> 0)%nat -> (r < 10)%nat ->
  Unsigned.to_lu (r + 10 * q) = Spec.lu_cons r (Unsigned.to_lu q).
Proof.
  intros Hq Hr. pose proof (Unsigned.to_lu_tenfold q Hq) as H10.
  do 10 (destruct r as [|r];
         [cbn [Nat.add Unsigned.to_lu]; rewrite H10; reflexivity|]).
  lia.
Qed.

Lemma string_of_lu_cons (r : nat) (a : Decimal.uint) :
  (r < 10)%nat ->
  NilEmpty.string_of_uint (Decimal.revapp (Spec.lu_cons r Decimal.Nil) a)
  = String (digit_char (Z.of_nat r)) (NilEmpty.string_of_uint a).
Proof.
  intros Hr. do 10 (destruct r as [|r]; [reflexivity|]). lia.
Qed.

Lemma revapp_lu_cons (r : nat) (d a : Decimal.uint) :
  Decimal.revapp (Spec.lu_cons r d) a
  = Decimal.revapp d (Decimal.revapp (Spec.lu_cons r Decimal.Nil) a).
Proof. do 9 (destruct r as [|r]; [reflexivity|]). reflexivity. Qed.

Lemma digit_char_mod (n : Z) : digit_char n = digit_char (n mod 10).
Proof. unfold digit_char. rewrite Z.mod_mod by lia. reflexivity. Qed.

Lemma digits_from_lu (fuel : nat) :
  forall (n : nat) (a : Decimal.uint),
    (0 < fuel)%nat -> Z.of_nat n < 2 ^ Z.of_nat fuel ->
    digits_from fuel (Z.of_nat n) (NilEmpty.string_of_uint a)
    = NilEmpty.string_of_uint (Decimal.revapp (Unsigned.to_lu n) a).
Proof.
  induction fuel as [|fuel IH]; intros n a Hfuel Hlt; [lia|].
  cbn [digits_from].
  pose proof (Nat.div_mod_eq n 10) as Hdm.
  pose proof (Nat.mod_upper_bound n 10 ltac:(lia)) as Hr.
  assert (Hmod : Z.of_nat n mod 10 = Z.of_nat (n mod 10)%nat)
    by (rewrite Nat2Z.inj_mod; reflexivity).
  assert (Hdiv : Z.of_nat n / 10 = Z.of_nat (n / 10)%nat)
    by (rewrite Nat2Z.inj_div; reflexivity).
  rewrite (digit_char_mod (Z.of_nat n)), Hmod.
  rewrite <- (string_of_lu_cons _ a Hr).
  destruct (Z.ltb_spec (Z.of_nat n) 10) as [Hsmall|Hbig].
  - rewrite Nat.mod_small by lia.
    rewrite (to_lu_digit n) by lia. reflexivity.
  - rewrite Nat2Z.inj_succ, Z.pow_succ_r in Hlt by lia.
    assert (Hf : (0 < fuel)%nat).
    { destruct fuel as [|f]; [|lia]. change (2 ^ Z.of_nat 0) with 1 in Hlt. lia. }
    rewrite Hdiv, IH.
    + rewrite <- revapp_lu_cons, <- to_lu_step; [|lia|exact Hr].
      f_equal. f_equal. f_equal. lia.
    + exact Hf.
    + rewrite <- Hdiv. apply Z.div_lt_upper_bound; lia.
Qed.

(** [str(n)] is the decimal numeral of [n]. *)
Lemma str_of_int_decimal (n : nat) :
  str_of_int (Z.of_nat n) = Spec.decimal n.
Proof.
  unfold str_of_int, Spec.decimal.
  change EmptyString with (NilEmpty.string_of_uint Decimal.Nil).
  rewrite digits_from_lu.
  - rewrite Unsigned.to_uint_alt. reflexivity.
  - lia.
  - rewrite Nat2Z.inj_succ, Z2Nat.id by apply Z.log2_nonneg.
    destruct (Z.eq_dec (Z.of_nat n) 0) as [->|Hn]; [reflexivity|].
    apply Z.log2_spec. lia.
Qed.

End NumeralFacts.

(** ** The validation layer and the error list *)

Module ErrorListFacts.
Import PyStr Datetime Models Main Examples.
Import PyStrFacts DatetimeFacts ModelsFacts MoneyFacts ValidatorFacts
  NumeralFacts.

(** *** The checks of the code against the rules of the validation layer *)

Lemma all_space_nonempty (s : string) :
  all_space s = false -> 1 <= len s.
Proof. destruct s; [discriminate|]. unfold len. simpl. lia. Qed.

Lemma retailer_agrees (pf : Platform) :
  Spec.agrees (constrained pf 1 retailer_not_empty)
    (Spec.blank_rule pf "Retailer cannot be empty or whitespace").
Proof.
  intros s. unfold Spec.blank_rule, constrained, run_validator,
    retailer_not_empty.
  rewrite strip_empty. destruct (all_space s) eqn:Hsp.
  - destruct s as [|c s]; [reflexivity|].
    unfold len. cbn [String.length is_empty].
    destruct (Z.ltb_spec (Z.of_nat (S (String.length s))) 1) as [Hlt|_];
      [lia|reflexivity].
  - pose proof (all_space_nonempty s Hsp) as Hlen.
    destruct (Z.ltb_spec (len s) 1) as [Hlt|_]; [lia|]. eauto.
Qed.

Lemma description_agrees (pf : Platform) :
  Spec.agrees (constrained pf 1 description_not_empty)
    (Spec.blank_rule pf "shortDescription cannot be empty or whitespace").
Proof.
  intros s. unfold Spec.blank_rule, constrained, run_validator,
    description_not_empty.
  rewrite strip_empty. destruct (all_space s) eqn:Hsp.
  - destruct s as [|c s]; [reflexivity|].
    unfold len. cbn [String.length is_empty].
    destruct (Z.ltb_spec (Z.of_nat (S (String.length s))) 1) as [Hlt|_];
      [lia|reflexivity].
  - pose proof (all_space_nonempty s Hsp) as Hlen.
    destruct (Z.ltb_spec (len s) 1) as [Hlt|_]; [lia|]. eauto.
Qed.

Lemma price_agrees (pf : Platform) :
  Spec.agrees (run_validator pf valid_price)
    (Spec.money_rule pf "Price must be in XX.XX format").
Proof.
  intros s. unfold Spec.money_rule, run_validator, valid_price.
  rewrite money_pattern_two_decimals.
  destruct (Spec.two_decimals s); simpl; eauto.
Qed.

Lemma total_agrees (pf : Platform) :
  Spec.agrees (run_validator pf valid_total)
    (Spec.money_rule pf "Total must be in XX.XX format").
Proof.
  intros s. unfold Spec.money_rule, run_validator, valid_total.
  rewrite money_pattern_two_decimals.
  destruct (Spec.two_decimals s); simpl; eauto.
Qed.

Lemma date_agrees (pf : Platform) :
  Spec.agrees (run_validator pf (valid_date (fmt_year pf)))
    (Spec.date_rule pf).
Proof.
  intros s. unfold Spec.date_rule, run_validator.
  rewrite valid_date_cases.
  destruct (strptime s "%Y-%m-%d") as [d|e]; simpl; [eauto|].
  destruct (strptime s "%Y/%m/%d") as [d|e']; simpl; eauto.
Qed.

Lemma time_agrees (pf : Platform) :
  Spec.agrees (run_validator pf valid_time) (Spec.time_rule pf).
Proof.
  intros s. unfold Spec.time_rule, run_validator.
  rewrite valid_time_cases.
  destruct (strptime s "%H:%M") as [d|e]; simpl; eauto.
Qed.

(** *** From the errors of validation to the entries of the list *)

(** The errors of a text field, rendered by [render], are the violations
    of the field at the path [render] gives the field. *)
Lemma text_entries (lib : Library) (render : error -> string)
    (name path : string) (check : string -> string + string)
    (rule : string -> option string) (o : option value) :
  Spec.agrees check rule ->
  (forall m, render (mk_error [LStr name] m) = Spec.entry (path, m)) ->
  map render (field_errors name (str_field lib check o))
  = map Spec.entry (Spec.text_violations lib path rule o).
Proof.
  intros Hag Hrender. unfold str_field, Spec.text_violations.
  destruct o as [v|]; [|simpl; rewrite Hrender; reflexivity].
  destruct (read_str lib v) as [s|m]; [|simpl; rewrite Hrender; reflexivity].
  specialize (Hag s). destruct (rule s) as [m|].
  - rewrite Hag. simpl. rewrite Hrender. reflexivity.
  - destruct Hag as [x ->]. reflexivity.
Qed.


(** What the handler writes for an error of the body. *)
Lemma validate_Item_json_errors (lib : Library) (pf : Platform)
    (d : list (string * value)) :
  match validate_Item_json lib pf d with
  | inl _ => []
  | inr e => e
  end
  = (field_errors "shortDescription"
       (str_field lib (constrained pf 1 description_not_empty)
          (dict_get "shortDescription" d))
     ++ field_errors "price"
          (str_field lib (run_validator pf valid_price) (dict_get "price" d)))%list.
Proof.
  unfold validate_Item_json.
  destruct (str_field lib (constrained pf 1 _) _) as [x|m];
    destruct (str_field lib (run_validator pf valid_price) _) as [y|m'];
    reflexivity.
Qed.

Lemma element_entries (lib : Library) (pf : Platform) (i : nat) (v : value) :
  map error_message
    (map located
       (map (at_loc (LStr "items"))
          (map (at_loc (LInt (Z.of_nat i)))
             match validate_element lib pf v with
             | inl _ => []
             | inr e => e
             end)))
  = map Spec.entry (Spec.element_violations lib pf i v).
Proof.
  unfold validate_element, Spec.element_violations.
  destruct (read_dict lib v) as [d|m].
  - rewrite validate_Item_json_errors, !map_app, !map_map.
    f_equal.
    + apply text_entries; [apply description_agrees|].
      intros m. unfold error_message, located, at_loc, Spec.entry. simpl.
      rewrite str_of_int_decimal. reflexivity.
    + apply text_entries; [apply price_agrees|].
      intros m. unfold error_message, located, at_loc, Spec.entry. simpl.
      rewrite str_of_int_decimal. reflexivity.
  - unfold error_message, located, at_loc, Spec.entry. simpl.
    rewrite str_of_int_decimal. reflexivity.
Qed.

Lemma elements_entries (lib : Library) (pf : Platform) (l : list value) :
  forall i : nat,
    map error_message
      (map located
         (map (at_loc (LStr "items"))
            (snd (validate_elements lib pf (Z.of_nat i) l))))
    = map Spec.entry (Spec.elements_violations lib pf i l).
Proof.
  induction l as [|v rest IH]; intros i; [reflexivity|].
  simpl. specialize (IH (S i)).
  replace (Z.of_nat (S i)) with (Z.of_nat i + 1) in IH by lia.
  destruct (validate_elements lib pf (Z.of_nat i + 1) rest) as [vs es].
  rewrite map_app, <- IH, <- element_entries.
  destruct (validate_element lib pf v) as [item|e]; simpl;
    [reflexivity|].
  rewrite !map_app. reflexivity.
Qed.

Lemma items_entries (lib : Library) (pf : Platform) (o : option value) :
  map error_message (map located (snd (items_field lib pf o)))
  = map Spec.entry (Spec.items_violations lib pf o).
Proof.
  unfold items_field, Spec.items_violations.
  destruct o as [v|]; [|reflexivity].
  destruct (read_list lib v) as [l|m]; [|reflexivity].
  pose proof (elements_entries lib pf l 0%nat) as H.
  change (Z.of_nat 0) with 0 in H.
  destruct (validate_elements lib pf 0 l) as [its es]. exact H.
Qed.

(** The errors of a body, field by field. *)
Lemma validate_json_errors (lib : Library) (pf : Platform)
    (body : list (string * value)) :
  match validate_json lib pf body with
  | inl _ => []
  | inr e => e
  end
  = (field_errors "retailer"
       (str_field lib (constrained pf 1 retailer_not_empty)
          (dict_get "retailer" body))
     ++ field_errors "purchaseDate"
          (str_field lib (run_validator pf (valid_date (fmt_year pf)))
             (dict_get "purchaseDate" body))
     ++ field_errors "purchaseTime"
          (str_field lib (run_validator pf valid_time)
             (dict_get "purchaseTime" body))
     ++ snd (items_field lib pf (dict_get "items" body))
     ++ field_errors "total"
          (str_field lib (run_validator pf valid_total)
             (dict_get "total" body)))%list.
Proof.
  unfold validate_json.
  destruct (str_field lib (constrained pf 1 _) _) as [r|m1];
    destruct (str_field lib (run_validator pf (valid_date _)) _) as [d|m2];
    destruct (str_field lib (run_validator pf valid_time) _) as [t|m3];
    destruct (items_field lib pf _) as [its [|e es]];
    destruct (str_field lib (run_validator pf valid_total) _) as [tot|m5];
    reflexivity.
Qed.

Lemma errors_entries (lib : Library) (pf : Platform)
    (body : list (string * value)) :
  map error_message
    (map located
       match validate_json lib pf body with
       | inl _ => []
       | inr e => e
       end)
  = map Spec.entry (Spec.violations lib pf body).
Proof.
  rewrite validate_json_errors. unfold Spec.violations.
  rewrite !map_app, items_entries, !map_map.
  repeat f_equal;
    (apply text_entries;
     [first [apply retailer_agrees | apply date_agrees | apply time_agrees
            | apply total_agrees]
     |intros m; reflexivity]).
Qed.

(** A body whose fields are all there as strings is validated as the
    submission of those strings. *)
Lemma validate_elements_raw (lib : Library) (pf : Platform)
    (raws : list RawItem) :
  forall i, validate_elements lib pf i (map json_of_RawItem raws)
            = validate_items pf i raws.
Proof.
  induction raws as [|raw rest IH]; intros i; [reflexivity|].
  simpl. rewrite IH. reflexivity.
Qed.

Lemma validate_json_raw (lib : Library) (pf : Platform) (raw : RawReceipt) :
  validate_json lib pf (json_of_RawReceipt raw) = validate_Receipt pf raw.
Proof.
  unfold validate_json, validate_Receipt, json_of_RawReceipt. simpl.
  rewrite validate_elements_raw.
  destruct (validate_items pf 0 (raw_items raw)) as [its es].
  destruct (constrained pf 1 _ _) as [r|m1];
    destruct (run_validator pf (valid_date _) _) as [d|m2];
    destruct (run_validator pf valid_time _) as [t|m3];
    destruct es as [|e es];
    destruct (run_validator pf valid_total _) as [tot|m5];
    reflexivity.
Qed.

Lemma post_receipts_process_json_raw (lib : Library) (pf : Platform)
    (uuid : string) (raw : RawReceipt) (receipts : gmap string Z) :
  post_receipts_process_json lib pf uuid (json_of_RawReceipt raw) receipts
  = post_receipts_process pf uuid raw receipts.
Proof.
  unfold post_receipts_process_json, post_receipts_process.
  rewrite validate_json_raw. reflexivity.
Qed.

(** C4. A submission, the JSON object of a request body with [N > 0]
    field-level violations (a field that is missing, of a wrong type, or
    whose text breaks the rule of the field), is answered with status 400
    and a list of exactly [N] entries, one per violation in the order of
    the fields; each entry is the dotted path of the field, without the
    leading ["body"], joined by [": "] with the message; the store is left
    as it was. *)
Theorem C4_every_violation_reported (lib : Library) (pf : Platform)
    (uuid : string) (body : list (string * value))
    (receipts : gmap string Z) :
  let N := length (Spec.violations lib pf body) in
  (0 < N)%nat ->
  exists entries : list string,
    post_receipts_process_json lib pf uuid body receipts
    = Ok (JSONResponse 400 (JObj [("error", JList (map JStr entries))]),
          receipts)
    /\ length entries = N
    /\ entries = map Spec.entry (Spec.violations lib pf body).
Proof.
  intros N HN. exists (map Spec.entry (Spec.violations lib pf body)).
  split; [|split; [apply length_map|reflexivity]].
  unfold post_receipts_process_json.
  pose proof (errors_entries lib pf body) as He.
  destruct (validate_json lib pf body) as [receipt|errors].
  - exfalso. subst N.
    destruct (Spec.violations lib pf body); [simpl in HN; lia|discriminate].
  - unfold validation_exception_handler.
    change (map (at_loc (LStr "body")) errors) with (map located errors).
    rewrite He. reflexivity.
Qed.

Lemma C4_every_violation_reported_witness :
  (0 < length (Spec.violations documented_types documented broken_body))%nat
  /\ post_receipts_process_json documented_types documented "u1" broken_body ∅
     = Ok (JSONResponse 400
             (JObj [("error",
                JList (map JStr
                  [ "retailer: none is not an allowed value";
                    "purchaseDate: field required";
                    "purchaseTime: purchaseTime must be a valid time in HH:MM format";
                    "items.0.shortDescription: shortDescription cannot be empty or whitespace";
                    "items.0.price: Price must be in XX.XX format";
                    "items.1: value is not a valid dict";
                    "items.2.shortDescription: str type expected";
                    "items.2.price: field required";
                    "total: Total must be in XX.XX format" ]))]), ∅).
Proof.
  assert (H : (0 < length (Spec.violations documented_types documented
                             broken_body))%nat) by (vm_compute; lia).
  split; [exact H|].
  destruct (C4_every_violation_reported documented_types documented "u1"
              broken_body ∅ H) as (entries & Hresp & _ & Hent).
  rewrite Hresp, Hent. vm_compute. reflexivity.
Defined.

End ErrorListFacts.

(** ** The form of the stored date *)

Module IsoDateFacts.
Import PyStr Datetime Models Main Examples.
Import PyStrFacts DatetimeFacts ModelsFacts ValidatorFacts NumeralFacts.

(** C5. Where the C library writes [%Y] without filling, as glibc does,
    the purchase date [0999-01-02] parses under [%Y-%m-%d], passes
    validation and is stored as [999-01-02]: that is not the form
    [YYYY-MM-DD] of the parsed date, which is [0999-01-02], and
    [strptime] does not parse it under [%Y-%m-%d] again.  Where [%Y] is zero
    filled the same date is stored in the form [YYYY-MM-DD]. *)
Theorem C5_year_below_1000_not_normalized :
  strptime "0999-01-02" "%Y-%m-%d" = Ok (mk_datetime 999 1 2 0 0)
  /\ Spec.iso_date (mk_datetime 999 1 2 0 0) = "0999-01-02"
  /\ valid_date (fmt_year unfilled_year) "0999-01-02" = Ok "999-01-02"
  /\ validate_Receipt unfilled_year year_999_body
     = inl (mk_Receipt "Shop" "999-01-02" "13:01" [mk_Item "ab" "1.00"] "1.01")
  /\ returns (strptime "999-01-02" "%Y-%m-%d") = false
  /\ valid_date (fmt_year documented) "0999-01-02" = Ok "0999-01-02".
Proof. repeat split; vm_compute; reflexivity. Qed.

Lemma range_check (f : nat -> bool) (lo len n : nat) :
  forallb f (seq lo len) = true -> (lo <= n < lo + len)%nat -> f n = true.
Proof.
  intros Hall Hn. apply (proj1 (forallb_forall f (seq lo len)) Hall).
  apply in_seq. exact Hn.
Qed.

Lemma two_digits_numeral (n : Z) :
  0 <= n <= 99 -> pad2 n = Spec.zero_fill 2 (Spec.decimal (Z.to_nat n)).
Proof.
  intros Hn.
  assert (Hall : forallb (fun k => String.eqb (pad2 (Z.of_nat k))
                                     (Spec.zero_fill 2 (Spec.decimal k)))
                   (seq 0 100) = true) by (vm_compute; reflexivity).
  pose proof (range_check _ 0 100 (Z.to_nat n) Hall ltac:(lia)) as H.
  cbv beta in H. apply String.eqb_eq in H.
  rewrite Z2Nat.id in H by lia. exact H.
Qed.

Lemma four_digits_numeral (y : Z) :
  1000 <= y <= 9999 ->
  Spec.zero_fill 4 (Spec.decimal (Z.to_nat y)) = Spec.decimal (Z.to_nat y)
  /\ pad4 y = Spec.decimal (Z.to_nat y).
Proof.
  intros Hy.
  assert (Hall : forallb (fun k =>
                     String.eqb (Spec.zero_fill 4 (Spec.decimal k))
                                (Spec.decimal k)
                     && String.eqb (pad4 (Z.of_nat k)) (Spec.decimal k))
                   (seq (Z.to_nat 1000) (Z.to_nat 9000)) = true)
    by (vm_compute; reflexivity).
  pose proof (range_check _ _ _ (Z.to_nat y) Hall ltac:(lia)) as H.
  cbv beta in H. apply andb_true_iff in H as [H1 H2].
  apply String.eqb_eq in H1, H2. rewrite Z2Nat.id in H2 by lia. auto.
Qed.

(** The two renderings of [%Y] give the decimal numeral of a year of four
    digits. *)
Lemma year_renderings (y : Z) :
  1000 <= y <= 9999 ->
  str_of_int y = Spec.decimal (Z.to_nat y)
  /\ pad4 y = Spec.decimal (Z.to_nat y).
Proof.
  intros Hy. split.
  - rewrite <- str_of_int_decimal, Z2Nat.id by lia. reflexivity.
  - apply (four_digits_numeral y Hy).
Qed.

(** X22. From the year 1000 on, what [valid_date] returns is the form
    [YYYY-MM-DD] of the date it parsed, whenever [%Y] renders a year of four
    digits as its decimal numeral, which it does both where it is zero
    filled and where it is not. *)
Theorem valid_date_iso_from_year_1000 (fmt_year : Z -> string)
    (v s : string) :
  (forall y, 1000 <= y <= 9999 -> fmt_year y = Spec.decimal (Z.to_nat y)) ->
  valid_date fmt_year v = Ok s ->
  exists d,
    (strptime v "%Y-%m-%d" = Ok d \/ strptime v "%Y/%m/%d" = Ok d)
    /\ (1000 <= year d -> s = Spec.iso_date d).
Proof.
  intros Hfy Hv.
  destruct (valid_date_parsed _ _ _ Hv) as (d & Hd & -> & Hc & _).
  destruct (check_date_Ok _ _ Hc) as (_ & Hy & Hm & Hday).
  exists d. split; [exact Hd|]. intros H1000.
  assert (Hday' : 1 <= day d <= 31).
  { unfold days_in_month in Hday.
    repeat match type of Hday with
           | context [if ?b then _ else _] => destruct b
           end; lia. }
  rewrite strftime_Ymd, (Hfy _ (conj H1000 (proj2 Hy))).
  unfold Spec.iso_date.
  destruct (four_digits_numeral (year d) ltac:(lia)) as [-> _].
  rewrite <- !two_digits_numeral by lia. reflexivity.
Qed.

Lemma valid_date_iso_from_year_1000_witness :
  valid_date str_of_int "2022/3/20" = Ok "2022-03-20"
  /\ valid_date pad4 "2022/3/20" = Ok "2022-03-20"
  /\ exists d,
       strptime "2022/3/20" "%Y/%m/%d" = Ok d
       /\ Spec.iso_date d = "2022-03-20".
Proof.
  assert (H : valid_date str_of_int "2022/3/20" = Ok "2022-03-20")
    by (vm_compute; reflexivity).
  split; [exact H|]. split; [vm_compute; reflexivity|].
  destruct (valid_date_iso_from_year_1000 str_of_int _ _
              (fun y Hy => proj1 (year_renderings y Hy)) H)
    as (d & [Hd|Hd] & Hiso).
  - vm_compute in Hd. discriminate.
  - exists d. split; [exact Hd|]. symmetry. apply Hiso.
    vm_compute in Hd. injection Hd as <-. vm_compute. discriminate.
Defined.

End IsoDateFacts.
